(** * arxiv_crawler: a shallow embedding of the crawler and its download pipeline

    The development follows the three source files

    - [arxiv_crawler_base.py]    (class [ArxivCrawlerBase]),
    - [arxiv_crawler_linux.py]   (class [ArxivCrawlerLinux], aria2c backend),
    - [arxiv_crawler_windows.py] (class [ArxivCrawlerWindows], IDM backend).

    Python methods that touch the file system, the network, the clock or the
    logger are written in a small state-and-exception monad over a [World];
    the answers of the external collaborators (arXiv search, aria2c, IDM, the
    HTTP server, faults of [open]/[write]) are read from an [Env] record. *)

From Stdlib Require Import String Ascii List Permutation Sorted Lia.
From Stdlib Require Import DecimalString OrdersEx.
From stdpp Require Import gmap strings list.

Set Warnings "-register-all".

Open Scope string_scope.
Open Scope list_scope.
Open Scope stdpp_scope.

(** ** Data model *)

(** The part of a [datetime] that ["%Y-%m-%d"] reads. *)
Record datetime := { year : nat; month : nat; day : nat }.

Definition decimal (n : nat) : string := NilZero.string_of_uint (Nat.to_uint n).

Fixpoint zeros (n : nat) : string :=
  match n with
  | O => ""
  | S k => String "0" (zeros k)
  end.

Definition zfill (width : nat) (s : string) : string :=
  zeros (width - String.length s) +:+ s.

(** [d.strftime("%Y-%m-%d")]; years are padded to four digits (Python does so
    for every year >= 1000 on all platforms). *)
Definition strftime_Ymd (d : datetime) : string :=
  zfill 4 (decimal (year d)) +:+ "-" +:+ zfill 2 (decimal (month d))
    +:+ "-" +:+ zfill 2 (decimal (day d)).

(** An [arxiv.Result], restricted to the attributes the crawler reads.
    [authors] holds the [author.name] strings. *)
Record Paper := {
  get_short_id : string;
  title : string;
  authors : list string;
  summary : string;
  categories : list string;
  pdf_url : string;
  published : datetime;
  updated : datetime;
  comment : option string;
  doi : option string
}.

(** A [pathlib.Path] as its sequence of components; [p / s] appends one. *)
Definition path := list string.

Definition pjoin (p : path) (s : string) : path := p ++ [s].
Infix "/:" := pjoin (at level 40, left associativity).

(** JSON values as handed to [json.dump]. *)
Inductive json :=
| JNull
| JStr (s : string)
| JList (l : list json)
| JObj (fields : list (string * json)).

Inductive content :=
| Bytes (b : string)
| Text (t : string)
| Json (j : json).

Inductive level := DEBUG | INFO | WARNING | ERROR.

(** Observable actions, in the order they happen. *)
Inductive event :=
| Log (lvl : level) (msg : string)
| Mkdir (p : path)
| Subprocess (cmd : list string)
| HttpGet (url : string) (timeout : nat)
| Sleep (secs : nat)
| WriteFile (p : path).

Record World := {
  files : gmap path content;
  dirs : gset path;
  trace : list event;
  http_count : nat
}.

(** Python exceptions the code can meet.  [SystemExit] is a [BaseException]
    and is not caught by [except Exception]. *)
Inductive exn :=
| SystemExit (code : nat)
| FileNotFoundError (msg : string)
| OSError (msg : string)
| RequestException (msg : string)
| ValueError (msg : string).

Definition is_Exception (e : exn) : bool :=
  match e with
  | SystemExit _ => false
  | _ => true
  end.

(** [str(e)] *)
Definition str_exn (e : exn) : string :=
  match e with
  | SystemExit c => decimal c
  | FileNotFoundError m | OSError m | RequestException m | ValueError m => m
  end.

(** *** External collaborators *)

Inductive aria_result :=
| AriaNotFound                                   (* no aria2c executable *)
| AriaError (msg : string)                       (* any other exception *)
| AriaExit (returncode : Z) (written : option string).

Inductive idm_result :=
| IdmError (msg : string)
| IdmStarted (appears : option (nat * string)).  (* file shows up after n s *)

Inductive http_result :=
| HttpResponse (status_code : nat) (body : string)
| HttpError (msg : string).

Inductive write_fault :=
| OpenFails (msg : string)
| WriteFails (msg : string) (partial : content).

Record Env := {
  search_results : list Paper;              (* list(search.results()) *)
  aria2c : list string -> aria_result;      (* subprocess.run on Linux *)
  idm : list string -> idm_result;          (* subprocess.run on Windows *)
  http_get : nat -> string -> http_result;  (* n-th requests.get of the run *)
  write_faults : path -> option write_fault;
  query : string;                           (* what build_query() returns *)
  today : string;                           (* today().strftime("%Y-%m-%d") *)
  now : string;                             (* now().strftime(... %H:%M:%S) *)
  lower : string -> string                  (* str.lower *)
}.

(** ** The monad *)

Inductive result (A : Type) :=
| Ret (a : A)
| Raise (e : exn).
Arguments Ret {A} a.
Arguments Raise {A} e.

Definition M (A : Type) : Type := World -> result A * World.

Definition ret {A} (a : A) : M A := fun w => (Ret a, w).

Definition raise {A} (e : exn) : M A := fun w => (Raise e, w).

Definition bind {A B} (m : M A) (k : A -> M B) : M B :=
  fun w =>
    match m w with
    | (Ret a, w') => k a w'
    | (Raise e, w') => (Raise e, w')
    end.

Declare Scope crawl_scope.
Notation "x ← y ; z" := (bind y (fun x => z))
  (at level 20, y at level 100, z at level 200, only parsing) : crawl_scope.
Notation "x ;; z" := (bind x (fun _ => z))
  (at level 100, z at level 200, only parsing, right associativity) : crawl_scope.
Open Scope crawl_scope.

Definition add_events (evs : list event) (w : World) : World :=
  {| files := files w; dirs := dirs w;
     trace := trace w ++ evs; http_count := http_count w |}.

Definition emit (e : event) : M unit := fun w => (Ret tt, add_events [e] w).

Definition logging (lvl : level) (msg : string) : M unit := emit (Log lvl msg).

Definition sleep (secs : nat) : M unit := emit (Sleep secs).

(** All non-empty prefixes of a path: the directories [mkdir(parents=True)]
    makes sure exist. *)
Fixpoint prefixes (p : path) : list path :=
  match p with
  | [] => []
  | c :: q => [c] :: map (cons c) (prefixes q)
  end.

(** [p.mkdir(parents=True, exist_ok=True)] *)
Definition mkdir_p (p : path) : M unit :=
  fun w => (Ret tt, {| files := files w;
                       dirs := dirs w ∪ list_to_set (prefixes p);
                       trace := trace w ++ [Mkdir p];
                       http_count := http_count w |}).

(** [p.exists()] / [os.path.exists(p)] *)
Definition exists_in (w : World) (p : path) : bool :=
  bool_decide (is_Some (files w !! p)) || bool_decide (p ∈ dirs w).

Definition path_exists (p : path) : M bool := fun w => (Ret (exists_in w p), w).

Definition set_file (p : path) (c : content) (w : World) : World :=
  {| files := <[p := c]> (files w); dirs := dirs w;
     trace := trace w ++ [WriteFile p]; http_count := http_count w |}.

(** [with open(p, "w") as f: f.write(c)] (or [json.dump]). *)
Definition write_file (env : Env) (p : path) (c : content) : M unit :=
  fun w =>
    match write_faults env p with
    | None => (Ret tt, set_file p c w)
    | Some (OpenFails msg) => (Raise (OSError msg), w)
    | Some (WriteFails msg partial) => (Raise (OSError msg), set_file p partial w)
    end.

(** [requests.get(url, timeout=t)]: the status code and the body of the
    response, or the exception of the transport. *)
Definition requests_get (env : Env) (url : string) (timeout : nat)
  : M (nat * string) :=
  fun w =>
    let w' := {| files := files w; dirs := dirs w;
                 trace := trace w ++ [HttpGet url timeout];
                 http_count := S (http_count w) |} in
    match http_get env (http_count w) url with
    | HttpResponse status_code body => (Ret (status_code, body), w')
    | HttpError msg => (Raise (RequestException msg), w')
    end.

(** [try: m except ...], with a handler per caught exception class; [None]
    lets the exception through. *)
Definition try_with {A} (m : M A) (h : exn -> option (M A)) : M A :=
  fun w =>
    match m w with
    | (Ret a, w') => (Ret a, w')
    | (Raise e, w') =>
        match h e with
        | Some k => k w'
        | None => (Raise e, w')
        end
    end.

(** A write made by an external process: no event of the crawler's own. *)
Definition external_write (p : path) (c : option string) (w : World) : World :=
  match c with
  | Some b => {| files := <[p := Bytes b]> (files w); dirs := dirs w;
                 trace := trace w; http_count := http_count w |}
  | None => w
  end.

(** ** ArxivCrawlerBase *)

Record Crawler := {
  save_dir : path;
  days_back : nat;
  max_workers : nat;
  silent : bool;
  primary_keywords : list string;
  secondary_keywords : list string
}.

Definition pdf_dir (self : Crawler) : path := save_dir self /: "pdfs".
Definition info_dir (self : Crawler) : path := save_dir self /: "info".
Definition markdown_dir (self : Crawler) : path := save_dir self /: "markdown".

(** [__init__]: the three base directories are created, the keyword lists are
    fixed. *)
Definition init (save_dir : path) (days_back max_workers : nat) (silent : bool)
  : M Crawler :=
  let self := {| save_dir := save_dir; days_back := days_back;
                 max_workers := max_workers; silent := silent;
                 primary_keywords :=
                   ["diffusion model"; "score based"; "generative model"];
                 secondary_keywords :=
                   ["image generation"; "text to image"; "video generation";
                    "3d generation"] |} in
  mkdir_p (pdf_dir self) ;; mkdir_p (info_dir self) ;;
  mkdir_p (markdown_dir self) ;; ret self.

(** [needle in hay] on Python strings. *)
Fixpoint contains (needle hay : string) : bool :=
  String.prefix needle hay ||
  match hay with
  | EmptyString => false
  | String _ rest => contains needle rest
  end.

(** The test of the post-filter (lines 82-86). *)
Definition relevant (env : Env) (self : Crawler) (paper : Paper) : bool :=
  let title_lower := lower env (title paper) in
  let abstract_lower := lower env (summary paper) in
  existsb (fun kw => contains (lower env kw) title_lower
                     || contains (lower env kw) abstract_lower)
          (primary_keywords self).

Fixpoint filter_papers (env : Env) (self : Crawler) (papers : list Paper)
  : M (list Paper) :=
  match papers with
  | [] => ret []
  | paper :: rest =>
      if relevant env self paper then
        logging DEBUG ("找到相关论文: " +:+ title paper) ;;
        filtered ← filter_papers env self rest;
        ret (paper :: filtered)
      else filter_papers env self rest
  end.

Definition search_papers (env : Env) (self : Crawler) : M (list Paper) :=
  logging INFO ("搜索条件: " +:+ query env) ;;
  filter_papers env self (search_results env).

Definition format_date (date : datetime) : string := strftime_Ymd date.

Definition get_date_dir (date_str : string) (base_dir : path) : path :=
  base_dir /: date_str.

Definition json_opt (o : option string) : json :=
  match o with
  | Some s => JStr s
  | None => JNull
  end.

(** The [info] dictionary of [save_paper_info]. *)
Definition paper_info (paper : Paper) : json :=
  JObj [("id", JStr (get_short_id paper));
        ("title", JStr (title paper));
        ("authors", JList (map JStr (authors paper)));
        ("abstract", JStr (summary paper));
        ("categories", JList (map JStr (categories paper)));
        ("pdf_url", JStr (pdf_url paper));
        ("published", JStr (strftime_Ymd (published paper)));
        ("updated", JStr (strftime_Ymd (updated paper)));
        ("comment", json_opt (comment paper));
        ("doi", json_opt (doi paper))].

Definition info_path (self : Crawler) (paper : Paper) : path :=
  get_date_dir (strftime_Ymd (updated paper)) (info_dir self)
    /: (get_short_id paper +:+ ".json").

Definition save_paper_info (env : Env) (self : Crawler) (paper : Paper) : M bool :=
  let paper_id := get_short_id paper in
  let pub_date := strftime_Ymd (updated paper) in
  let date_info_dir := get_date_dir pub_date (info_dir self) in
  mkdir_p date_info_dir ;;
  let info_path := date_info_dir /: (paper_id +:+ ".json") in
  write_file env info_path (Json (paper_info paper)) ;;
  logging DEBUG ("保存论文信息: " +:+ title paper) ;;
  ret true.

(** The canonical PDF path of [check_paper_exists]. *)
Definition pdf_path (self : Crawler) (paper : Paper) : path :=
  get_date_dir (format_date (published paper)) (pdf_dir self)
    /: (get_short_id paper +:+ ".pdf").

Definition check_paper_exists (self : Crawler) (paper : Paper) : M bool :=
  let paper_id := get_short_id paper in
  let pub_date := format_date (published paper) in
  let pdf_path := get_date_dir pub_date (pdf_dir self) /: (paper_id +:+ ".pdf") in
  path_exists pdf_path.

(** *** generate_markdown *)

Definition nl : string := String "010"%char "".

(** [str(path)] *)
Definition str_path (p : path) : string := String.concat "/" p.

(** A stable sort, as [list.sort] and [sorted] are: [x] is put in front of the
    first element it may precede. *)
Fixpoint insert_by {A} (before : A -> A -> bool) (x : A) (l : list A) : list A :=
  match l with
  | [] => [x]
  | y :: l' => if before x y then x :: y :: l' else y :: insert_by before x l'
  end.

Definition sort_by {A} (before : A -> A -> bool) (l : list A) : list A :=
  fold_right (insert_by before) [] l.

(** [sorted(papers_by_date.items(), reverse=True)]: the keys of a dict are
    distinct, so the first component decides every comparison.  Python orders
    strings by code point; on UTF-8 text that is the byte order of
    [String.leb]. *)
Definition date_before (x y : string * list Paper) : bool :=
  String.leb (fst y) (fst x).

(** [date_papers.sort(key=lambda x: x.title.lower())] *)
Definition title_before (env : Env) (x y : Paper) : bool :=
  String.leb (lower env (title x)) (lower env (title y)).

(** The sections in the order they are written, each with its sorted list. *)
Definition digest_sections (env : Env) (papers_by_date : list (string * list Paper))
  : list (string * list Paper) :=
  map (fun '(pub_date, date_papers) =>
         (pub_date, sort_by (title_before env) date_papers))
      (sort_by date_before papers_by_date).

Definition truthy_str (o : option string) : option string :=
  match o with
  | Some "" => None
  | other => other
  end.

Definition render_paper (i : nat) (paper : Paper) : string :=
  "### " +:+ decimal i +:+ ". " +:+ title paper +:+ nl +:+ nl
  +:+ "**Authors:** " +:+ String.concat ", " (authors paper) +:+ nl +:+ nl
  +:+ "**arXiv:** [" +:+ get_short_id paper +:+ "](" +:+ pdf_url paper +:+ ")"
  +:+ nl +:+ nl
  +:+ "**Submitted:** " +:+ strftime_Ymd (published paper) +:+ nl
  +:+ "**Updated:** " +:+ strftime_Ymd (updated paper) +:+ nl +:+ nl
  +:+ match truthy_str (comment paper) with
      | Some c => "**Comments:** " +:+ c +:+ nl +:+ nl
      | None => ""
      end
  +:+ match truthy_str (doi paper) with
      | Some d => "**DOI:** [" +:+ d +:+ "](https://doi.org/" +:+ d +:+ ")"
                  +:+ nl +:+ nl
      | None => ""
      end
  +:+ "**Categories:** " +:+ String.concat ", " (categories paper) +:+ nl +:+ nl
  +:+ "**Abstract:**" +:+ nl
  +:+ summary paper +:+ nl +:+ nl
  +:+ "---" +:+ nl +:+ nl.

(** [for i, paper in enumerate(date_papers, i)] *)
Fixpoint render_papers (i : nat) (date_papers : list Paper) : string :=
  match date_papers with
  | [] => ""
  | paper :: rest => render_paper i paper +:+ render_papers (S i) rest
  end.

Definition render_section (sec : string * list Paper) : string :=
  "## " +:+ fst sec +:+ nl +:+ nl +:+ render_papers 1 (snd sec).

Definition render_sections (secs : list (string * list Paper)) : string :=
  String.concat "" (map render_section secs).

(** [sum(len(papers) for papers in papers_by_date.values())] *)
Definition total_papers (papers_by_date : list (string * list Paper)) : nat :=
  fold_right (fun kv acc => length (snd kv) + acc) 0 papers_by_date.

(** [min(keys)] and [max(keys)]; [None] stands for the [ValueError] Python
    raises on an empty sequence. *)
Definition py_min (keys : list string) : option string :=
  match keys with
  | [] => None
  | k :: rest => Some (fold_left (fun m x => if String.ltb x m then x else m) rest k)
  end.

Definition py_max (keys : list string) : option string :=
  match keys with
  | [] => None
  | k :: rest => Some (fold_left (fun m x => if String.ltb m x then x else m) rest k)
  end.

(** Everything written before the date-range line. *)
Definition digest_prefix (env : Env) (papers_by_date : list (string * list Paper))
    (date : string) : string :=
  "# 扩散模型相关论文 (" +:+ date +:+ ")" +:+ nl +:+ nl
  +:+ render_sections (digest_sections env papers_by_date)
  +:+ nl +:+ "## 统计信息" +:+ nl +:+ nl
  +:+ "- 总论文数: " +:+ decimal (total_papers papers_by_date) +:+ nl.

Definition digest_suffix (env : Env) (lo hi : string) : string :=
  "- 日期范围: " +:+ lo +:+ " 至 " +:+ hi +:+ nl
  +:+ "- 生成时间: " +:+ now env +:+ nl.

(** A [with open(p, "w")] block that an exception [e] leaves after [c] has
    been written: the file is closed with what it holds. *)
Definition interrupted_write (env : Env) (p : path) (c : content) (e : exn) : M unit :=
  fun w =>
    match write_faults env p with
    | None => (Raise e, set_file p c w)
    | Some (OpenFails msg) => (Raise (OSError msg), w)
    | Some (WriteFails msg partial) => (Raise (OSError msg), set_file p partial w)
    end.

Definition markdown_path (self : Crawler) (date : string) : path :=
  markdown_dir self /: ("papers_" +:+ date +:+ ".md").

Definition generate_markdown (env : Env) (self : Crawler)
    (papers_by_date : option (list (string * list Paper))) (date : string) : M unit :=
  mkdir_p (markdown_dir self) ;;
  let markdown_path := markdown_dir self /: ("papers_" +:+ date +:+ ".md") in
  let papers_by_date :=
    match papers_by_date with
    | None => []
    | Some d => d
    end in
  let written := digest_prefix env papers_by_date date in
  match py_min (map fst papers_by_date), py_max (map fst papers_by_date) with
  | Some lo, Some hi =>
      write_file env markdown_path (Text (written +:+ digest_suffix env lo hi)) ;;
      logging INFO ("Markdown 文档已生成: " +:+ str_path markdown_path)
  | _, _ =>
      interrupted_write env markdown_path (Text written)
        (ValueError "min() arg is an empty sequence")
  end.

(** *** run (base class) *)

Inductive pyvalue :=
| py_None
| py_bool (b : bool).

(** Truth value of a Python object in [if v:]. *)
Definition truthy (v : pyvalue) : bool :=
  match v with
  | py_None => false
  | py_bool b => b
  end.

(** [[paper for paper in papers if not self.check_paper_exists(paper)]] *)
Fixpoint select_new (self : Crawler) (papers : list Paper) : M (list Paper) :=
  match papers with
  | [] => ret []
  | paper :: rest =>
      found ← check_paper_exists self paper;
      new_rest ← select_new self rest;
      ret (if found then new_rest else paper :: new_rest)
  end.

(** The sequential download loop of the base class (lines 186-189). *)
Fixpoint download_loop (download_paper : Paper -> M pyvalue) (env : Env)
    (self : Crawler) (new_papers downloaded_papers : list Paper) : M (list Paper) :=
  match new_papers with
  | [] => ret downloaded_papers
  | paper :: rest =>
      ok ← download_paper paper;
      if truthy ok then
        save_paper_info env self paper ;;
        download_loop download_paper env self rest (downloaded_papers ++ [paper])
      else download_loop download_paper env self rest downloaded_papers
  end.

(** Lines 191-195, shared by the three [run] methods. *)
Definition finish_run (env : Env) (self : Crawler) (downloaded_papers : list Paper)
  : M unit :=
  match downloaded_papers with
  | [] => ret tt
  | _ :: _ =>
      logging INFO "生成markdown文档..." ;;
      generate_markdown env self (Some [(today env, downloaded_papers)]) (today env) ;;
      logging INFO ("markdown文档已生成: "
                    +:+ str_path (markdown_dir self /: ("papers_" +:+ today env +:+ ".md")))
  end.

(** Lines 173-178, which open the three [run] methods alike: search, then
    keep the papers that are not on disk yet. *)
Definition discover (env : Env) (self : Crawler) : M (list Paper) :=
  logging INFO "开始搜索论文..." ;;
  papers ← search_papers env self;
  logging INFO ("找到 " +:+ decimal (length papers) +:+ " 篇相关论文") ;;
  new_papers ← select_new self papers;
  logging INFO ("其中 " +:+ decimal (length new_papers) +:+ " 篇是新论文") ;;
  ret new_papers.

(** [ArxivCrawlerBase.run], over the abstract method [download_paper]. *)
Definition base_run (download_paper : Paper -> M pyvalue) (env : Env)
    (self : Crawler) : M unit :=
  new_papers ← discover env self;
  match new_papers with
  | [] => logging INFO "没有新的论文需要下载"
  | _ :: _ =>
      logging INFO "开始下载新论文..." ;;
      downloaded_papers ← download_loop download_paper env self new_papers [];
      finish_run env self downloaded_papers
  end.

(** ** The platform subclasses *)

(** *** Code the two subclasses share word for word *)

(** The HTTP fallback (lines 86-101 of both files); [attempts] is what is
    left of [range(retry)]. *)
Fixpoint http_fallback (env : Env) (pdf_path : path) (paper : Paper) (retry : nat)
    (attempts : list nat) : M (bool * Paper) :=
  match attempts with
  | [] =>
      logging ERROR ("所有下载方式均失败: " +:+ title paper) ;;
      ret (false, paper)
  | attempt :: rest =>
      done ← try_with
        (response ← requests_get env (pdf_url paper) 30;
         if Nat.eqb (fst response) 200 then
           write_file env pdf_path (Bytes (snd response)) ;;
           logging DEBUG ("普通下载成功: " +:+ title paper) ;;
           ret true
         else
           logging WARNING ("下载失败 (尝试 " +:+ decimal (attempt + 1) +:+ "/"
                            +:+ decimal retry +:+ "): 状态码 "
                            +:+ decimal (fst response)) ;;
           ret false)
        (fun e =>
           if is_Exception e then
             Some (logging WARNING ("下载失败 (尝试 " +:+ decimal (attempt + 1)
                                    +:+ "/" +:+ decimal retry +:+ "): "
                                    +:+ str_exn e) ;;
                   sleep 3 ;;
                   ret false)
           else None);
      if done then ret (true, paper)
      else http_fallback env pdf_path paper retry rest
  end.

(** [download_paper] of both subclasses: the outcome is dropped. *)
Definition download_paper_with
    (download_single_paper : Env -> Crawler -> Paper -> nat -> M (bool * Paper))
    (env : Env) (self : Crawler) (paper : Paper) (retry : nat) : M pyvalue :=
  success ← download_single_paper env self paper retry;
  ret py_None.

(** The worker pool, linearised: the submitted tasks run one after the other
    in the order [schedule] puts them, which is also the order [as_completed]
    yields them; a [Future] keeps the value or the exception of its task. *)
Fixpoint submit_all {A} (task : Paper -> M A) (papers : list Paper)
  : M (list (result A)) :=
  match papers with
  | [] => ret []
  | paper :: rest =>
      fun w =>
        let (future, w') := task paper w in
        (futures ← submit_all task rest; ret (future :: futures)) w'
  end.

(** The [as_completed] loop (lines 128-132); [future.result()] re-raises. *)
Fixpoint collect (env : Env) (self : Crawler) (futures : list (result (bool * Paper)))
    (downloaded_papers : list Paper) : M (list Paper) :=
  match futures with
  | [] => ret downloaded_papers
  | Ret (success, paper) :: rest =>
      if success then
        save_paper_info env self paper ;;
        collect env self rest (downloaded_papers ++ [paper])
      else collect env self rest downloaded_papers
  | Raise e :: _ => raise e
  end.

(** [run] of both subclasses (lines 103-138). *)
Definition pool_run
    (download_single_paper : Env -> Crawler -> Paper -> nat -> M (bool * Paper))
    (schedule : list Paper -> list Paper) (env : Env) (self : Crawler) : M unit :=
  new_papers ← discover env self;
  match new_papers with
  | [] => logging INFO "没有新的论文需要下载"
  | _ :: _ =>
      logging INFO "开始并行下载新论文..." ;;
      futures ← submit_all (fun paper => download_single_paper env self paper 3)
                           (schedule new_papers);
      downloaded_papers ← collect env self futures [];
      finish_run env self downloaded_papers
  end.

(** *** ArxivCrawlerLinux *)

Module Linux.

Definition aria2c_cmd (self : Crawler) (date_pdf_dir : path) (paper_id url : string)
  : list string :=
  ["aria2c"; "-x"; "16"; "-s"; "16"; "-k"; "1M"; "--file-allocation=none";
   "--max-tries=5"; "--retry-wait=3"; "--connect-timeout=10";
   "-d"; str_path date_pdf_dir; "-o"; paper_id +:+ ".pdf"]
  ++ (if silent self then ["--quiet"; "--console-log-level=error"] else [])
  ++ [url].

(** [subprocess.run(cmd, ...)]: the return code of aria2c. *)
Definition subprocess_run (env : Env) (cmd : list string) (target : path) : M Z :=
  fun w =>
    let w' := {| files := files w; dirs := dirs w;
                 trace := trace w ++ [Subprocess cmd];
                 http_count := http_count w |} in
    match aria2c env cmd with
    | AriaNotFound =>
        (Raise (FileNotFoundError "[Errno 2] No such file or directory: 'aria2c'"), w')
    | AriaError msg => (Raise (OSError msg), w')
    | AriaExit returncode written => (Ret returncode, external_write target written w')
    end.

Definition download_single_paper (env : Env) (self : Crawler) (paper : Paper)
    (retry : nat) : M (bool * Paper) :=
  let paper_id := get_short_id paper in
  let pub_date := strftime_Ymd (published paper) in
  let date_pdf_dir := pdf_dir self /: pub_date in
  mkdir_p date_pdf_dir ;;
  let pdf_path := date_pdf_dir /: (paper_id +:+ ".pdf") in
  found ← path_exists pdf_path;
  if found then
    logging DEBUG ("论文已存在: " +:+ title paper) ;;
    ret (true, paper)
  else
    logging INFO ("正在下载: " +:+ title paper) ;;
    done ← try_with
      (returncode ← subprocess_run env
                      (aria2c_cmd self date_pdf_dir paper_id (pdf_url paper))
                      pdf_path;
       if (returncode =? 0)%Z then
         logging DEBUG ("aria2c 下载成功: " +:+ title paper) ;;
         ret true
       else ret false)
      (fun e =>
         match e with
         | FileNotFoundError _ =>
             Some (logging ERROR "未找到 aria2c,请先安装: sudo apt install aria2" ;;
                   raise (SystemExit 1))
         | SystemExit _ => None
         | _ =>
             Some (logging WARNING ("aria2c 下载失败: " +:+ str_exn e
                                    +:+ ", 尝试普通下载") ;;
                   ret false)
         end);
    if done then ret (true, paper)
    else http_fallback env pdf_path paper retry (seq 0 retry).

Definition download_paper := download_paper_with download_single_paper.

Definition run := pool_run download_single_paper.

End Linux.

(** *** ArxivCrawlerWindows *)

Module Windows.

Definition idm_paths : list path :=
  [["C:\Program Files (x86)\Internet Download Manager\IDMan.exe"];
   ["C:\Program Files\Internet Download Manager\IDMan.exe"]].

(** The first of [idm_paths] that exists (lines 49-53). *)
Definition find_idm : M (option path) :=
  fun w => (Ret (List.find (exists_in w) idm_paths), w).

(** [subprocess.run(cmd, ...)]: IDM queues the download and goes on by
    itself; the file shows up later, or never. *)
Definition subprocess_run (env : Env) (cmd : list string)
  : M (option (nat * string)) :=
  fun w =>
    let w' := {| files := files w; dirs := dirs w;
                 trace := trace w ++ [Subprocess cmd];
                 http_count := http_count w |} in
    match idm env cmd with
    | IdmError msg => (Raise (OSError msg), w')
    | IdmStarted appears => (Ret appears, w')
    end.

(** What IDM has put on disk [elapsed] seconds after it was started. *)
Definition delivered (target : path) (appears : option (nat * string))
    (elapsed : nat) (w : World) : World :=
  match appears with
  | Some (delay, body) =>
      if Nat.leb delay elapsed then external_write target (Some body) w else w
  | None => w
  end.

(** The polling loop (lines 67-73).  The clock advances by the seconds
    slept; [budget] is the number of sleeps left before
    [time.time() - start_time > timeout] holds. *)
Fixpoint wait_for_file (paper : Paper) (target : path)
    (appears : option (nat * string)) (budget elapsed : nat) : M unit :=
  fun w =>
    let w1 := delivered target appears elapsed w in
    if exists_in w1 target then (Ret tt, w1)
    else
      match budget with
      | O => logging ERROR ("IDM 下载超时: " +:+ title paper) w1
      | S budget' =>
          (sleep 1 ;; wait_for_file paper target appears budget' (S elapsed)) w1
      end.

Definition timeout : nat := 300.

Definition download_single_paper (env : Env) (self : Crawler) (paper : Paper)
    (retry : nat) : M (bool * Paper) :=
  let paper_id := get_short_id paper in
  let pub_date := strftime_Ymd (published paper) in
  let date_pdf_dir := pdf_dir self /: pub_date in
  mkdir_p date_pdf_dir ;;
  let pdf_path := date_pdf_dir /: (paper_id +:+ ".pdf") in
  found ← path_exists pdf_path;
  if found then
    logging DEBUG ("论文已存在: " +:+ title paper) ;;
    ret (true, paper)
  else
    logging INFO ("正在下载: " +:+ title paper) ;;
    done ← try_with
      (idm_exe ← find_idm;
       match idm_exe with
       | Some exe =>
           let cmd := [str_path exe; "/d"; pdf_url paper;
                       "/p"; str_path date_pdf_dir;
                       "/f"; paper_id +:+ ".pdf"; "/q"] in
           appears ← subprocess_run env cmd;
           wait_for_file paper pdf_path appears (S timeout) 0 ;;
           arrived ← path_exists pdf_path;
           if arrived then
             logging DEBUG ("IDM 下载成功: " +:+ title paper) ;;
             ret true
           else ret false
       | None =>
           logging WARNING "未找到 IDM 安装路径,尝试普通下载" ;;
           ret false
       end)
      (fun e =>
         if is_Exception e then
           Some (logging WARNING ("IDM 下载失败: " +:+ str_exn e
                                  +:+ ", 尝试普通下载") ;;
                 ret false)
         else None);
    if done then ret (true, paper)
    else http_fallback env pdf_path paper retry (seq 0 retry).

Definition download_paper := download_paper_with download_single_paper.

Definition run := pool_run download_single_paper.

End Windows.

(** ** Sample data *)

Module Sample.

(** [str.lower] on ASCII text. *)
Definition lower_char (c : ascii) : ascii :=
  let n := nat_of_ascii c in
  if Nat.leb 65 n && Nat.leb n 90 then ascii_of_nat (n + 32) else c.

Fixpoint ascii_lower (s : string) : string :=
  match s with
  | EmptyString => EmptyString
  | String c rest => String (lower_char c) (ascii_lower rest)
  end.

Definition self : Crawler :=
  {| save_dir := ["~"; "papers"]; days_back := 14; max_workers := 5;
     silent := false;
     primary_keywords := ["diffusion model"; "score based"; "generative model"];
     secondary_keywords := ["image generation"; "text to image";
                            "video generation"; "3d generation"] |}.

Definition p1 : Paper :=
  {| get_short_id := "2401.00001v1";
     title := "Score Based sampling";
     authors := ["A. Author"; "B. Writer"];
     summary := "We study samplers.";
     categories := ["cs.CV"; "cs.LG"];
     pdf_url := "http://arxiv.org/pdf/2401.00001v1";
     published := {| year := 2024; month := 1; day := 2 |};
     updated := {| year := 2024; month := 1; day := 5 |};
     comment := Some "8 pages";
     doi := None |}.

Definition p2 : Paper :=
  {| get_short_id := "2401.00002v2";
     title := "a Diffusion Model for video";
     authors := ["C. Third"];
     summary := "Video generation.";
     categories := ["cs.CV"];
     pdf_url := "http://arxiv.org/pdf/2401.00002v2";
     published := {| year := 2024; month := 1; day := 3 |};
     updated := {| year := 2024; month := 1; day := 3 |};
     comment := None;
     doi := Some "10.1000/xyz" |}.

(** Matches no primary keyword. *)
Definition p3 : Paper :=
  {| get_short_id := "2401.00003v1";
     title := "Graph colouring";
     authors := ["D. Fourth"];
     summary := "Nothing generative here.";
     categories := ["cs.AI"];
     pdf_url := "http://arxiv.org/pdf/2401.00003v1";
     published := {| year := 2024; month := 1; day := 4 |};
     updated := {| year := 2024; month := 1; day := 4 |};
     comment := None;
     doi := None |}.

Definition empty_world : World :=
  {| files := ∅; dirs := ∅; trace := []; http_count := 0 |}.

(** aria2c is installed but fails; IDM is not installed; the server answers
    every request with status 500. *)
Definition env_500 : Env :=
  {| search_results := [p1; p3; p2];
     aria2c := fun _ => AriaExit 1 None;
     idm := fun _ => IdmStarted None;
     http_get := fun _ _ => HttpResponse 500 "Internal Server Error";
     write_faults := fun _ => None;
     query := "(q)";
     today := "2024-01-06";
     now := "2024-01-06 12:00:00";
     lower := ascii_lower |}.

(** As [env_500], with a server that answers 200. *)
Definition env_ok : Env :=
  {| search_results := [p1; p3; p2];
     aria2c := fun _ => AriaExit 1 None;
     idm := fun _ => IdmStarted None;
     http_get := fun _ _ => HttpResponse 200 "%PDF";
     write_faults := fun _ => None;
     query := "(q)";
     today := "2024-01-06";
     now := "2024-01-06 12:00:00";
     lower := ascii_lower |}.

(** As [env_ok], but no JSON file can be opened for writing. *)
Definition env_save_fails : Env :=
  {| search_results := [p1; p3; p2];
     aria2c := fun _ => AriaExit 1 None;
     idm := fun _ => IdmStarted None;
     http_get := fun _ _ => HttpResponse 200 "%PDF";
     write_faults := fun p =>
       if bool_decide (p = info_path self p1) || bool_decide (p = info_path self p2)
       then Some (OpenFails "[Errno 13] Permission denied")
       else None;
     query := "(q)";
     today := "2024-01-06";
     now := "2024-01-06 12:00:00";
     lower := ascii_lower |}.

(** As [env_ok], but the server refuses the PDF of [p2]. *)
Definition env_mixed : Env :=
  {| search_results := [p1; p3; p2];
     aria2c := fun _ => AriaExit 1 None;
     idm := fun _ => IdmStarted None;
     http_get := fun _ url =>
       if String.eqb url (pdf_url p1) then HttpResponse 200 "%PDF"
       else HttpResponse 500 "Internal Server Error";
     write_faults := fun _ => None;
     query := "(q)";
     today := "2024-01-06";
     now := "2024-01-06 12:00:00";
     lower := ascii_lower |}.

(** No aria2c executable. *)
Definition env_no_tool : Env :=
  {| search_results := [p1; p3; p2];
     aria2c := fun _ => AriaNotFound;
     idm := fun _ => IdmStarted None;
     http_get := fun _ _ => HttpResponse 200 "%PDF";
     write_faults := fun _ => None;
     query := "(q)";
     today := "2024-01-06";
     now := "2024-01-06 12:00:00";
     lower := ascii_lower |}.

Definition pdf_path_p1 : path :=
  pdf_dir self /: strftime_Ymd (published p1) /: (get_short_id p1 +:+ ".pdf").

Definition info_path_p1 : path :=
  save_dir self /: "info" /: strftime_Ymd (updated p1)
    /: (get_short_id p1 +:+ ".json").

(** The PDF of [p1] is on disk already. *)
Definition world_with_p1 : World :=
  {| files := {[ pdf_path self p1 := Bytes "%PDF" ]};
     dirs := list_to_set (prefixes (pdf_dir self /: "2024-01-02"));
     trace := []; http_count := 0 |}.

End Sample.

(** ** Vocabulary of the statements *)

(** [a] occurs in [b]. *)
Definition is_substring (a b : string) : Prop :=
  exists pre post, b = pre +:+ a +:+ post.

(** The log line of a paper the post-filter keeps. *)
Definition found_log (paper : Paper) : event :=
  Log DEBUG ("找到相关论文: " +:+ title paper).

(** [m] changes no file outside [Q] and adds only events that satisfy [P]. *)
Definition changes_only {A} (Q : path -> Prop) (P : event -> Prop) (m : M A) : Prop :=
  forall w,
    (forall q, ~ Q q -> files (snd (m w)) !! q = files w !! q)
    /\ exists evs, trace (snd (m w)) = trace w ++ evs /\ Forall P evs.

(** The events a download of [paper] may add: it writes no file but the
    canonical PDF. *)
Definition download_event (self : Crawler) (paper : Paper) (ev : event) : Prop :=
  match ev with
  | WriteFile q => q = pdf_path self paper
  | _ => True
  end.

(** The world [download_single_paper] leaves when the PDF is there already. *)
Definition skipped (self : Crawler) (paper : Paper) (w : World) : World :=
  {| files := files w;
     dirs := dirs w ∪ list_to_set (prefixes (pdf_dir self /: strftime_Ymd (published paper)));
     trace := trace w ++ [Mkdir (pdf_dir self /: strftime_Ymd (published paper));
                          Log DEBUG ("论文已存在: " +:+ title paper)];
     http_count := http_count w |}.

Definition is_HttpGet (ev : event) : bool :=
  match ev with
  | HttpGet _ _ => true
  | _ => false
  end.

Definition is_Sleep (ev : event) : bool :=
  match ev with
  | Sleep _ => true
  | _ => false
  end.

(** Every answer of the server to a request for [url] is a status other than
    200. *)
Definition always_non200 (env : Env) (url : string) : Prop :=
  forall n, exists status_code body,
    http_get env n url = HttpResponse status_code body /\ status_code <> 200.

(** What the digest file holds when [generate_markdown] is given no date. *)
Definition truncated_digest (date : string) : string :=
  "# 扩散模型相关论文 (" +:+ date +:+ ")" +:+ nl +:+ nl
  +:+ nl +:+ "## 统计信息" +:+ nl +:+ nl
  +:+ "- 总论文数: 0" +:+ nl.

(** The papers [run] finds to be new in world [w]. *)
Definition new_papers_of (env : Env) (self : Crawler) (w : World) : list Paper :=
  List.filter (fun paper => negb (exists_in w (pdf_path self paper)))
    (List.filter (relevant env self) (search_results env)).

(** What [discover] logs. *)
Definition discover_log (env : Env) (self : Crawler) (w : World) : list event :=
  let kept := List.filter (relevant env self) (search_results env) in
  [Log INFO "开始搜索论文..."; Log INFO ("搜索条件: " +:+ query env)]
  ++ map found_log kept
  ++ [Log INFO ("找到 " +:+ decimal (length kept) +:+ " 篇相关论文");
      Log INFO ("其中 " +:+ decimal (length (new_papers_of env self w))
                +:+ " 篇是新论文")].

(** The world in which the pool starts its tasks. *)
Definition pool_start (env : Env) (self : Crawler) (w : World) : World :=
  add_events (discover_log env self w ++ [Log INFO "开始并行下载新论文..."]) w.

(** A future whose task returned. *)
Definition returned {A} (future : result A) : Prop :=
  match future with
  | Ret _ => True
  | Raise _ => False
  end.

(** The papers of the futures that hold [(True, paper)], in their order. *)
Definition successes (futures : list (result (bool * Paper))) : list Paper :=
  flat_map (fun future =>
              match future with
              | Ret (true, paper) => [paper]
              | _ => []
              end) futures.


(** The events of one [save_paper_info] that meets no fault. *)
Definition save_events (self : Crawler) (paper : Paper) : list event :=
  [Mkdir (info_dir self /: strftime_Ymd (updated paper));
   WriteFile (info_path self paper);
   Log DEBUG ("保存论文信息: " +:+ title paper)].

(** The world after such a save. *)
Definition saved_world (self : Crawler) (w : World) (paper : Paper) : World :=
  {| files := <[info_path self paper := Json (paper_info paper)]> (files w);
     dirs := dirs w ∪ list_to_set
               (prefixes (info_dir self /: strftime_Ymd (updated paper)));
     trace := trace w ++ save_events self paper;
     http_count := http_count w |}.



(** What the spec promises when [save_paper_info] fails: the run goes on to
    its end and the digest is there. *)
Definition tolerates_save_failure (run : M unit) (digest : path) (w : World) : Prop :=
  fst (run w) = Ret tt /\ is_Some (files (snd (run w)) !! digest).

Definition fault_message (fault : write_fault) : string :=
  match fault with
  | OpenFails msg => msg
  | WriteFails msg _ => msg
  end.

(** The events of a [save_paper_info] that meets [fault]. *)
Definition failed_save_events (self : Crawler) (paper : Paper) (fault : write_fault)
  : list event :=
  Mkdir (info_dir self /: strftime_Ymd (updated paper))
  :: match fault with
     | OpenFails _ => []
     | WriteFails _ _ => [WriteFile (info_path self paper)]
     end.

(** The remediation hint of the Linux backend. *)
Definition missing_aria2c_hint : string :=
  "未找到 aria2c,请先安装: sudo apt install aria2".


(** The world in which the Windows download starts the HTTP fallback when no
    IDM executable is found. *)
Definition windows_no_idm_world (self : Crawler) (paper : Paper) (w : World) : World :=
  let date_pdf_dir := pdf_dir self /: strftime_Ymd (published paper) in
  {| files := files w;
     dirs := dirs w ∪ list_to_set (prefixes date_pdf_dir);
     trace := trace w ++
       [Mkdir date_pdf_dir;
        Log INFO ("正在下载: " +:+ title paper);
        Log WARNING "未找到 IDM 安装路径,尝试普通下载"];
     http_count := http_count w |}.


(** Whenever [m] returns, its value satisfies [R]. *)
Definition returns {A} (R : A -> Prop) (m : M A) : Prop :=
  forall w a w', m w = (Ret a, w') -> R a.

(** [q] is the canonical PDF path of some paper. *)
Definition is_pdf_path (self : Crawler) (q : path) : Prop :=
  exists paper, q = pdf_path self paper.

(** Events of a run that writes no file but PDFs. *)
Definition pdf_write_only (self : Crawler) (ev : event) : Prop :=
  match ev with
  | WriteFile q => is_pdf_path self q
  | _ => True
  end.

(** aria2c was started and did not succeed: it exited with a code other than
    0, or [subprocess.run] raised something other than [FileNotFoundError]. *)
Definition aria2c_failed (r : aria_result) : Prop :=
  match r with
  | AriaExit returncode _ => returncode <> 0%Z
  | AriaError _ => True
  | AriaNotFound => False
  end.

(** The world in which the Linux download starts the HTTP fallback after
    aria2c answered [r]. *)
Definition linux_fallback_world (self : Crawler) (paper : Paper) (r : aria_result)
    (w : World) : World :=
  let date_pdf_dir := pdf_dir self /: strftime_Ymd (published paper) in
  let started :=
    {| files := files w;
       dirs := dirs w ∪ list_to_set (prefixes date_pdf_dir);
       trace := trace w ++
         [Mkdir date_pdf_dir;
          Log INFO ("正在下载: " +:+ title paper);
          Subprocess (Linux.aria2c_cmd self date_pdf_dir (get_short_id paper)
                        (pdf_url paper))];
       http_count := http_count w |} in
  match r with
  | AriaExit _ written => external_write (pdf_path self paper) written started
  | AriaError msg =>
      add_events [Log WARNING ("aria2c 下载失败: " +:+ msg +:+ ", 尝试普通下载")]
        started
  | AriaNotFound => started
  end.

(** ** Further vocabulary *)

(** Every request for [url] fails in the transport. *)
Definition always_error (env : Env) (url : string) : Prop :=
  forall n, exists msg, http_get env n url = HttpError msg.

(** The [k] requests that follow the state of [w] are answered with a status
    other than 200, the next one with 200 and [body]. *)
Definition first_200_after (env : Env) (url : string) (w : World) (k : nat)
    (body : string) : Prop :=
  (forall i, i < k ->
     exists status_code b,
       http_get env (http_count w + i) url = HttpResponse status_code b
       /\ status_code <> 200)
  /\ http_get env (http_count w + k) url = HttpResponse 200 body.

(** The outcome of [m] in [w] satisfies [Post] if [m] returns and [Exc] if it
    raises. *)
Definition wp {A} (m : M A) (Post : A -> World -> Prop) (Exc : exn -> World -> Prop)
    (w : World) : Prop :=
  match m w with
  | (Ret a, w') => Post a w'
  | (Raise e, w') => Exc e w'
  end.

(** [w'] has every file and directory of [w], a trace that continues the one
    of [w], and a request counter that is not smaller. *)
Definition world_le (w w' : World) : Prop :=
  (forall p, is_Some (files w !! p) -> is_Some (files w' !! p))
  /\ dirs w ⊆ dirs w'
  /\ (exists evs, trace w' = trace w ++ evs)
  /\ http_count w <= http_count w'.

(** [m] only adds to the world. *)
Definition extends {A} (m : M A) : Prop := forall w, world_le w (snd (m w)).

(** Every request for [url] is answered with status 200. *)
Definition always_200 (env : Env) (url : string) : Prop :=
  forall n, exists body, http_get env n url = HttpResponse 200 body.

(** ** build_query *)

(** The double quote of the f-strings of [build_query]. *)
Definition double_quote : string := String "034"%char "".

Definition quoted (kw : string) : string := double_quote +:+ kw +:+ double_quote.

(** [d.strftime("%Y%m%d")] *)
Definition strftime_Ymd_compact (d : datetime) : string :=
  zfill 4 (decimal (year d)) +:+ zfill 2 (decimal (month d))
    +:+ zfill 2 (decimal (day d)).

(** [build_query] (lines 51-66); [today] is [datetime.datetime.now()] and
    [minus_days d n] is [d - datetime.timedelta(days=n)] of the [datetime]
    library. *)
Definition build_query (minus_days : datetime -> nat -> datetime) (self : Crawler)
    (today : datetime) : string :=
  let primary_query := String.concat " OR " (map quoted (primary_keywords self)) in
  let secondary_query := String.concat " OR " (map quoted (secondary_keywords self)) in
  let query := "(" +:+ primary_query +:+ ")" in
  let query :=
    match secondary_query with
    | EmptyString => query
    | _ => query +:+ " AND (" +:+ secondary_query +:+ ")"
    end in
  let start_date := minus_days today (days_back self) in
  let query := query +:+ " AND lastUpdatedDate:[" +:+ strftime_Ymd_compact start_date
                 +:+ "0000 TO " +:+ strftime_Ymd_compact today +:+ "2359]" in
  query +:+ " AND (cat:cs.CV OR cat:cs.LG OR cat:cs.AI)".

(** The last line of the log of a failed download. *)
Definition failure_log (paper : Paper) : event :=
  Log ERROR ("所有下载方式均失败: " +:+ title paper).

(** * Properties *)

(** ** Strings and their order *)

Section StringOrder.

Lemma ascii_compare_Lt (a b : ascii) :
  Ascii.compare a b = Lt <-> (N_of_ascii a < N_of_ascii b)%N.
Proof. unfold Ascii.compare. apply N.compare_lt_iff. Qed.

Lemma ascii_compare_Gt (a b : ascii) :
  Ascii.compare a b = Gt <-> (N_of_ascii b < N_of_ascii a)%N.
Proof. unfold Ascii.compare. apply N.compare_gt_iff. Qed.

Lemma ascii_compare_Eq (a b : ascii) :
  Ascii.compare a b = Eq <-> N_of_ascii a = N_of_ascii b.
Proof. unfold Ascii.compare. apply N.compare_eq_iff. Qed.

Lemma string_compare_refl (s : string) : String.compare s s = Eq.
Proof.
  induction s as [|c s IH]; simpl; [reflexivity|].
  rewrite (proj2 (ascii_compare_Eq c c) eq_refl). exact IH.
Qed.

Lemma string_compare_not_Gt_trans (a b c : string) :
  String.compare a b <> Gt -> String.compare b c <> Gt ->
  String.compare a c <> Gt.
Proof.
  revert b c. induction a as [|x a IH]; intros [|y b] [|z c]; simpl;
    try congruence.
  destruct (Ascii.compare x y) eqn:Hxy; try congruence;
    destruct (Ascii.compare y z) eqn:Hyz; try congruence; intros H1 H2.
  all: destruct (Ascii.compare x z) eqn:Hxz.
  all: repeat match goal with
         | H : Ascii.compare _ _ = Eq |- _ => apply (proj1 (ascii_compare_Eq _ _)) in H
         | H : Ascii.compare _ _ = Lt |- _ => apply (proj1 (ascii_compare_Lt _ _)) in H
         | H : Ascii.compare _ _ = Gt |- _ => apply (proj1 (ascii_compare_Gt _ _)) in H
         end.
  all: try discriminate; try (exfalso; lia); eauto.
Qed.

Lemma leb_not_Gt (a b : string) : String.leb a b = true <-> String.compare a b <> Gt.
Proof. unfold String.leb. destruct (String.compare a b); split; congruence. Qed.

Lemma leb_trans (a b c : string) :
  String.leb a b = true -> String.leb b c = true -> String.leb a c = true.
Proof. rewrite !leb_not_Gt. apply string_compare_not_Gt_trans. Qed.

Lemma leb_refl (a : string) : String.leb a a = true.
Proof. unfold String.leb. now rewrite string_compare_refl. Qed.

(** [ltb] is [leb] without equality. *)
Lemma ltb_leb_ne (a b : string) :
  String.ltb a b = true <-> String.leb a b = true /\ a <> b.
Proof.
  unfold String.ltb, String.leb. split.
  - destruct (String.compare a b) eqn:E; try discriminate. intros _.
    split; [reflexivity|]. intros ->. rewrite string_compare_refl in E.
    discriminate.
  - intros [H Hne]. destruct (String.compare a b) eqn:E; try congruence.
    apply String.compare_eq_iff in E. contradiction.
Qed.


Lemma append_cons (c : ascii) (a b : string) :
  String c a +:+ b = String c (a +:+ b).
Proof. reflexivity. Qed.

Lemma append_nil (b : string) : "" +:+ b = b.
Proof. reflexivity. Qed.

Lemma prefix_spec (a b : string) :
  String.prefix a b = true <-> exists post, b = a +:+ post.
Proof.
  revert b. induction a as [|x a IH]; intros [|y b]; simpl.
  - split; [intros _; now exists "" | reflexivity].
  - split; [intros _; now exists (String y b) | reflexivity].
  - split; [discriminate | intros [post H]; rewrite append_cons in H; discriminate].
  - destruct (ascii_dec x y) as [->|Hne].
    + rewrite IH. split; intros [post H]; exists post;
        rewrite append_cons in *; congruence.
    + split; [discriminate | intros [post H]; rewrite append_cons in H; congruence].
Qed.

End StringOrder.

(** [needle in hay] holds exactly when [hay] has [needle] as a substring. *)
Lemma contains_spec (needle hay : string) :
  contains needle hay = true <-> is_substring needle hay.
Proof.
  unfold is_substring. induction hay as [|c hay IH].
  - change (contains needle "") with (String.prefix needle "" || false).
    rewrite orb_false_r, prefix_spec. split.
    + intros [post H]. exists "", post. exact H.
    + intros [[|x pre] [post H]]; [eauto | rewrite append_cons in H; discriminate].
  - change (contains needle (String c hay))
      with (String.prefix needle (String c hay) || contains needle hay).
    rewrite orb_true_iff, prefix_spec, IH. split.
    + intros [[post H] | (pre & post & H)].
      * exists "", post. exact H.
      * exists (String c pre), post. rewrite append_cons. now rewrite H.
    + intros [[|x pre] [post H]].
      * left. exists post. exact H.
      * right. exists pre, post. rewrite append_cons in H. congruence.
Qed.

(** ** The stable sort *)

Section Sorting.

Context {A : Type} (before : A -> A -> bool).

Lemma insert_by_perm (x : A) (l : list A) : Permutation (insert_by before x l) (x :: l).
Proof.
  induction l as [|y l IH]; simpl; [reflexivity|].
  destruct (before x y); [reflexivity|].
  rewrite IH. apply perm_swap.
Qed.

Lemma sort_by_perm (l : list A) : Permutation (sort_by before l) l.
Proof.
  induction l as [|x l IH]; simpl; [reflexivity|].
  rewrite insert_by_perm. now constructor.
Qed.

Lemma sort_by_length (l : list A) : length (sort_by before l) = length l.
Proof. apply Permutation_length, sort_by_perm. Qed.

Hypothesis before_total : forall x y, before x y = true \/ before y x = true.
Hypothesis before_trans :
  forall x y z, before x y = true -> before y z = true -> before x z = true.

Lemma insert_by_sorted (x : A) (l : list A) :
  StronglySorted (fun a b => before a b = true) l ->
  StronglySorted (fun a b => before a b = true) (insert_by before x l).
Proof.
  induction 1 as [|y l Hs IH Hy]; simpl.
  - repeat constructor.
  - destruct (before x y) eqn:E.
    + constructor; [now constructor|]. constructor; [exact E|].
      eapply List.Forall_impl; [|exact Hy]. intros z Hz. simpl in Hz. eauto.
    + constructor; [exact IH|].
      eapply Permutation_Forall; [symmetry; apply insert_by_perm|].
      constructor; [|exact Hy].
      destruct (before_total x y); congruence.
Qed.

Lemma sort_by_sorted (l : list A) :
  StronglySorted (fun a b => before a b = true) (sort_by before l).
Proof.
  induction l as [|x l IH]; simpl; [constructor|].
  now apply insert_by_sorted.
Qed.

End Sorting.

(** Sorting on a key commutes with projecting the key. *)
Lemma sort_by_map {A B} (f : A -> B) (before : B -> B -> bool) (l : list A) :
  map f (sort_by (fun x y => before (f x) (f y)) l) = sort_by before (map f l).
Proof.
  induction l as [|x l IH]; simpl; [reflexivity|].
  rewrite <- IH. generalize (sort_by (fun x y => before (f x) (f y)) l).
  intros s. induction s as [|y s IHs]; simpl; [reflexivity|].
  destruct (before (f x) (f y)); simpl; [reflexivity|]. now rewrite IHs.
Qed.


(** ** Worlds and events *)

Lemma add_events_nil (w : World) : add_events [] w = w.
Proof. destruct w. unfold add_events. simpl. now rewrite app_nil_r. Qed.

Lemma add_events_app (l1 l2 : list event) (w : World) :
  add_events l2 (add_events l1 w) = add_events (l1 ++ l2) w.
Proof. unfold add_events. simpl. now rewrite app_assoc. Qed.

Lemma exists_in_add_events (evs : list event) (w : World) (p : path) :
  exists_in (add_events evs w) p = exists_in w p.
Proof. reflexivity. Qed.

(** ** Search: the post-filter *)

Lemma filter_papers_spec (env : Env) (self : Crawler) (papers : list Paper) (w : World) :
  filter_papers env self papers w
  = (Ret (List.filter (relevant env self) papers),
     add_events (map found_log (List.filter (relevant env self) papers)) w).
Proof.
  revert w. induction papers as [|paper rest IH]; intros w; simpl.
  - unfold ret. now rewrite add_events_nil.
  - destruct (relevant env self paper); [|apply IH].
    unfold bind, logging, emit. rewrite IH. unfold ret. simpl.
    now rewrite add_events_app.
Qed.

Lemma relevant_spec (env : Env) (self : Crawler) (paper : Paper) :
  relevant env self paper = true <->
  exists kw, In kw (primary_keywords self) /\
    (is_substring (lower env kw) (lower env (title paper)) \/
     is_substring (lower env kw) (lower env (summary paper))).
Proof.
  unfold relevant. rewrite existsb_exists.
  split; intros (kw & Hin & H); exists kw; (split; [exact Hin|]).
  - apply orb_true_iff in H. now rewrite <- !contains_spec.
  - apply orb_true_iff. now rewrite !contains_spec.
Qed.

Lemma filter_idem {A} (f : A -> bool) (l : list A) :
  List.filter f (List.filter f l) = List.filter f l.
Proof.
  induction l as [|x l IH]; simpl; [reflexivity|].
  destruct (f x) eqn:E; simpl; [rewrite E|]; congruence.
Qed.

(** C6.  The post-filter of [search_papers] keeps exactly the results whose
    title or abstract, lowercased, has a lowercased primary keyword as a
    substring, in their order; it raises nothing and logs nothing for the
    papers it drops; and filtering its own output again gives the same list. *)
Theorem search_filter_exact_and_idempotent (env : Env) (self : Crawler) (w : World) :
  let kept := List.filter (relevant env self) (search_results env) in
  search_papers env self w
  = (Ret kept,
     add_events (Log INFO ("搜索条件: " +:+ query env) :: map found_log kept) w)
  /\ (forall paper,
        In paper kept <->
        In paper (search_results env) /\
        exists kw, In kw (primary_keywords self) /\
          (is_substring (lower env kw) (lower env (title paper)) \/
           is_substring (lower env kw) (lower env (summary paper))))
  /\ (forall w', fst (filter_papers env self kept w') = Ret kept).
Proof.
  intros kept. split; [|split].
  - unfold search_papers, bind, logging, emit.
    rewrite filter_papers_spec. fold kept. now rewrite add_events_app.
  - intros paper. unfold kept. rewrite filter_In, relevant_spec. reflexivity.
  - intros w'. rewrite filter_papers_spec. simpl. unfold kept.
    now rewrite filter_idem.
Qed.

(** ** The digest: order of sections and of records *)

Lemma date_before_total (x y : string * list Paper) :
  date_before x y = true \/ date_before y x = true.
Proof. unfold date_before. apply String.leb_total. Qed.

Lemma date_before_trans (x y z : string * list Paper) :
  date_before x y = true -> date_before y z = true -> date_before x z = true.
Proof. unfold date_before. intros H1 H2. eapply leb_trans; eauto. Qed.



Lemma digest_sections_keys (env : Env) (d : list (string * list Paper)) :
  map fst (digest_sections env d) = sort_by (fun a b => String.leb b a) (map fst d).
Proof.
  unfold digest_sections. rewrite map_map.
  rewrite <- (sort_by_map fst (fun a b => String.leb b a) d).
  apply map_ext. now intros [k l].
Qed.






(** ** Footprints of the monadic operations *)

Section Footprint.

Context (Q : path -> Prop) (P : event -> Prop).

Lemma changes_only_ret {A} (a : A) : changes_only Q P (ret a).
Proof.
  intros w. split; [reflexivity|]. exists []. simpl.
  now rewrite app_nil_r.
Qed.

Lemma changes_only_raise {A} (e : exn) : changes_only Q P (@raise A e).
Proof.
  intros w. split; [reflexivity|]. exists []. simpl.
  now rewrite app_nil_r.
Qed.

Lemma changes_only_bind {A B} (m : M A) (k : A -> M B) :
  changes_only Q P m -> (forall a, changes_only Q P (k a)) ->
  changes_only Q P (bind m k).
Proof.
  intros Hm Hk w. unfold bind. destruct (Hm w) as [Hf (evs & Ht & HP)].
  destruct (m w) as [[a|e] w1]; simpl in *.
  - destruct (Hk a w1) as [Hf' (evs' & Ht' & HP')]. split.
    + intros q Hq. now rewrite Hf', Hf.
    + exists (evs ++ evs'). rewrite Ht', Ht, app_assoc. split; [reflexivity|].
      now apply Forall_app.
  - split; [exact Hf|]. now exists evs.
Qed.

Lemma changes_only_try_with {A} (m : M A) (h : exn -> option (M A)) :
  changes_only Q P m -> (forall e k, h e = Some k -> changes_only Q P k) ->
  changes_only Q P (try_with m h).
Proof.
  intros Hm Hh w. unfold try_with. destruct (Hm w) as [Hf (evs & Ht & HP)].
  destruct (m w) as [[a|e] w1]; simpl in *.
  - split; [exact Hf|]. now exists evs.
  - destruct (h e) as [k|] eqn:E.
    + destruct (Hh e k E w1) as [Hf' (evs' & Ht' & HP')]. split.
      * intros q Hq. now rewrite Hf', Hf.
      * exists (evs ++ evs'). rewrite Ht', Ht, app_assoc. split; [reflexivity|].
        now apply Forall_app.
    + split; [exact Hf|]. now exists evs.
Qed.

Lemma changes_only_emit (e : event) : P e -> changes_only Q P (emit e).
Proof.
  intros He w. split; [reflexivity|]. exists [e]. split; [reflexivity|].
  now constructor.
Qed.

Lemma changes_only_logging (lvl : level) (msg : string) :
  P (Log lvl msg) -> changes_only Q P (logging lvl msg).
Proof. apply changes_only_emit. Qed.

Lemma changes_only_sleep (secs : nat) :
  P (Sleep secs) -> changes_only Q P (sleep secs).
Proof. apply changes_only_emit. Qed.

Lemma changes_only_mkdir_p (p : path) : P (Mkdir p) -> changes_only Q P (mkdir_p p).
Proof.
  intros He w. split; [reflexivity|]. exists [Mkdir p]. split; [reflexivity|].
  now constructor.
Qed.

Lemma changes_only_path_exists (p : path) : changes_only Q P (path_exists p).
Proof.
  intros w. split; [reflexivity|]. exists []. simpl. now rewrite app_nil_r.
Qed.

Lemma changes_only_set_file (p : path) (c : content) (w : World) :
  Q p -> P (WriteFile p) ->
  (forall q, ~ Q q -> files (set_file p c w) !! q = files w !! q)
  /\ exists evs, trace (set_file p c w) = trace w ++ evs /\ Forall P evs.
Proof.
  intros Hq He. split.
  - intros q Hnq. simpl. apply lookup_insert_ne. intros ->. contradiction.
  - exists [WriteFile p]. split; [reflexivity | now constructor].
Qed.

Lemma changes_only_unchanged (w : World) :
  (forall q, ~ Q q -> files w !! q = files w !! q)
  /\ exists evs, trace w = trace w ++ evs /\ Forall P evs.
Proof. split; [reflexivity|]. exists []. now rewrite app_nil_r. Qed.

Lemma changes_only_write_file (env : Env) (p : path) (c : content) :
  Q p -> P (WriteFile p) -> changes_only Q P (write_file env p c).
Proof.
  intros Hq He w. unfold write_file.
  destruct (write_faults env p) as [[msg|msg partial]|];
    first [ now apply changes_only_set_file | apply changes_only_unchanged ].
Qed.

Lemma changes_only_interrupted_write (env : Env) (p : path) (c : content) (e : exn) :
  Q p -> P (WriteFile p) -> changes_only Q P (interrupted_write env p c e).
Proof.
  intros Hq He w. unfold interrupted_write.
  destruct (write_faults env p) as [[msg|msg partial]|];
    first [ now apply changes_only_set_file | apply changes_only_unchanged ].
Qed.

Lemma changes_only_requests_get (env : Env) (url : string) (t : nat) :
  P (HttpGet url t) -> changes_only Q P (requests_get env url t).
Proof.
  intros He w. unfold requests_get.
  destruct (http_get env (http_count w) url); simpl;
    (split; [reflexivity|]); exists [HttpGet url t];
    (split; [reflexivity | now constructor]).
Qed.

Lemma changes_only_external_write (p : path) (c : option string) (w : World) :
  Q p ->
  (forall q, ~ Q q -> files (external_write p c w) !! q = files w !! q)
  /\ trace (external_write p c w) = trace w.
Proof.
  intros Hq. destruct c as [b|]; simpl; [|now split]. split; [|reflexivity].
  intros q Hnq. apply lookup_insert_ne. intros ->. contradiction.
Qed.

End Footprint.

Lemma changes_only_weaken {A} (Q Q' : path -> Prop) (P P' : event -> Prop) (m : M A) :
  (forall q, Q q -> Q' q) -> (forall e, P e -> P' e) ->
  changes_only Q P m -> changes_only Q' P' m.
Proof.
  intros HQ HP Hm w. destruct (Hm w) as [Hf (evs & Ht & Hall)]. split.
  - intros q Hq. apply Hf. auto.
  - exists evs. split; [exact Ht|]. eapply List.Forall_impl; [|exact Hall]. auto.
Qed.

(** Goes through a computation built from the operations above. *)
Ltac footprint :=
  repeat first
    [ progress intros
    | apply changes_only_bind
    | apply changes_only_ret
    | apply changes_only_raise
    | apply changes_only_logging
    | apply changes_only_sleep
    | apply changes_only_mkdir_p
    | apply changes_only_path_exists
    | apply changes_only_write_file
    | apply changes_only_requests_get
    | match goal with
      | |- changes_only _ _ (if ?b then _ else _) => destruct b
      | |- changes_only _ _ (match ?x with _ => _ end) => destruct x
      end
    | exact I
    | reflexivity ].

(** The HTTP fallback writes nothing but its target. *)
Lemma http_fallback_footprint (env : Env) (self : Crawler) (paper : Paper)
    (retry : nat) (attempts : list nat) :
  changes_only (eq (pdf_path self paper)) (download_event self paper)
    (http_fallback env (pdf_path self paper) paper retry attempts).
Proof.
  induction attempts as [|attempt rest IH]; simpl.
  - footprint.
  - apply changes_only_bind.
    + apply changes_only_try_with.
      * footprint.
      * intros e k. destruct (is_Exception e); [|discriminate].
        intros [= <-]. footprint.
    + intros [|]; [footprint | exact IH].
Qed.

(** ** The download pipeline *)

Lemma linux_subprocess_run_footprint (env : Env) (self : Crawler) (paper : Paper)
    (cmd : list string) :
  changes_only (eq (pdf_path self paper)) (download_event self paper)
    (Linux.subprocess_run env cmd (pdf_path self paper)).
Proof.
  intros w. unfold Linux.subprocess_run.
  destruct (aria2c env cmd) as [|msg|code written]; simpl.
  1, 2: split; [reflexivity|]; exists [Subprocess cmd];
        split; [reflexivity | now repeat constructor].
  match goal with
  | |- context [external_write ?p ?c ?w0] =>
      destruct (changes_only_external_write (eq p) p c w0 eq_refl) as [Hf Ht]
  end.
  split; [exact Hf|]. exists [Subprocess cmd]. rewrite Ht.
  split; [reflexivity | now repeat constructor].
Qed.

Lemma linux_download_footprint (env : Env) (self : Crawler) (paper : Paper)
    (retry : nat) :
  changes_only (eq (pdf_path self paper)) (download_event self paper)
    (Linux.download_single_paper env self paper retry).
Proof.
  unfold Linux.download_single_paper.
  apply changes_only_bind; [footprint|]. intros _.
  apply changes_only_bind; [footprint|]. intros [|]; [footprint|].
  apply changes_only_bind; [footprint|]. intros _.
  apply changes_only_bind.
  - apply changes_only_try_with.
    + apply changes_only_bind; [apply linux_subprocess_run_footprint|].
      footprint.
    + intros e k. destruct e; intros [= <-]; footprint.
  - intros [|]; [footprint | apply http_fallback_footprint].
Qed.

Lemma windows_wait_for_file_footprint (self : Crawler) (paper : Paper)
    (appears : option (nat * string)) (budget elapsed : nat) :
  changes_only (eq (pdf_path self paper)) (download_event self paper)
    (Windows.wait_for_file paper (pdf_path self paper) appears budget elapsed).
Proof.
  revert elapsed. induction budget as [|budget IH]; intros elapsed w; simpl.
  all: assert (Hd : (forall q, pdf_path self paper <> q ->
                       files (Windows.delivered (pdf_path self paper) appears elapsed w) !! q
                       = files w !! q)
                    /\ trace (Windows.delivered (pdf_path self paper) appears elapsed w)
                       = trace w).
  1, 3: unfold Windows.delivered; destruct appears as [[delay body]|];
        [destruct (Nat.leb delay elapsed)|]; try (now split);
        apply (changes_only_external_write (eq (pdf_path self paper))); reflexivity.
  all: destruct Hd as [Hf Ht];
       set (w1 := Windows.delivered (pdf_path self paper) appears elapsed w) in *;
       destruct (exists_in w1 (pdf_path self paper)).
  1, 3: simpl; split; [exact Hf|]; exists []; now rewrite app_nil_r.
  - simpl. split; [exact Hf|]. rewrite Ht. eexists. split; [reflexivity|].
    now repeat constructor.
  - assert (Hk : changes_only (eq (pdf_path self paper)) (download_event self paper)
                   (bind (sleep 1) (fun _ =>
                      Windows.wait_for_file paper (pdf_path self paper) appears
                        budget (S elapsed)))).
    { apply changes_only_bind; [footprint | intros _; apply IH]. }
    destruct (Hk w1) as [Hf' (evs & Ht' & HP)]. split.
    + intros q Hq. now rewrite Hf', Hf.
    + exists evs. now rewrite Ht', Ht.
Qed.

Lemma windows_subprocess_run_footprint (Q : path -> Prop) (P : event -> Prop)
    (env : Env) (cmd : list string) :
  P (Subprocess cmd) -> changes_only Q P (Windows.subprocess_run env cmd).
Proof.
  intros He w. unfold Windows.subprocess_run.
  destruct (idm env cmd); simpl; (split; [reflexivity|]);
    exists [Subprocess cmd]; (split; [reflexivity | now constructor]).
Qed.

Lemma windows_download_footprint (env : Env) (self : Crawler) (paper : Paper)
    (retry : nat) :
  changes_only (eq (pdf_path self paper)) (download_event self paper)
    (Windows.download_single_paper env self paper retry).
Proof.
  unfold Windows.download_single_paper.
  apply changes_only_bind; [footprint|]. intros _.
  apply changes_only_bind; [footprint|]. intros [|]; [footprint|].
  apply changes_only_bind; [footprint|]. intros _.
  apply changes_only_bind.
  - apply changes_only_try_with.
    + apply changes_only_bind.
      { intros w. split; [reflexivity|]. exists []. simpl. now rewrite app_nil_r. }
      intros [exe|]; [|footprint].
      apply changes_only_bind; [now apply windows_subprocess_run_footprint|].
      intros appears.
      apply changes_only_bind; [apply windows_wait_for_file_footprint|].
      footprint.
    + intros e k. destruct (is_Exception e); [|discriminate].
      intros [= <-]. footprint.
  - intros [|]; [footprint | apply http_fallback_footprint].
Qed.

(** *** The skip check *)

Lemma exists_in_file (w : World) (p : path) :
  is_Some (files w !! p) -> exists_in w p = true.
Proof.
  intros H. unfold exists_in. now rewrite (bool_decide_eq_true_2 _ H).
Qed.

(** C2.  When the canonical PDF of a paper is on disk, [check_paper_exists]
    answers true and [download_single_paper], on either platform, returns
    success after creating the date directory (a no-op when it is there) and
    one debug line: no subprocess is started, no request is sent, no file is
    written, and the files are what they were. *)
Theorem existing_pdf_is_skipped (env : Env) (self : Crawler) (paper : Paper)
    (retry : nat) (w : World) :
  is_Some (files w !! (pdf_dir self /: strftime_Ymd (published paper)
                         /: (get_short_id paper +:+ ".pdf"))) ->
  check_paper_exists self paper w = (Ret true, w)
  /\ Linux.download_single_paper env self paper retry w
     = (Ret (true, paper), skipped self paper w)
  /\ Windows.download_single_paper env self paper retry w
     = (Ret (true, paper), skipped self paper w)
  /\ files (skipped self paper w) = files w
  /\ http_count (skipped self paper w) = http_count w
  /\ trace (skipped self paper w)
     = trace w ++ [Mkdir (pdf_dir self /: strftime_Ymd (published paper));
                   Log DEBUG ("论文已存在: " +:+ title paper)]
  /\ (list_to_set (prefixes (pdf_dir self /: strftime_Ymd (published paper))) ⊆ dirs w ->
      dirs (skipped self paper w) = dirs w).
Proof.
  intros Hfile.
  assert (H1 : exists_in w (pdf_path self paper) = true)
    by now apply exists_in_file.
  assert (H2 : forall evs d,
             exists_in {| files := files w; dirs := d; trace := evs;
                          http_count := http_count w |} (pdf_path self paper) = true)
    by (intros; now apply exists_in_file).
  split; [|split; [|split; [|split; [|split; [|split]]]]].
  - unfold check_paper_exists, path_exists, get_date_dir, format_date. cbv zeta.
    unfold pdf_path, get_date_dir, format_date in H1. now rewrite H1.
  - unfold Linux.download_single_paper, bind, mkdir_p, path_exists. cbv zeta.
    unfold pdf_path, get_date_dir, format_date in H2. rewrite H2.
    unfold logging, emit, add_events, ret, skipped. simpl. now rewrite <- app_assoc.
  - unfold Windows.download_single_paper, bind, mkdir_p, path_exists. cbv zeta.
    unfold pdf_path, get_date_dir, format_date in H2. rewrite H2.
    unfold logging, emit, add_events, ret, skipped. simpl. now rewrite <- app_assoc.
  - reflexivity.
  - reflexivity.
  - reflexivity.
  - intros Hsub. simpl. rewrite (comm_L (∪)). now apply subseteq_union_1_L.
Qed.

(** The theorem at a world that holds the PDF of the first sample paper. *)
Lemma existing_pdf_is_skipped_witness :
  is_Some (files Sample.world_with_p1 !! Sample.pdf_path_p1)
  /\ Linux.download_single_paper Sample.env_500 Sample.self Sample.p1 3
       Sample.world_with_p1
     = (Ret (true, Sample.p1), skipped Sample.self Sample.p1 Sample.world_with_p1).
Proof.
  assert (H : is_Some (files Sample.world_with_p1 !! Sample.pdf_path_p1))
    by (eexists; vm_compute; reflexivity).
  split; [exact H|].
  exact (proj1 (proj2 (existing_pdf_is_skipped Sample.env_500 Sample.self
                         Sample.p1 3 Sample.world_with_p1 H))).
Defined.

(** *** The HTTP fallback under a server that never answers 200 *)

Lemma http_fallback_step_non200 (env : Env) (target : path) (paper : Paper)
    (retry attempt : nat) (rest : list nat) (w : World) (code : nat) (body : string) :
  http_get env (http_count w) (pdf_url paper) = HttpResponse code body ->
  code <> 200 ->
  http_fallback env target paper retry (attempt :: rest) w
  = http_fallback env target paper retry rest
      {| files := files w; dirs := dirs w;
         trace := trace w ++
           [HttpGet (pdf_url paper) 30;
            Log WARNING ("下载失败 (尝试 " +:+ decimal (attempt + 1) +:+ "/"
                         +:+ decimal retry +:+ "): 状态码 " +:+ decimal code)];
         http_count := S (http_count w) |}.
Proof.
  intros Hget Hcode. cbn -[String.append].
  unfold bind at 1, try_with, bind at 1, requests_get. rewrite Hget.
  cbn -[String.append].
  destruct (Nat.eqb_spec code 200) as [->|_]; [contradiction|].
  unfold bind at 1, logging, emit, ret, add_events. cbn -[String.append].
  now rewrite <- app_assoc.
Qed.

Lemma http_fallback_non200 (env : Env) (target : path) (paper : Paper)
    (retry : nat) (attempts : list nat) (w : World) :
  always_non200 env (pdf_url paper) ->
  exists evs,
    http_fallback env target paper retry attempts w
    = (Ret (false, paper),
       {| files := files w; dirs := dirs w; trace := trace w ++ evs;
          http_count := http_count w + length attempts |})
    /\ length (List.filter is_HttpGet evs) = length attempts
    /\ List.filter is_Sleep evs = [].
Proof.
  intros Hsrv. revert w. induction attempts as [|attempt rest IH]; intros w.
  - exists [Log ERROR ("所有下载方式均失败: " +:+ title paper)].
    split; [|split; reflexivity].
    cbn -[String.append]. unfold bind, logging, emit, ret, add_events.
    cbn -[String.append]. now rewrite Nat.add_0_r.
  - destruct (Hsrv (http_count w)) as (code & body & Hget & Hcode).
    rewrite (http_fallback_step_non200 _ _ _ _ _ _ _ _ _ Hget Hcode).
    match goal with
    | |- context [http_fallback _ _ _ _ _ ?w1] =>
        destruct (IH w1) as (evs & Heq & Hget' & Hsleep)
    end.
    cbn [files dirs trace http_count] in Heq. rewrite Heq.
    eexists (_ :: _ :: evs). split; [|split].
    + rewrite <- app_assoc. cbn [app length]. rewrite (Nat.add_succ_r (http_count w)). reflexivity.
    + cbn [List.filter is_HttpGet length]. now rewrite Hget'.
    + cbn [List.filter is_Sleep]. exact Hsleep.
Qed.

(** Against such a server the fallback sends one request per attempt, never
    sleeps, and fails. *)
Lemma http_fallback_non200_total (env : Env) (target : path)
    (paper : Paper) (retry : nat) (w : World) :
  always_non200 env (pdf_url paper) ->
  exists evs w',
    http_fallback env target paper retry (seq 0 retry) w = (Ret (false, paper), w')
    /\ trace w' = trace w ++ evs
    /\ length (List.filter is_HttpGet evs) = retry
    /\ List.filter is_Sleep evs = []
    /\ files w' = files w
    /\ http_count w' = http_count w + retry.
Proof.
  intros Hsrv.
  destruct (http_fallback_non200 env target paper retry (seq 0 retry) w Hsrv)
    as (evs & Heq & Hget & Hsleep).
  rewrite length_seq in *.
  eexists evs, _. split; [exact Heq|]. simpl. auto.
Qed.

(** The whole pipeline on that server, on Linux (aria2c exits with 1): three
    requests, back to back, then the failure. *)
Example linux_always_500 :
  let out := Linux.download_single_paper Sample.env_500 Sample.self Sample.p1 3
               Sample.empty_world in
  fst out = Ret (false, Sample.p1)
  /\ List.filter (fun ev => is_HttpGet ev || is_Sleep ev) (trace (snd out))
     = [HttpGet (pdf_url Sample.p1) 30; HttpGet (pdf_url Sample.p1) 30;
        HttpGet (pdf_url Sample.p1) 30].
Proof. vm_compute. split; reflexivity. Qed.

(** The same on Windows (IDM is not installed). *)
Example windows_always_500 :
  let out := Windows.download_single_paper Sample.env_500 Sample.self Sample.p1 3
               Sample.empty_world in
  fst out = Ret (false, Sample.p1)
  /\ List.filter (fun ev => is_HttpGet ev || is_Sleep ev) (trace (snd out))
     = [HttpGet (pdf_url Sample.p1) 30; HttpGet (pdf_url Sample.p1) 30;
        HttpGet (pdf_url Sample.p1) 30].
Proof. vm_compute. split; reflexivity. Qed.

(** The sibling branch: after a transport error the loop does sleep. *)
Example linux_transport_error_sleeps :
  let env := {| search_results := []; aria2c := fun _ => AriaExit 1 None;
                idm := fun _ => IdmStarted None;
                http_get := fun _ _ => HttpError "Connection refused";
                write_faults := fun _ => None; query := "";
                today := "2024-01-06"; now := ""; lower := Sample.ascii_lower |} in
  let out := Linux.download_single_paper env Sample.self Sample.p1 3
               Sample.empty_world in
  fst out = Ret (false, Sample.p1)
  /\ List.filter (fun ev => is_HttpGet ev || is_Sleep ev) (trace (snd out))
     = [HttpGet (pdf_url Sample.p1) 30; Sleep 3; HttpGet (pdf_url Sample.p1) 30;
        Sleep 3; HttpGet (pdf_url Sample.p1) 30; Sleep 3].
Proof. vm_compute. split; reflexivity. Qed.

(** ** The metadata store and the layout on disk *)

Lemma save_paper_info_ok (env : Env) (self : Crawler) (paper : Paper) (w : World) :
  write_faults env (info_path self paper) = None ->
  save_paper_info env self paper w
  = (Ret true,
     {| files := <[info_path self paper := Json (paper_info paper)]> (files w);
        dirs := dirs w ∪ list_to_set
                  (prefixes (info_dir self /: strftime_Ymd (updated paper)));
        trace := trace w ++ [Mkdir (info_dir self /: strftime_Ymd (updated paper));
                             WriteFile (info_path self paper);
                             Log DEBUG ("保存论文信息: " +:+ title paper)];
        http_count := http_count w |}).
Proof.
  intros Hw. unfold save_paper_info, bind, mkdir_p, write_file. cbv zeta.
  unfold info_path, get_date_dir in *. rewrite Hw.
  unfold logging, emit, ret, set_file, add_events. cbn -[String.append].
  now rewrite <- !app_assoc.
Qed.

Lemma prefixes_self (p : path) : p <> [] -> In p (prefixes p).
Proof.
  induction p as [|c p IH]; [congruence|]. intros _. simpl.
  destruct p as [|c' p]; [now left|]. right.
  apply in_map. apply IH. discriminate.
Qed.

(** C8.  [save_paper_info] creates [info/<updated>] and writes the record to
    [info/<updated>/<id>.json], touching no other file; the record holds both
    dates; [check_paper_exists] looks at [pdfs/<published>/<id>.pdf], and that
    is the only file a download, on either platform, can change. *)
Theorem storage_layout (env : Env) (self : Crawler) (paper : Paper) (w : World) :
  let json_path := save_dir self /: "info" /: strftime_Ymd (updated paper)
                     /: (get_short_id paper +:+ ".json") in
  let pdf := save_dir self /: "pdfs" /: strftime_Ymd (published paper)
               /: (get_short_id paper +:+ ".pdf") in
  write_faults env json_path = None ->
  let saved := save_paper_info env self paper w in
  fst saved = Ret true
  /\ files (snd saved) !! json_path = Some (Json (paper_info paper))
  /\ (forall q, q <> json_path -> files (snd saved) !! q = files w !! q)
  /\ save_dir self /: "info" /: strftime_Ymd (updated paper) ∈ dirs (snd saved)
  /\ (exists fields,
        paper_info paper = JObj fields
        /\ In ("published", JStr (strftime_Ymd (published paper))) fields
        /\ In ("updated", JStr (strftime_Ymd (updated paper))) fields)
  /\ check_paper_exists self paper w = (Ret (exists_in w pdf), w)
  /\ (forall retry q,
        q <> pdf ->
        files (snd (Linux.download_single_paper env self paper retry w)) !! q
        = files w !! q
        /\ files (snd (Windows.download_single_paper env self paper retry w)) !! q
           = files w !! q).
Proof.
  intros json_path pdf Hw saved. unfold saved.
  rewrite (save_paper_info_ok env self paper w Hw). cbn [fst snd files dirs].
  split; [reflexivity|]. split; [apply lookup_insert_eq|].
  split; [intros q Hq; now apply lookup_insert_ne|].
  split.
  { apply elem_of_union_r, elem_of_list_to_set, list_elem_of_In, prefixes_self.
    unfold pjoin. intros H. apply app_eq_nil in H as [_ H]. discriminate. }
  split.
  { eexists. split; [reflexivity|]. simpl. tauto. }
  split; [reflexivity|].
  intros retry q Hq. split.
  - apply (linux_download_footprint env self paper retry w).
    intros Heq. apply Hq. symmetry. exact Heq.
  - apply (windows_download_footprint env self paper retry w).
    intros Heq. apply Hq. symmetry. exact Heq.
Qed.

(** The theorem at the first sample paper, whose two dates differ. *)
Lemma storage_layout_witness :
  write_faults Sample.env_ok (Sample.info_path_p1) = None
  /\ files (snd (save_paper_info Sample.env_ok Sample.self Sample.p1
                   Sample.empty_world))
       !! ["~"; "papers"; "info"; "2024-01-05"; "2401.00001v1.json"]
     = Some (Json (paper_info Sample.p1)).
Proof.
  split; [reflexivity|].
  exact (proj1 (proj2 (storage_layout Sample.env_ok Sample.self Sample.p1
                         Sample.empty_world eq_refl))).
Defined.

(** ** The digest on an empty mapping *)

(** C10.  Given [None] or an empty mapping, [generate_markdown] opens the
    digest file, writes the title and the statistics header with a total of
    0, and then raises the [ValueError] of [min] on the empty key set: the
    file is left without its last two lines. *)
Theorem generate_markdown_empty_raises (env : Env) (self : Crawler) (date : string)
    (papers_by_date : option (list (string * list Paper))) (w : World) :
  write_faults env (markdown_dir self /: ("papers_" +:+ date +:+ ".md")) = None ->
  papers_by_date = None \/ papers_by_date = Some [] ->
  let out := generate_markdown env self papers_by_date date w in
  fst out = Raise (ValueError "min() arg is an empty sequence")
  /\ files (snd out) !! (markdown_dir self /: ("papers_" +:+ date +:+ ".md"))
     = Some (Text (truncated_digest date))
  /\ trace (snd out)
     = trace w ++ [Mkdir (markdown_dir self);
                   WriteFile (markdown_dir self /: ("papers_" +:+ date +:+ ".md"))].
Proof.
  intros Hw Hin out. unfold out, generate_markdown, bind, mkdir_p.
  destruct Hin as [-> | ->]; cbn -[String.append];
    unfold interrupted_write; rewrite Hw; cbn -[String.append];
    (split; [reflexivity|]); (split; [apply lookup_insert_eq|]);
    now rewrite <- app_assoc.
Qed.

(** The theorem at the sample crawler, called with [None]. *)
Lemma generate_markdown_empty_raises_witness :
  write_faults Sample.env_ok
    (markdown_dir Sample.self /: ("papers_" +:+ "2024-01-06" +:+ ".md")) = None
  /\ fst (generate_markdown Sample.env_ok Sample.self None "2024-01-06"
            Sample.empty_world)
     = Raise (ValueError "min() arg is an empty sequence").
Proof.
  split; [reflexivity|].
  exact (proj1 (generate_markdown_empty_raises Sample.env_ok Sample.self
                  "2024-01-06" None Sample.empty_world eq_refl (or_introl eq_refl))).
Defined.

(** ** The orchestration *)

Lemma select_new_spec (self : Crawler) (papers : list Paper) (w : World) :
  select_new self papers w
  = (Ret (List.filter (fun paper => negb (exists_in w (pdf_path self paper))) papers), w).
Proof.
  induction papers as [|paper rest IH]; simpl; [reflexivity|].
  unfold bind, check_paper_exists, path_exists. rewrite IH. unfold ret.
  unfold pdf_path, get_date_dir, format_date.
  now destruct (exists_in w _).
Qed.

Lemma discover_spec (env : Env) (self : Crawler) (w : World) :
  discover env self w
  = (Ret (new_papers_of env self w), add_events (discover_log env self w) w).
Proof.
  unfold discover, bind at 1, logging at 1, emit.
  unfold bind at 1.
  destruct (search_filter_exact_and_idempotent env self
              (add_events [Log INFO "开始搜索论文..."] w)) as [-> _].
  unfold bind at 1, logging at 1, emit.
  unfold bind at 1. rewrite select_new_spec.
  unfold bind, logging, emit, ret. rewrite !add_events_app.
  unfold new_papers_of, discover_log. cbn -[String.append].
  rewrite <- !app_assoc. reflexivity.
Qed.



Lemma info_path_not_markdown (self : Crawler) (paper : Paper) (date : string) :
  info_path self paper <> markdown_path self date.
Proof.
  unfold info_path, markdown_path, get_date_dir, info_dir, markdown_dir, pjoin.
  intros H. apply (f_equal (@length string)) in H.
  rewrite !length_app in H. simpl in H. lia.
Qed.

Lemma markdown_after_saves (self : Crawler) (papers : list Paper) (date : string)
    (w : World) :
  files (fold_left (saved_world self) papers w) !! markdown_path self date
  = files w !! markdown_path self date.
Proof.
  revert w. induction papers as [|paper rest IH]; intros w; [reflexivity|].
  cbn [fold_left]. rewrite IH. unfold saved_world. cbn [files].
  apply lookup_insert_ne, info_path_not_markdown.
Qed.





Lemma pool_run_unfold
    (download_single_paper : Env -> Crawler -> Paper -> nat -> M (bool * Paper))
    (schedule : list Paper -> list Paper) (env : Env) (self : Crawler) (w : World)
    (futures : list (result (bool * Paper))) (w2 : World) :
  new_papers_of env self w <> [] ->
  submit_all (fun paper => download_single_paper env self paper 3)
    (schedule (new_papers_of env self w)) (pool_start env self w) = (Ret futures, w2) ->
  pool_run download_single_paper schedule env self w
  = bind (collect env self futures []) (finish_run env self) w2.
Proof.
  intros Hne Hsub. unfold pool_run, bind at 1. rewrite discover_spec.
  destruct (new_papers_of env self w) as [|paper rest] eqn:E; [congruence|].
  unfold bind at 1, logging at 1, emit. rewrite add_events_app.
  unfold bind at 1. unfold pool_start in Hsub. rewrite Hsub. reflexivity.
Qed.



(** *** A save that fails *)

Lemma save_paper_info_fails (env : Env) (self : Crawler) (paper : Paper) (w : World)
    (fault : write_fault) :
  write_faults env (info_path self paper) = Some fault ->
  exists w',
    save_paper_info env self paper w = (Raise (OSError (fault_message fault)), w')
    /\ trace w' = trace w ++ failed_save_events self paper fault
    /\ forall date, files w' !! markdown_path self date
                    = files w !! markdown_path self date.
Proof.
  intros Hw. unfold save_paper_info, bind, mkdir_p, write_file. cbv zeta.
  unfold info_path, get_date_dir in *. rewrite Hw.
  destruct fault as [msg|msg partial]; eexists; (split; [reflexivity|]).
  - split; [reflexivity|]. reflexivity.
  - split.
    + cbn [trace set_file failed_save_events]. now rewrite <- app_assoc.
    + intros date. cbn [files set_file].
      apply lookup_insert_ne, (info_path_not_markdown self paper date).
Qed.

Lemma collect_save_fails (env : Env) (self : Crawler)
    (pre post : list (result (bool * Paper))) (paper : Paper) (acc : list Paper)
    (w : World) (fault : write_fault) :
  Forall returned pre ->
  (forall q, In q (successes pre) -> write_faults env (info_path self q) = None) ->
  write_faults env (info_path self paper) = Some fault ->
  exists w',
    collect env self (pre ++ Ret (true, paper) :: post) acc w
    = (Raise (OSError (fault_message fault)), w')
    /\ trace w' = trace w ++ flat_map (save_events self) (successes pre)
                  ++ failed_save_events self paper fault
    /\ forall date, files w' !! markdown_path self date
                    = files w !! markdown_path self date.
Proof.
  intros Hret. revert acc w.
  induction Hret as [|future rest Hfut Hrest IH]; intros acc w Hok Hfault.
  - cbn [app collect successes flat_map]. unfold bind.
    destruct (save_paper_info_fails env self paper w fault Hfault)
      as (w' & -> & Ht & Hf).
    exists w'. auto.
  - destruct future as [[[|] q]|e]; [| |contradiction].
    + cbn [app collect successes flat_map]. unfold bind at 1.
      rewrite save_paper_info_ok by (apply Hok; now left).
      destruct (IH (acc ++ [q])
                  {| files := <[info_path self q := Json (paper_info q)]> (files w);
                     dirs := dirs w ∪ list_to_set
                               (prefixes (info_dir self /: strftime_Ymd (updated q)));
                     trace := trace w ++ save_events self q;
                     http_count := http_count w |})
        as (w' & Heq & Ht & Hf); [intros r Hr; apply Hok; now right | exact Hfault |].
      exists w'. split; [exact Heq|]. split.
      * rewrite Ht. cbn [trace]. now rewrite <- !app_assoc.
      * intros date. rewrite Hf. cbn [files].
        apply lookup_insert_ne, info_path_not_markdown.
    + cbn [app collect successes flat_map]. now apply IH.
Qed.

(** C3, as the code has it.  When the save of a successfully downloaded paper
    fails, nothing catches the error: [run] ends with that [OSError] as soon
    as the paper's future is collected, after the saves of the successes
    collected before it; no warning is logged, no later result is processed,
    and no digest is written. *)
Theorem save_failure_aborts_run
    (download_single_paper : Env -> Crawler -> Paper -> nat -> M (bool * Paper))
    (schedule : list Paper -> list Paper) (env : Env) (self : Crawler) (w : World)
    (pre post : list (result (bool * Paper))) (paper : Paper) (w2 : World)
    (fault : write_fault) :
  new_papers_of env self w <> [] ->
  submit_all (fun paper => download_single_paper env self paper 3)
    (schedule (new_papers_of env self w)) (pool_start env self w)
  = (Ret (pre ++ Ret (true, paper) :: post), w2) ->
  Forall returned pre ->
  (forall q, In q (successes pre) -> write_faults env (info_path self q) = None) ->
  write_faults env (info_path self paper) = Some fault ->
  exists w',
    pool_run download_single_paper schedule env self w
    = (Raise (OSError (fault_message fault)), w')
    /\ trace w' = trace w2 ++ flat_map (save_events self) (successes pre)
                  ++ failed_save_events self paper fault
    /\ files w' !! markdown_path self (today env)
       = files w2 !! markdown_path self (today env).
Proof.
  intros Hne Hsub Hret Hok Hfault.
  rewrite (pool_run_unfold _ _ _ _ _ _ _ Hne Hsub). unfold bind.
  destruct (collect_save_fails env self pre post paper [] w2 fault Hret Hok Hfault)
    as (w' & -> & Ht & Hf).
  exists w'. auto.
Qed.

(** The theorem on Linux, where both new papers are downloaded and the first
    save fails. *)
Lemma save_failure_aborts_run_witness :
  let env := Sample.env_save_fails in
  let w := Sample.empty_world in
  let out := submit_all (fun paper => Linux.download_single_paper env Sample.self paper 3)
               (new_papers_of env Sample.self w) (pool_start env Sample.self w) in
  fst out = Ret [Ret (true, Sample.p1); Ret (true, Sample.p2)]
  /\ exists w',
       Linux.run (fun l => l) env Sample.self w
       = (Raise (OSError "[Errno 13] Permission denied"), w')
       /\ files w' !! markdown_path Sample.self "2024-01-06"
          = files (snd out) !! markdown_path Sample.self "2024-01-06".
Proof.
  intros env w out.
  assert (Hout : fst out = Ret [Ret (true, Sample.p1); Ret (true, Sample.p2)])
    by (vm_compute; reflexivity).
  split; [exact Hout|].
  assert (Hsub : out = (Ret [Ret (true, Sample.p1); Ret (true, Sample.p2)], snd out))
    by (rewrite <- Hout; now destruct out).
  assert (Hne : new_papers_of env Sample.self w <> [])
    by (vm_compute; discriminate).
  destruct (save_failure_aborts_run Linux.download_single_paper (fun l => l)
              env Sample.self w [] [Ret (true, Sample.p2)] Sample.p1 (snd out)
              (OpenFails "[Errno 13] Permission denied")
              Hne Hsub (List.Forall_nil _) (fun q (H : In q []) => match H with end)
              eq_refl)
    as (w' & Hrun & _ & Hfiles).
  exists w'. split; [exact Hrun | exact Hfiles].
Defined.

(** C3, as the spec has it, fails: on Linux, with two new papers downloaded
    and a metadata file that cannot be opened, the run ends with the
    [OSError], no warning is logged, and there is no digest. *)
Lemma save_failure_not_tolerated :
  let out := Linux.run (fun l => l) Sample.env_save_fails Sample.self
               Sample.empty_world in
  fst out = Raise (OSError "[Errno 13] Permission denied")
  /\ files (snd out) !! markdown_path Sample.self "2024-01-06" = None
  /\ List.filter (fun ev => match ev with Log WARNING _ => true | _ => false end)
       (trace (snd out)) = []
  /\ ~ tolerates_save_failure
         (Linux.run (fun l => l) Sample.env_save_fails Sample.self)
         (markdown_path Sample.self "2024-01-06") Sample.empty_world.
Proof.
  split; [vm_compute; reflexivity|].
  split; [vm_compute; reflexivity|].
  split; [vm_compute; reflexivity|].
  intros [H _]. vm_compute in H. discriminate.
Qed.

(** ** A fast-path tool that is not installed *)

Lemma prefixes_length (p q : path) : In q (prefixes p) -> length q <= length p.
Proof.
  revert q. induction p as [|c p IH]; intros q; simpl; [tauto|].
  intros [<- | Hin]; [simpl; lia|].
  apply in_map_iff in Hin as (q' & <- & Hin). apply IH in Hin. simpl. lia.
Qed.

Lemma pdf_path_not_date_dir (self : Crawler) (paper other : Paper) :
  ~ In (pdf_path self paper)
       (prefixes (pdf_dir self /: strftime_Ymd (published other))).
Proof.
  intros H. apply prefixes_length in H.
  unfold pdf_path, get_date_dir, pdf_dir, pjoin in H.
  rewrite !length_app in H. simpl in H. lia.
Qed.

(** Creating directories does not change whether a path outside them
    exists. *)
Lemma exists_in_more_dirs (fs : gmap path content) (d : gset path)
    (made : list path) (evs evs' : list event) (n n' : nat) (p : path) :
  ~ In p made ->
  exists_in {| files := fs; dirs := d ∪ list_to_set made; trace := evs;
               http_count := n |} p
  = exists_in {| files := fs; dirs := d; trace := evs'; http_count := n' |} p.
Proof.
  intros Hp. unfold exists_in. cbn [files dirs]. f_equal.
  apply bool_decide_ext. rewrite elem_of_union, elem_of_list_to_set, list_elem_of_In.
  tauto.
Qed.

Lemma exists_in_eta (w : World) (p : path) :
  exists_in {| files := files w; dirs := dirs w; trace := trace w;
               http_count := http_count w |} p = exists_in w p.
Proof. reflexivity. Qed.


Lemma find_none {A} (f : A -> bool) (l : list A) :
  Forall (fun x => f x = false) l -> List.find f l = None.
Proof.
  induction 1 as [|x l Hx Hl IH]; simpl; [reflexivity|]. now rewrite Hx.
Qed.

Lemma windows_download_no_idm (env : Env) (self : Crawler) (paper : Paper)
    (retry : nat) (w : World) :
  exists_in w (pdf_path self paper) = false ->
  Forall (fun exe => exists_in w exe = false
                     /\ ~ In exe (prefixes (pdf_dir self /: strftime_Ymd (published paper))))
         Windows.idm_paths ->
  Windows.download_single_paper env self paper retry w
  = http_fallback env (pdf_path self paper) paper retry (seq 0 retry)
      (windows_no_idm_world self paper w).
Proof.
  intros Hnew Hidm.
  unfold Windows.download_single_paper, bind at 1, mkdir_p. cbv zeta.
  unfold bind at 1, path_exists.
  rewrite (exists_in_more_dirs _ _ _ _ (trace w) _ (http_count w))
    by apply (pdf_path_not_date_dir self paper paper).
  rewrite exists_in_eta.
  unfold pdf_path, get_date_dir, format_date in Hnew. rewrite Hnew.
  unfold bind at 1, logging at 1, emit.
  unfold bind at 1, try_with, bind at 1, Windows.find_idm.
  rewrite find_none.
  - unfold bind at 1, logging, emit, ret, add_events, windows_no_idm_world.
    cbn -[String.append http_fallback seq].
    unfold pdf_path, get_date_dir, format_date. now rewrite <- !app_assoc.
  - eapply List.Forall_impl; [|exact Hidm]. intros exe [Hex Hpre].
    cbn [add_events]. rewrite <- Hex, <- (exists_in_eta w).
    now apply exists_in_more_dirs.
Qed.




(** The whole run on Linux without aria2c. *)
Example linux_run_without_aria2c :
  let out := Linux.run (@rev Paper) Sample.env_no_tool Sample.self Sample.empty_world in
  fst out = Raise (SystemExit 1)
  /\ files (snd out) = ∅
  /\ List.last (trace (snd out)) (Sleep 0) = Log ERROR missing_aria2c_hint.
Proof. vm_compute. repeat split; reflexivity. Qed.


(** ** The retry bound and the missing backoff *)

Lemma linux_download_fast_path_fails (env : Env) (self : Crawler) (paper : Paper)
    (retry : nat) (w : World) :
  let cmd := Linux.aria2c_cmd self (pdf_dir self /: strftime_Ymd (published paper))
               (get_short_id paper) (pdf_url paper) in
  exists_in w (pdf_path self paper) = false ->
  aria2c_failed (aria2c env cmd) ->
  Linux.download_single_paper env self paper retry w
  = http_fallback env (pdf_path self paper) paper retry (seq 0 retry)
      (linux_fallback_world self paper (aria2c env cmd) w).
Proof.
  intros cmd Hnew Hfail.
  unfold Linux.download_single_paper, bind at 1, mkdir_p. cbv zeta.
  unfold bind at 1, path_exists.
  rewrite (exists_in_more_dirs _ _ _ _ (trace w) _ (http_count w))
    by apply (pdf_path_not_date_dir self paper paper).
  rewrite exists_in_eta.
  unfold pdf_path, get_date_dir, format_date in Hnew. rewrite Hnew.
  unfold bind at 1, logging at 1, emit.
  unfold bind at 1, try_with, bind at 1, Linux.subprocess_run.
  unfold linux_fallback_world. cbv zeta. fold cmd.
  destruct (aria2c env cmd) as [|msg|code written]; [contradiction| |].
  - unfold bind at 1, logging, emit, ret, add_events.
    cbn -[String.append http_fallback seq Linux.aria2c_cmd].
    unfold pdf_path, get_date_dir, format_date. fold cmd.
    now rewrite <- !app_assoc.
  - cbn [aria2c_failed] in Hfail. apply Z.eqb_neq in Hfail. rewrite Hfail.
    unfold ret, add_events.
    cbn -[String.append http_fallback seq Linux.aria2c_cmd external_write].
    unfold pdf_path, get_date_dir, format_date. fold cmd.
    now rewrite <- !app_assoc.
Qed.

Lemma linux_fallback_world_trace (self : Crawler) (paper : Paper) (r : aria_result)
    (w : World) :
  exists evs,
    trace (linux_fallback_world self paper r w) = trace w ++ evs
    /\ List.filter is_HttpGet evs = []
    /\ List.filter is_Sleep evs = []
    /\ http_count (linux_fallback_world self paper r w) = http_count w.
Proof.
  unfold linux_fallback_world. cbv zeta.
  destruct r as [|msg|code [body|]]; cbn [external_write add_events trace http_count];
    rewrite <- ?app_assoc; eexists; (split; [reflexivity|]); now repeat split.
Qed.

Lemma windows_no_idm_world_trace (self : Crawler) (paper : Paper) (w : World) :
  exists evs,
    trace (windows_no_idm_world self paper w) = trace w ++ evs
    /\ List.filter is_HttpGet evs = []
    /\ List.filter is_Sleep evs = []
    /\ http_count (windows_no_idm_world self paper w) = http_count w.
Proof.
  unfold windows_no_idm_world. cbv zeta. cbn [trace http_count].
  eexists. split; [reflexivity|]. now repeat split.
Qed.

(** C1 (what the code does).  For a paper that is not on disk, whose fast
    path fails (aria2c started and failed on Linux, no IDM on Windows) and
    whose server answers every request with a status other than 200,
    [download_single_paper] sends exactly [retry] requests, sends no more, and
    returns failure; but it never sleeps: [time.sleep(3)] is reached from the
    [except] branch only. *)
Theorem download_non200_attempts_without_backoff (env : Env) (self : Crawler)
    (paper : Paper) (retry : nat) (w : World) :
  always_non200 env (pdf_url paper) ->
  exists_in w (pdf_path self paper) = false ->
  (aria2c_failed
     (aria2c env (Linux.aria2c_cmd self (pdf_dir self /: strftime_Ymd (published paper))
                    (get_short_id paper) (pdf_url paper))) ->
   exists evs w',
     Linux.download_single_paper env self paper retry w = (Ret (false, paper), w')
     /\ trace w' = trace w ++ evs
     /\ length (List.filter is_HttpGet evs) = retry
     /\ List.filter is_Sleep evs = []
     /\ http_count w' = http_count w + retry)
  /\ (Forall (fun exe =>
                exists_in w exe = false
                /\ ~ In exe (prefixes (pdf_dir self /: strftime_Ymd (published paper))))
             Windows.idm_paths ->
      exists evs w',
        Windows.download_single_paper env self paper retry w = (Ret (false, paper), w')
        /\ trace w' = trace w ++ evs
        /\ length (List.filter is_HttpGet evs) = retry
        /\ List.filter is_Sleep evs = []
        /\ http_count w' = http_count w + retry).
Proof.
  intros Hsrv Hnew. split.
  - intros Hfail. rewrite linux_download_fast_path_fails by assumption.
    match goal with
    | |- context [http_fallback _ _ _ _ _ ?w1] =>
        destruct (http_fallback_non200_total env (pdf_path self paper) paper retry
                    w1 Hsrv) as (evs & w' & Heq & Ht & Hget & Hsleep & _ & Hn);
        destruct (linux_fallback_world_trace self paper
                    (aria2c env (Linux.aria2c_cmd self
                                   (pdf_dir self /: strftime_Ymd (published paper))
                                   (get_short_id paper) (pdf_url paper))) w)
          as (evs0 & Ht0 & Hget0 & Hsleep0 & Hn0)
    end.
    exists (evs0 ++ evs), w'. split; [exact Heq|].
    rewrite Ht, Ht0, Hn, Hn0, <- app_assoc, !List.filter_app, Hget0, Hsleep0, Hsleep.
    now repeat split.
  - intros Hidm. rewrite windows_download_no_idm by assumption.
    destruct (http_fallback_non200_total env (pdf_path self paper) paper retry
                (windows_no_idm_world self paper w) Hsrv)
      as (evs & w' & Heq & Ht & Hget & Hsleep & _ & Hn).
    destruct (windows_no_idm_world_trace self paper w)
      as (evs0 & Ht0 & Hget0 & Hsleep0 & Hn0).
    exists (evs0 ++ evs), w'. split; [exact Heq|].
    rewrite Ht, Ht0, Hn, Hn0, <- app_assoc, !List.filter_app, Hget0, Hsleep0, Hsleep.
    now repeat split.
Qed.

(** The theorem at the sample server that always answers 500, where aria2c
    exits with 1 and IDM is not installed. *)
Lemma download_non200_attempts_without_backoff_witness :
  always_non200 Sample.env_500 (pdf_url Sample.p1)
  /\ exists_in Sample.empty_world (pdf_path Sample.self Sample.p1) = false
  /\ (exists evs w',
        Linux.download_single_paper Sample.env_500 Sample.self Sample.p1 3
          Sample.empty_world = (Ret (false, Sample.p1), w')
        /\ trace w' = trace Sample.empty_world ++ evs
        /\ length (List.filter is_HttpGet evs) = 3
        /\ List.filter is_Sleep evs = []
        /\ http_count w' = http_count Sample.empty_world + 3)
  /\ (exists evs w',
        Windows.download_single_paper Sample.env_500 Sample.self Sample.p1 3
          Sample.empty_world = (Ret (false, Sample.p1), w')
        /\ trace w' = trace Sample.empty_world ++ evs
        /\ length (List.filter is_HttpGet evs) = 3
        /\ List.filter is_Sleep evs = []
        /\ http_count w' = http_count Sample.empty_world + 3).
Proof.
  assert (Hsrv : always_non200 Sample.env_500 (pdf_url Sample.p1)).
  { intros n. exists 500, "Internal Server Error". split; [reflexivity | lia]. }
  assert (Hnew : exists_in Sample.empty_world (pdf_path Sample.self Sample.p1) = false)
    by reflexivity.
  assert (Hidm : Forall (fun exe =>
                   exists_in Sample.empty_world exe = false
                   /\ ~ In exe (prefixes (pdf_dir Sample.self
                                          /: strftime_Ymd (published Sample.p1))))
                 Windows.idm_paths).
  { repeat constructor; simpl; intuition discriminate. }
  split; [exact Hsrv|]. split; [exact Hnew|].
  destruct (download_non200_attempts_without_backoff Sample.env_500 Sample.self
              Sample.p1 3 Sample.empty_world Hsrv Hnew) as [Hlinux Hwindows].
  split; [apply Hlinux; simpl; lia | exact (Hwindows Hidm)].
Defined.

(** ** [download_paper] and the [run] of the base class *)

Lemma changes_only_bind_returns {A B} (Q : path -> Prop) (P : event -> Prop)
    (R : A -> Prop) (m : M A) (k : A -> M B) :
  changes_only Q P m -> returns R m -> (forall a, R a -> changes_only Q P (k a)) ->
  changes_only Q P (bind m k).
Proof.
  intros Hm HR Hk w. unfold bind. destruct (Hm w) as [Hf (evs & Ht & HP)].
  destruct (m w) as [[a|e] w1] eqn:E; simpl in *.
  - destruct (Hk a (HR w a w1 E) w1) as [Hf' (evs' & Ht' & HP')]. split.
    + intros q Hq. now rewrite Hf', Hf.
    + exists (evs ++ evs'). rewrite Ht', Ht, app_assoc. split; [reflexivity|].
      now apply Forall_app.
  - split; [exact Hf|]. now exists evs.
Qed.

Lemma download_paper_with_None
    (download_single_paper : Env -> Crawler -> Paper -> nat -> M (bool * Paper))
    (env : Env) (self : Crawler) (paper : Paper) (retry : nat) (w : World) :
  match download_single_paper env self paper retry w with
  | (Ret _, w') =>
      download_paper_with download_single_paper env self paper retry w
      = (Ret py_None, w')
  | (Raise e, w') =>
      download_paper_with download_single_paper env self paper retry w
      = (Raise e, w')
  end.
Proof.
  unfold download_paper_with, bind, ret.
  now destruct (download_single_paper env self paper retry w) as [[r|e] w'].
Qed.

Lemma download_paper_with_returns
    (download_single_paper : Env -> Crawler -> Paper -> nat -> M (bool * Paper))
    (env : Env) (self : Crawler) (paper : Paper) (retry : nat) :
  returns (eq py_None) (download_paper_with download_single_paper env self paper retry).
Proof.
  intros w a w' H.
  pose proof (download_paper_with_None download_single_paper env self paper retry w) as Hn.
  destruct (download_single_paper env self paper retry w) as [[r|e] w1];
    rewrite Hn in H; congruence.
Qed.

(** With a [download_paper] that returns [None], the loop of the base class
    never reaches [save_paper_info] and hands back the list it was given. *)
Lemma download_loop_None (download_paper : Paper -> M pyvalue) (env : Env)
    (self : Crawler) (new_papers acc : list Paper) :
  (forall paper, returns (eq py_None) (download_paper paper)) ->
  returns (eq acc) (download_loop download_paper env self new_papers acc).
Proof.
  intros HNone. induction new_papers as [|paper rest IH]; intros w a w' H.
  - simpl in H. unfold ret in H. congruence.
  - cbn [download_loop] in H. unfold bind in H.
    destruct (download_paper paper w) as [[ok|e] w1] eqn:E; [|discriminate].
    apply HNone in E. subst ok. cbn [truthy] in H. exact (IH _ _ _ H).
Qed.

Lemma download_loop_footprint (download_paper : Paper -> M pyvalue) (env : Env)
    (self : Crawler) (new_papers acc : list Paper) :
  (forall paper, returns (eq py_None) (download_paper paper)) ->
  (forall paper, changes_only (is_pdf_path self) (pdf_write_only self)
                   (download_paper paper)) ->
  changes_only (is_pdf_path self) (pdf_write_only self)
    (download_loop download_paper env self new_papers acc).
Proof.
  intros HNone Hfp. induction new_papers as [|paper rest IH]; cbn [download_loop].
  - apply changes_only_ret.
  - apply (changes_only_bind_returns _ _ (eq py_None)); [apply Hfp | apply HNone |].
    intros ok <-. exact IH.
Qed.

Lemma discover_footprint (Q : path -> Prop) (P : event -> Prop) (env : Env)
    (self : Crawler) :
  (forall lvl msg, P (Log lvl msg)) -> changes_only Q P (discover env self).
Proof.
  intros HP w. rewrite discover_spec. cbn [snd]. split; [reflexivity|].
  exists (discover_log env self w). split; [reflexivity|].
  unfold discover_log. repeat (constructor; [apply HP|]).
  apply Forall_app. split; [|repeat constructor; apply HP].
  apply List.Forall_forall. intros ev Hev.
  apply in_map_iff in Hev as (p & <- & _). apply HP.
Qed.

Lemma base_run_without_saves
    (download_single_paper : Env -> Crawler -> Paper -> nat -> M (bool * Paper))
    (env : Env) (self : Crawler) :
  (forall paper retry,
     changes_only (eq (pdf_path self paper)) (download_event self paper)
       (download_single_paper env self paper retry)) ->
  changes_only (is_pdf_path self) (pdf_write_only self)
    (base_run (fun paper => download_paper_with download_single_paper env self paper 3)
       env self).
Proof.
  intros Hfp. unfold base_run.
  apply changes_only_bind; [now apply discover_footprint|].
  intros [|paper rest]; [now apply changes_only_logging|].
  apply changes_only_bind; [now apply changes_only_logging|]. intros _.
  apply (changes_only_bind_returns _ _ (eq [])).
  - apply download_loop_footprint.
    + intros p. apply download_paper_with_returns.
    + intros p. unfold download_paper_with.
      apply changes_only_bind; [|intros; apply changes_only_ret].
      eapply changes_only_weaken; [| |apply Hfp].
      * intros q <-. now exists p.
      * intros [] H; simpl in *; try exact I. subst. now exists p.
  - apply download_loop_None. intros p. apply download_paper_with_returns.
  - intros l <-. apply changes_only_ret.
Qed.

Lemma info_path_not_pdf (self : Crawler) (paper : Paper) :
  ~ is_pdf_path self (info_path self paper).
Proof.
  intros [other H].
  unfold info_path, pdf_path, get_date_dir, info_dir, pdf_dir, pjoin in H.
  rewrite <- !app_assoc in H. apply app_inv_head in H. discriminate.
Qed.

Lemma markdown_path_not_pdf (self : Crawler) (date : string) :
  ~ is_pdf_path self (markdown_path self date).
Proof.
  intros [other H]. apply (f_equal (@length string)) in H.
  unfold markdown_path, pdf_path, get_date_dir, markdown_dir, pdf_dir, pjoin in H.
  rewrite !length_app in H. simpl in H. lia.
Qed.

(** C9.  On both platforms [download_paper] returns [None] whenever
    [download_single_paper] returns, success or not (and passes on what it
    raises).  So the [run] of the base class, which saves and collects a paper
    only if [download_paper] is true, collects nothing: it writes no file but
    PDFs, and every metadata file and every digest file is what it was
    before. *)
Theorem download_paper_None_so_base_run_saves_nothing (env : Env) (self : Crawler) :
  (forall paper retry w success paper' w',
     (Linux.download_single_paper env self paper retry w = (Ret (success, paper'), w') ->
      Linux.download_paper env self paper retry w = (Ret py_None, w'))
     /\ (Windows.download_single_paper env self paper retry w = (Ret (success, paper'), w') ->
         Windows.download_paper env self paper retry w = (Ret py_None, w')))
  /\ (forall new_papers w downloaded_papers w',
        (download_loop (fun paper => Linux.download_paper env self paper 3) env self
           new_papers [] w = (Ret downloaded_papers, w') -> downloaded_papers = [])
        /\ (download_loop (fun paper => Windows.download_paper env self paper 3) env self
              new_papers [] w = (Ret downloaded_papers, w') -> downloaded_papers = []))
  /\ (forall w run,
        run = base_run (fun paper => Linux.download_paper env self paper 3) env self
        \/ run = base_run (fun paper => Windows.download_paper env self paper 3) env self ->
        (forall paper, files (snd (run w)) !! info_path self paper
                       = files w !! info_path self paper)
        /\ (forall date, files (snd (run w)) !! markdown_path self date
                         = files w !! markdown_path self date)
        /\ exists evs, trace (snd (run w)) = trace w ++ evs
                       /\ Forall (pdf_write_only self) evs).
Proof.
  split; [|split].
  - intros paper retry w success paper' w'. split; intros H.
    + pose proof (download_paper_with_None Linux.download_single_paper
                    env self paper retry w) as Hn.
      now rewrite H in Hn.
    + pose proof (download_paper_with_None Windows.download_single_paper
                    env self paper retry w) as Hn.
      now rewrite H in Hn.
  - intros new_papers w downloaded_papers w'. split; intros H; symmetry.
    + eapply (download_loop_None _ env self new_papers []); [|exact H].
      intros p. apply download_paper_with_returns.
    + eapply (download_loop_None _ env self new_papers []); [|exact H].
      intros p. apply download_paper_with_returns.
  - intros w run Hrun.
    assert (Hfp : changes_only (is_pdf_path self) (pdf_write_only self) run).
    { destruct Hrun as [-> | ->]; apply base_run_without_saves.
      - apply linux_download_footprint.
      - apply windows_download_footprint. }
    destruct (Hfp w) as [Hf Hev]. split; [|split; [|exact Hev]].
    + intros paper. apply Hf, info_path_not_pdf.
    + intros date. apply Hf, markdown_path_not_pdf.
Qed.

(** The base-class run on Linux with a server that answers 200: both PDFs
    are downloaded, and neither a metadata file nor a digest exists. *)
Example base_run_downloads_but_saves_nothing :
  let out := base_run (fun paper => Linux.download_paper Sample.env_ok Sample.self paper 3)
               Sample.env_ok Sample.self Sample.empty_world in
  fst out = Ret tt
  /\ map fst (map_to_list (files (snd out)))
     = [pdf_path Sample.self Sample.p2; pdf_path Sample.self Sample.p1].
Proof. vm_compute. split; reflexivity. Qed.

(** * Further properties of the code *)

(** ** The HTTP fallback *)

Lemma http_fallback_step_200 (env : Env) (target : path) (paper : Paper)
    (retry attempt : nat) (rest : list nat) (w : World) (body : string) :
  http_get env (http_count w) (pdf_url paper) = HttpResponse 200 body ->
  write_faults env target = None ->
  http_fallback env target paper retry (attempt :: rest) w
  = (Ret (true, paper),
     {| files := <[target := Bytes body]> (files w); dirs := dirs w;
        trace := trace w ++ [HttpGet (pdf_url paper) 30; WriteFile target;
                             Log DEBUG ("普通下载成功: " +:+ title paper)];
        http_count := S (http_count w) |}).
Proof.
  intros Hget Hw. cbn -[String.append].
  unfold bind at 1, try_with, bind at 1, requests_get. rewrite Hget.
  cbn -[String.append].
  unfold bind at 1, write_file. rewrite Hw.
  unfold bind, logging, emit, ret, add_events, set_file. cbn -[String.append].
  now rewrite <- !app_assoc.
Qed.

Lemma http_fallback_first_200 (env : Env) (target : path) (paper : Paper)
    (retry k : nat) (attempts : list nat) (w : World) (body : string) :
  k < length attempts ->
  first_200_after env (pdf_url paper) w k body ->
  write_faults env target = None ->
  exists evs,
    http_fallback env target paper retry attempts w
    = (Ret (true, paper),
       {| files := <[target := Bytes body]> (files w); dirs := dirs w;
          trace := trace w ++ evs; http_count := http_count w + S k |})
    /\ length (List.filter is_HttpGet evs) = S k
    /\ List.filter is_Sleep evs = []
    /\ List.filter (fun ev => match ev with WriteFile _ => true | _ => false end) evs
       = [WriteFile target].
Proof.
  intros Hk Hsrv Hw. revert attempts w Hk Hsrv.
  induction k as [|k IH]; intros [|attempt rest] w Hk [Hbad Hgood];
    cbn [length] in Hk; try lia.
  - rewrite Nat.add_0_r in Hgood.
    rewrite (http_fallback_step_200 _ _ _ _ _ _ _ _ Hgood Hw).
    eexists. split; [|split; [|split]].
    + rewrite Nat.add_1_r. reflexivity.
    + reflexivity.
    + reflexivity.
    + reflexivity.
  - destruct (Hbad 0) as (code & b & Hget & Hcode); [lia|].
    rewrite Nat.add_0_r in Hget.
    rewrite (http_fallback_step_non200 _ _ _ _ _ _ _ _ _ Hget Hcode).
    match goal with
    | |- context [http_fallback _ _ _ _ _ ?w1] =>
        destruct (IH rest w1) as (evs & Heq & Hn & Hs & Hwr)
    end.
    { lia. }
    { split.
      - intros i Hi. cbn [http_count].
        replace (S (http_count w) + i) with (http_count w + S i) by lia.
        apply Hbad. lia.
      - cbn [http_count].
        replace (S (http_count w) + k) with (http_count w + S k) by lia.
        exact Hgood. }
    cbn [files dirs trace http_count] in Heq. rewrite Heq.
    eexists (_ :: _ :: evs). split; [|split; [|split]].
    + rewrite <- app_assoc. cbn [app].
      replace (S (http_count w) + S k) with (http_count w + S (S k)) by lia.
      reflexivity.
    + cbn [List.filter is_HttpGet length]. now rewrite Hn.
    + cbn [List.filter is_Sleep]. exact Hs.
    + cbn [List.filter]. exact Hwr.
Qed.

(** X1.  The fallback stops at the first answer with status 200: when the
    server refuses the first [k] requests with another status and then
    answers 200, with [k] below the retry budget, exactly [k + 1] requests
    are sent, the body of that answer becomes the target file (the only file
    written), and the result is success. *)
Theorem fallback_stops_at_first_200 (env : Env) (target : path) (paper : Paper)
    (retry k : nat) (w : World) (body : string) :
  k < retry ->
  first_200_after env (pdf_url paper) w k body ->
  write_faults env target = None ->
  exists evs w',
    http_fallback env target paper retry (seq 0 retry) w = (Ret (true, paper), w')
    /\ files w' = <[target := Bytes body]> (files w)
    /\ http_count w' = http_count w + S k
    /\ trace w' = trace w ++ evs
    /\ length (List.filter is_HttpGet evs) = S k
    /\ List.filter is_Sleep evs = []
    /\ List.filter (fun ev => match ev with WriteFile _ => true | _ => false end) evs
       = [WriteFile target].
Proof.
  intros Hk Hsrv Hw.
  destruct (http_fallback_first_200 env target paper retry k (seq 0 retry) w body)
    as (evs & Heq & Hn & Hs & Hwr); [now rewrite length_seq | assumption..|].
  eexists evs, _. split; [exact Heq|]. cbn [files http_count trace].
  repeat (split; [assumption || reflexivity|]). assumption.
Qed.

(** The theorem with a server that answers 503 to the first request and 200
    to the next ones. *)
Lemma fallback_stops_at_first_200_witness :
  let env := {| search_results := []; aria2c := fun _ => AriaExit 1 None;
                idm := fun _ => IdmStarted None;
                http_get := fun n _ =>
                  if Nat.eqb n 0 then HttpResponse 503 "busy"
                  else HttpResponse 200 "%PDF";
                write_faults := fun _ => None; query := "";
                today := "2024-01-06"; now := ""; lower := Sample.ascii_lower |} in
  exists w',
    http_fallback env Sample.pdf_path_p1 Sample.p1 3 (seq 0 3) Sample.empty_world
    = (Ret (true, Sample.p1), w')
    /\ files w' !! Sample.pdf_path_p1 = Some (Bytes "%PDF")
    /\ http_count w' = 2.
Proof.
  intros env.
  assert (Hsrv : first_200_after env (pdf_url Sample.p1) Sample.empty_world 1 "%PDF").
  { split; [|reflexivity]. intros i Hi. exists 503, "busy".
    assert (i = 0) as -> by lia. split; [reflexivity | lia]. }
  destruct (fallback_stops_at_first_200 env Sample.pdf_path_p1 Sample.p1 3 1
              Sample.empty_world "%PDF" ltac:(lia) Hsrv eq_refl)
    as (evs & w' & Heq & Hf & Hn & _).
  exists w'. split; [exact Heq|]. split; [|exact Hn].
  rewrite Hf. apply lookup_insert_eq.
Defined.

Lemma http_fallback_step_error (env : Env) (target : path) (paper : Paper)
    (retry attempt : nat) (rest : list nat) (w : World) (msg : string) :
  http_get env (http_count w) (pdf_url paper) = HttpError msg ->
  http_fallback env target paper retry (attempt :: rest) w
  = http_fallback env target paper retry rest
      {| files := files w; dirs := dirs w;
         trace := trace w ++
           [HttpGet (pdf_url paper) 30;
            Log WARNING ("下载失败 (尝试 " +:+ decimal (attempt + 1) +:+ "/"
                         +:+ decimal retry +:+ "): " +:+ msg);
            Sleep 3];
         http_count := S (http_count w) |}.
Proof.
  intros Hget. cbn -[String.append].
  unfold bind at 1, try_with, bind at 1, requests_get. rewrite Hget.
  cbn -[String.append].
  unfold bind, logging, sleep, emit, ret, add_events. cbn -[String.append].
  now rewrite <- !app_assoc.
Qed.

Lemma http_fallback_errors (env : Env) (target : path) (paper : Paper)
    (retry : nat) (attempts : list nat) (w : World) :
  always_error env (pdf_url paper) ->
  exists evs,
    http_fallback env target paper retry attempts w
    = (Ret (false, paper),
       {| files := files w; dirs := dirs w; trace := trace w ++ evs;
          http_count := http_count w + length attempts |})
    /\ length (List.filter is_HttpGet evs) = length attempts
    /\ List.filter is_Sleep evs = repeat (Sleep 3) (length attempts)
    /\ (attempts <> [] ->
        exists before, evs = before ++ [Sleep 3; Log ERROR ("所有下载方式均失败: "
                                                            +:+ title paper)]).
Proof.
  intros Hsrv. revert w. induction attempts as [|attempt rest IH]; intros w.
  - exists [Log ERROR ("所有下载方式均失败: " +:+ title paper)].
    split; [|split; [|split]]; try reflexivity; [|congruence].
    cbn -[String.append]. unfold bind, logging, emit, ret, add_events.
    cbn -[String.append]. now rewrite Nat.add_0_r.
  - destruct (Hsrv (http_count w)) as (msg & Hget).
    rewrite (http_fallback_step_error _ _ _ _ _ _ _ _ Hget).
    match goal with
    | |- context [http_fallback _ _ _ _ _ ?w1] =>
        destruct (IH w1) as (evs & Heq & Hn & Hs & Hlast)
    end.
    cbn [files dirs trace http_count] in Heq. rewrite Heq.
    eexists (_ :: _ :: _ :: evs). split; [|split; [|split]].
    + rewrite <- app_assoc. cbn [app length].
      rewrite (Nat.add_succ_r (http_count w)). reflexivity.
    + cbn [List.filter is_HttpGet length]. now rewrite Hn.
    + cbn [List.filter is_Sleep length repeat]. now rewrite Hs.
    + intros _. destruct rest as [|attempt' rest'].
      * exists [HttpGet (pdf_url paper) 30;
                Log WARNING ("下载失败 (尝试 " +:+ decimal (attempt + 1) +:+ "/"
                             +:+ decimal retry +:+ "): " +:+ msg)].
        cbn -[String.append] in Heq.
        unfold bind, logging, emit, ret, add_events in Heq.
        cbn -[String.append] in Heq.
        injection Heq as Heq. apply app_inv_head in Heq. subst evs. reflexivity.
      * destruct Hlast as (before & ->); [discriminate|].
        eexists (_ :: _ :: _ :: before). reflexivity.
Qed.

(** X2.  When every request fails in the transport (an exception of
    [requests.get]), the fallback sends exactly [retry] requests, sleeps 3
    seconds after each of them, the last one included, and then reports the
    failure without having touched a file. *)
Theorem fallback_transport_errors_sleep_after_each (env : Env) (target : path)
    (paper : Paper) (retry : nat) (w : World) :
  always_error env (pdf_url paper) ->
  exists evs w',
    http_fallback env target paper retry (seq 0 retry) w = (Ret (false, paper), w')
    /\ files w' = files w
    /\ trace w' = trace w ++ evs
    /\ length (List.filter is_HttpGet evs) = retry
    /\ List.filter is_Sleep evs = repeat (Sleep 3) retry
    /\ (0 < retry ->
        exists before, evs = before ++ [Sleep 3; Log ERROR ("所有下载方式均失败: "
                                                            +:+ title paper)]).
Proof.
  intros Hsrv.
  destruct (http_fallback_errors env target paper retry (seq 0 retry) w Hsrv)
    as (evs & Heq & Hn & Hs & Hlast).
  rewrite length_seq in *.
  eexists evs, _. split; [exact Heq|]. cbn [files trace].
  repeat (split; [assumption || reflexivity|]).
  intros Hpos. apply Hlast. destruct retry; [lia | discriminate].
Qed.

(** The theorem with a server that refuses every connection. *)
Lemma fallback_transport_errors_sleep_after_each_witness :
  let env := {| search_results := []; aria2c := fun _ => AriaExit 1 None;
                idm := fun _ => IdmStarted None;
                http_get := fun _ _ => HttpError "Connection refused";
                write_faults := fun _ => None; query := "";
                today := "2024-01-06"; now := ""; lower := Sample.ascii_lower |} in
  always_error env (pdf_url Sample.p1)
  /\ exists evs w',
       http_fallback env Sample.pdf_path_p1 Sample.p1 3 (seq 0 3) Sample.empty_world
       = (Ret (false, Sample.p1), w')
       /\ trace w' = trace Sample.empty_world ++ evs
       /\ List.filter is_Sleep evs = [Sleep 3; Sleep 3; Sleep 3].
Proof.
  intros env.
  assert (Hsrv : always_error env (pdf_url Sample.p1))
    by (intros n; now exists "Connection refused").
  split; [exact Hsrv|].
  destruct (fallback_transport_errors_sleep_after_each env Sample.pdf_path_p1
              Sample.p1 3 Sample.empty_world Hsrv)
    as (evs & w' & Heq & _ & Ht & _ & Hs & _).
  exists evs, w'. split; [exact Heq|]. split; [exact Ht | exact Hs].
Defined.

(** ** Outcomes of the monadic operations *)

Section WP.

Context {A B : Type}.

Lemma wp_ret (a : A) (Post : A -> World -> Prop) (Exc : exn -> World -> Prop)
    (w : World) :
  Post a w -> wp (ret a) Post Exc w.
Proof. exact (fun H => H). Qed.

Lemma wp_raise (e : exn) (Post : A -> World -> Prop) (Exc : exn -> World -> Prop)
    (w : World) :
  Exc e w -> wp (raise e) Post Exc w.
Proof. exact (fun H => H). Qed.

Lemma wp_bind (m : M A) (k : A -> M B) (Post : B -> World -> Prop)
    (Exc : exn -> World -> Prop) (w : World) :
  wp m (fun a w' => wp (k a) Post Exc w') Exc w -> wp (bind m k) Post Exc w.
Proof. unfold wp, bind. now destruct (m w) as [[a|e] w']. Qed.

Lemma wp_try_with (m : M A) (h : exn -> option (M A)) (Post : A -> World -> Prop)
    (Exc : exn -> World -> Prop) (w : World) :
  wp m Post (fun e w' => match h e with
                         | Some k => wp k Post Exc w'
                         | None => Exc e w'
                         end) w ->
  wp (try_with m h) Post Exc w.
Proof.
  unfold wp, try_with. destruct (m w) as [[a|e] w']; [easy|].
  now destruct (h e).
Qed.

Lemma wp_mono (m : M A) (Post Post' : A -> World -> Prop)
    (Exc Exc' : exn -> World -> Prop) (w : World) :
  (forall a w', Post a w' -> Post' a w') ->
  (forall e w', Exc e w' -> Exc' e w') ->
  wp m Post Exc w -> wp m Post' Exc' w.
Proof. unfold wp. destruct (m w) as [[a|e] w']; auto. Qed.

End WP.

Lemma wp_emit (ev : event) (Post : unit -> World -> Prop) (Exc : exn -> World -> Prop)
    (w : World) :
  Post tt (add_events [ev] w) -> wp (emit ev) Post Exc w.
Proof. exact (fun H => H). Qed.

Lemma wp_logging (lvl : level) (msg : string) (Post : unit -> World -> Prop)
    (Exc : exn -> World -> Prop) (w : World) :
  Post tt (add_events [Log lvl msg] w) -> wp (logging lvl msg) Post Exc w.
Proof. exact (fun H => H). Qed.

Lemma wp_sleep (secs : nat) (Post : unit -> World -> Prop)
    (Exc : exn -> World -> Prop) (w : World) :
  Post tt (add_events [Sleep secs] w) -> wp (sleep secs) Post Exc w.
Proof. exact (fun H => H). Qed.

Lemma wp_path_exists (p : path) (Post : bool -> World -> Prop)
    (Exc : exn -> World -> Prop) (w : World) :
  Post (exists_in w p) w -> wp (path_exists p) Post Exc w.
Proof. exact (fun H => H). Qed.

Lemma wp_write_file (env : Env) (p : path) (c : content)
    (Post : unit -> World -> Prop) (Exc : exn -> World -> Prop) (w : World) :
  match write_faults env p with
  | None => Post tt (set_file p c w)
  | Some (OpenFails msg) => Exc (OSError msg) w
  | Some (WriteFails msg partial) => Exc (OSError msg) (set_file p partial w)
  end ->
  wp (write_file env p c) Post Exc w.
Proof.
  unfold wp, write_file. now destruct (write_faults env p) as [[msg|msg partial]|].
Qed.

Lemma wp_requests_get (env : Env) (url : string) (t : nat)
    (Post : nat * string -> World -> Prop) (Exc : exn -> World -> Prop) (w : World) :
  (forall w',
     files w' = files w -> dirs w' = dirs w ->
     match http_get env (http_count w) url with
     | HttpResponse status_code body => Post (status_code, body) w'
     | HttpError msg => Exc (RequestException msg) w'
     end) ->
  wp (requests_get env url t) Post Exc w.
Proof.
  intros H. unfold wp, requests_get.
  specialize (H {| files := files w; dirs := dirs w;
                   trace := trace w ++ [HttpGet url t];
                   http_count := S (http_count w) |} eq_refl eq_refl).
  now destruct (http_get env (http_count w) url).
Qed.

(** *** A reported success and the file on disk *)

Lemma exists_in_set_file (p : path) (c : content) (w : World) :
  exists_in (set_file p c w) p = true.
Proof.
  apply exists_in_file. cbn [set_file files]. rewrite lookup_insert_eq. eauto.
Qed.

Lemma exists_in_external_write (p : path) (body : string) (w : World) :
  exists_in (external_write p (Some body) w) p = true.
Proof.
  apply exists_in_file. cbn [external_write files]. rewrite lookup_insert_eq. eauto.
Qed.

(** When the fallback reports success, the target file is there. *)
Lemma http_fallback_success (env : Env) (target : path) (paper : Paper)
    (retry : nat) (attempts : list nat) (w : World) :
  wp (http_fallback env target paper retry attempts)
     (fun r w' => snd r = paper /\ (fst r = true -> exists_in w' target = true))
     (fun _ _ => False) w.
Proof.
  revert w. induction attempts as [|attempt rest IH]; intros w; cbn [http_fallback].
  - apply wp_bind, wp_logging, wp_ret. split; [reflexivity | discriminate].
  - apply wp_bind.
    apply (wp_mono _ (fun done w' => done = true -> exists_in w' target = true)
             _ (fun _ _ => False)); [|auto|].
    + intros [|] w' H; [apply wp_ret; auto | apply IH].
    + apply wp_try_with, wp_bind, wp_requests_get. intros w' _ _.
      destruct (http_get env (http_count w) (pdf_url paper)) as [code body|msg].
      * cbn [fst snd]. destruct (Nat.eqb code 200).
        -- apply wp_bind, wp_write_file.
           destruct (write_faults env target) as [[m|m partial]|].
           ++ cbn [is_Exception]. apply wp_bind, wp_logging, wp_bind, wp_sleep, wp_ret.
              discriminate.
           ++ cbn [is_Exception]. apply wp_bind, wp_logging, wp_bind, wp_sleep, wp_ret.
              discriminate.
           ++ apply wp_bind, wp_logging, wp_ret. intros _.
              rewrite exists_in_add_events. apply exists_in_set_file.
        -- apply wp_bind, wp_logging, wp_ret. discriminate.
      * cbn [is_Exception]. apply wp_bind, wp_logging, wp_bind, wp_sleep, wp_ret.
        discriminate.
Qed.

Lemma wp_mkdir_p (p : path) (Post : unit -> World -> Prop) (Exc : exn -> World -> Prop)
    (w : World) :
  Post tt {| files := files w; dirs := dirs w ∪ list_to_set (prefixes p);
             trace := trace w ++ [Mkdir p]; http_count := http_count w |} ->
  wp (mkdir_p p) Post Exc w.
Proof. exact (fun H => H). Qed.

Lemma wp_find_idm (Post : option path -> World -> Prop) (Exc : exn -> World -> Prop)
    (w : World) :
  Post (List.find (exists_in w) Windows.idm_paths) w -> wp Windows.find_idm Post Exc w.
Proof. exact (fun H => H). Qed.

Lemma wp_windows_subprocess_run (env : Env) (cmd : list string)
    (Post : option (nat * string) -> World -> Prop) (Exc : exn -> World -> Prop)
    (w : World) :
  match idm env cmd with
  | IdmError msg => Exc (OSError msg) (add_events [Subprocess cmd] w)
  | IdmStarted appears => Post appears (add_events [Subprocess cmd] w)
  end ->
  wp (Windows.subprocess_run env cmd) Post Exc w.
Proof. unfold wp, Windows.subprocess_run. now destruct (idm env cmd). Qed.

Lemma wp_linux_subprocess_run (env : Env) (cmd : list string) (target : path)
    (Post : Z -> World -> Prop) (Exc : exn -> World -> Prop) (w : World) :
  match aria2c env cmd with
  | AriaNotFound =>
      Exc (FileNotFoundError "[Errno 2] No such file or directory: 'aria2c'")
          (add_events [Subprocess cmd] w)
  | AriaError msg => Exc (OSError msg) (add_events [Subprocess cmd] w)
  | AriaExit returncode written =>
      Post returncode (external_write target written (add_events [Subprocess cmd] w))
  end ->
  wp (Linux.subprocess_run env cmd target) Post Exc w.
Proof. unfold wp, Linux.subprocess_run. now destruct (aria2c env cmd). Qed.

(** The polling loop always comes to an end, and raises nothing. *)
Lemma wait_for_file_returns (paper : Paper) (target : path)
    (appears : option (nat * string)) (budget elapsed : nat) (w : World) :
  wp (Windows.wait_for_file paper target appears budget elapsed)
     (fun _ _ => True) (fun _ _ => False) w.
Proof.
  revert elapsed w. induction budget as [|budget IH]; intros elapsed w;
    unfold wp; cbn [Windows.wait_for_file];
    destruct (exists_in (Windows.delivered target appears elapsed w) target);
    try exact I.
  apply (wp_bind (sleep 1)), wp_sleep, IH.
Qed.

Lemma windows_download_outcome (env : Env) (self : Crawler) (paper : Paper)
    (retry : nat) (w : World) :
  wp (Windows.download_single_paper env self paper retry)
     (fun r w' => snd r = paper
                  /\ (fst r = true -> exists_in w' (pdf_path self paper) = true))
     (fun _ _ => False) w.
Proof.
  unfold Windows.download_single_paper. cbv zeta.
  apply wp_bind, wp_mkdir_p, wp_bind, wp_path_exists.
  match goal with |- context [if ?b then _ else _] => destruct b eqn:E end.
  - apply wp_bind, wp_logging, wp_ret. split; [reflexivity|]. intros _. exact E.
  - apply wp_bind, wp_logging, wp_bind.
    apply (wp_mono _ (fun done w' => done = true ->
                                     exists_in w' (pdf_path self paper) = true)
             _ (fun _ _ => False)); [|auto|].
    + intros [|] w' H; [apply wp_ret; auto|].
      apply (http_fallback_success env (pdf_path self paper)).
    + apply wp_try_with, wp_bind, wp_find_idm.
      match goal with |- context [List.find ?f ?l] => destruct (List.find f l) end.
      * apply wp_bind, wp_windows_subprocess_run.
        match goal with |- context [idm env ?c] => destruct (idm env c) end.
        -- cbn [is_Exception]. apply wp_bind, wp_logging, wp_ret. discriminate.
        -- apply wp_bind.
           eapply wp_mono; [| |apply wait_for_file_returns]; [|easy].
           intros _ w' _. apply wp_bind, wp_path_exists.
           match goal with |- context [if ?b then _ else _] => destruct b eqn:E' end.
           ++ apply wp_bind, wp_logging, wp_ret. intros _. exact E'.
           ++ apply wp_ret. discriminate.
      * apply wp_bind, wp_logging, wp_ret. discriminate.
Qed.

Lemma linux_download_outcome (env : Env) (self : Crawler) (paper : Paper)
    (retry : nat) (w : World) :
  let cmd := Linux.aria2c_cmd self (pdf_dir self /: strftime_Ymd (published paper))
               (get_short_id paper) (pdf_url paper) in
  wp (Linux.download_single_paper env self paper retry)
     (fun r w' => snd r = paper
                  /\ (fst r = true ->
                      exists_in w' (pdf_path self paper) = true
                      \/ aria2c env cmd = AriaExit 0 None))
     (fun e _ => e = SystemExit 1 /\ aria2c env cmd = AriaNotFound) w.
Proof.
  intros cmd. unfold Linux.download_single_paper. cbv zeta. fold cmd.
  apply wp_bind, wp_mkdir_p, wp_bind, wp_path_exists.
  match goal with |- context [if ?b then _ else _] => destruct b eqn:E end.
  - apply wp_bind, wp_logging, wp_ret. split; [reflexivity|]. intros _. left. exact E.
  - apply wp_bind, wp_logging, wp_bind.
    apply (wp_mono _ (fun done w' => done = true ->
                                     exists_in w' (pdf_path self paper) = true
                                     \/ aria2c env cmd = AriaExit 0 None)
             _ (fun e _ => e = SystemExit 1 /\ aria2c env cmd = AriaNotFound));
      [|auto|].
    + intros [|] w' H; [apply wp_ret; auto|].
      eapply wp_mono; [| |apply (http_fallback_success env (pdf_path self paper))];
        [|easy].
      intros r w'' [H1 H2]. auto.
    + apply wp_try_with, wp_bind, wp_linux_subprocess_run.
      destruct (aria2c env cmd) as [|msg|code written] eqn:Haria.
      * apply wp_bind, wp_logging, wp_raise. auto.
      * apply wp_bind, wp_logging, wp_ret. discriminate.
      * destruct (Z.eqb_spec code 0) as [->|Hne].
        -- apply wp_bind, wp_logging, wp_ret. intros _.
           destruct written as [body|]; [left | now right].
           rewrite exists_in_add_events.
           apply (exists_in_external_write (pdf_path self paper)).
        -- apply wp_ret. discriminate.
Qed.

(** X3.  On Windows [download_single_paper] never raises: whatever IDM, the
    server and the disk do, it returns a pair of a flag and the paper it was
    given; and when the flag is true the canonical PDF exists, so that
    [check_paper_exists] holds afterwards. *)
Theorem windows_download_returns_and_success_has_pdf (env : Env) (self : Crawler)
    (paper : Paper) (retry : nat) (w : World) :
  exists success w',
    Windows.download_single_paper env self paper retry w = (Ret (success, paper), w')
    /\ (success = true -> check_paper_exists self paper w' = (Ret true, w')).
Proof.
  pose proof (windows_download_outcome env self paper retry w) as H. unfold wp in H.
  destruct (Windows.download_single_paper env self paper retry w)
    as [[[success q]|e] w']; [|contradiction].
  cbn [fst snd] in H. destruct H as [-> H].
  exists success, w'. split; [reflexivity|]. intros Hs.
  unfold check_paper_exists, path_exists, get_date_dir, format_date. cbv zeta.
  unfold pdf_path, get_date_dir, format_date in H. now rewrite (H Hs).
Qed.

(** X4.  On Linux [download_single_paper] either returns a flag with the
    paper it was given, or raises [SystemExit(1)], and that only when aria2c
    cannot be started.  A true flag means that the canonical PDF exists, or
    that aria2c exited with code 0 without having written it. *)
Theorem linux_download_outcomes (env : Env) (self : Crawler) (paper : Paper)
    (retry : nat) (w : World) :
  let cmd := Linux.aria2c_cmd self (pdf_dir self /: strftime_Ymd (published paper))
               (get_short_id paper) (pdf_url paper) in
  (exists success w',
     Linux.download_single_paper env self paper retry w = (Ret (success, paper), w')
     /\ (success = true ->
         check_paper_exists self paper w' = (Ret true, w')
         \/ aria2c env cmd = AriaExit 0 None))
  \/ (exists w',
        Linux.download_single_paper env self paper retry w = (Raise (SystemExit 1), w')
        /\ aria2c env cmd = AriaNotFound).
Proof.
  intros cmd.
  pose proof (linux_download_outcome env self paper retry w) as H.
  unfold wp in H. fold cmd in H.
  destruct (Linux.download_single_paper env self paper retry w)
    as [[[success q]|e] w'].
  - left. cbn [fst snd] in H. destruct H as [-> H].
    exists success, w'. split; [reflexivity|]. intros Hs.
    destruct (H Hs) as [Hex|Hexit]; [left|now right].
    unfold check_paper_exists, path_exists, get_date_dir, format_date. cbv zeta.
    unfold pdf_path, get_date_dir, format_date in Hex. now rewrite Hex.
  - right. destruct H as [-> H]. now exists w'.
Qed.

(** X5.  The exit code of aria2c is all the Linux download looks at: when
    aria2c exits with 0, the download reports success without any request,
    even if aria2c wrote no file; the paper then still counts as absent for
    [check_paper_exists]. *)
Theorem linux_trusts_aria2c_exit_code (env : Env) (self : Crawler) (paper : Paper)
    (retry : nat) (w : World) (written : option string) :
  let date_pdf_dir := pdf_dir self /: strftime_Ymd (published paper) in
  let cmd := Linux.aria2c_cmd self date_pdf_dir (get_short_id paper) (pdf_url paper) in
  exists_in w (pdf_path self paper) = false ->
  aria2c env cmd = AriaExit 0 written ->
  exists w',
    Linux.download_single_paper env self paper retry w = (Ret (true, paper), w')
    /\ trace w' = trace w ++ [Mkdir date_pdf_dir;
                              Log INFO ("正在下载: " +:+ title paper);
                              Subprocess cmd;
                              Log DEBUG ("aria2c 下载成功: " +:+ title paper)]
    /\ http_count w' = http_count w
    /\ files w' = match written with
                  | Some body => <[pdf_path self paper := Bytes body]> (files w)
                  | None => files w
                  end
    /\ (written = None -> check_paper_exists self paper w' = (Ret false, w')).
Proof.
  intros date_pdf_dir cmd Hnew Hexit.
  unfold Linux.download_single_paper, bind at 1, mkdir_p. cbv zeta.
  unfold bind at 1, path_exists.
  rewrite (exists_in_more_dirs _ _ _ _ (trace w) _ (http_count w))
    by apply (pdf_path_not_date_dir self paper paper).
  rewrite exists_in_eta.
  pose proof Hnew as Hnew'.
  unfold pdf_path, get_date_dir, format_date in Hnew'. rewrite Hnew'.
  unfold bind at 1, logging at 1, emit.
  unfold bind at 1, try_with, bind at 1, Linux.subprocess_run.
  fold date_pdf_dir. fold cmd. rewrite Hexit. cbn [Z.eqb].
  unfold bind, logging, emit, ret, add_events.
  eexists. split; [reflexivity|].
  destruct written as [body|]; cbn [external_write trace http_count files];
    rewrite <- ?app_assoc; (split; [reflexivity|]); (split; [reflexivity|]);
    (split; [reflexivity|]); [discriminate|].
  intros _. unfold check_paper_exists, path_exists. cbv zeta. f_equal. f_equal.
  transitivity (exists_in w (pdf_path self paper)); [|exact Hnew].
  rewrite <- (exists_in_eta w).
  apply exists_in_more_dirs, (pdf_path_not_date_dir self paper paper).
Qed.

(** The theorem with an aria2c that exits with 0 and writes nothing. *)
Lemma linux_trusts_aria2c_exit_code_witness :
  let env := {| search_results := []; aria2c := fun _ => AriaExit 0 None;
                idm := fun _ => IdmStarted None;
                http_get := fun _ _ => HttpError "unreachable";
                write_faults := fun _ => None; query := "";
                today := "2024-01-06"; now := ""; lower := Sample.ascii_lower |} in
  exists w',
    Linux.download_single_paper env Sample.self Sample.p1 3 Sample.empty_world
    = (Ret (true, Sample.p1), w')
    /\ check_paper_exists Sample.self Sample.p1 w' = (Ret false, w').
Proof.
  intros env.
  destruct (linux_trusts_aria2c_exit_code env Sample.self Sample.p1 3
              Sample.empty_world None eq_refl eq_refl)
    as (w' & Heq & _ & _ & _ & Hcheck).
  exists w'. split; [exact Heq | exact (Hcheck eq_refl)].
Defined.

(** ** Polling for the file of IDM *)

Lemma repeat_sleep_filter (n : nat) :
  List.filter is_Sleep (repeat (Sleep 1) n) = repeat (Sleep 1) n
  /\ List.filter is_HttpGet (repeat (Sleep 1) n) = [].
Proof.
  induction n as [|n [IH1 IH2]]; [now split|]. cbn [repeat List.filter is_Sleep is_HttpGet].
  now rewrite IH1, IH2.
Qed.

(** The file shows up [delay] seconds after IDM was started, within the
    budget: the loop sleeps until then and ends. *)
Lemma wait_for_file_arrives (paper : Paper) (target : path) (delay : nat)
    (body : string) (budget elapsed : nat) (w : World) :
  exists_in w target = false ->
  elapsed <= delay -> delay <= elapsed + budget ->
  Windows.wait_for_file paper target (Some (delay, body)) budget elapsed w
  = (Ret tt, external_write target (Some body)
               (add_events (repeat (Sleep 1) (delay - elapsed)) w)).
Proof.
  revert elapsed w. induction budget as [|budget IH]; intros elapsed w Hnew Hlo Hhi;
    cbn [Windows.wait_for_file]; unfold Windows.delivered;
    destruct (Nat.leb_spec delay elapsed) as [Hle|Hgt].
  - rewrite exists_in_external_write.
    replace (delay - elapsed) with 0 by lia. cbn [repeat]. now rewrite add_events_nil.
  - lia.
  - rewrite exists_in_external_write.
    replace (delay - elapsed) with 0 by lia. cbn [repeat]. now rewrite add_events_nil.
  - rewrite Hnew. unfold bind, sleep, emit.
    rewrite IH by (rewrite ?exists_in_add_events; auto; lia).
    rewrite add_events_app.
    replace (delay - elapsed) with (S (delay - S elapsed)) by lia. reflexivity.
Qed.

(** The file does not show up within the budget: the loop sleeps the whole
    budget and logs the timeout. *)
Lemma wait_for_file_times_out (paper : Paper) (target : path)
    (appears : option (nat * string)) (budget elapsed : nat) (w : World) :
  exists_in w target = false ->
  match appears with
  | Some (delay, _) => elapsed + budget < delay
  | None => True
  end ->
  Windows.wait_for_file paper target appears budget elapsed w
  = (Ret tt, add_events (repeat (Sleep 1) budget
                         ++ [Log ERROR ("IDM 下载超时: " +:+ title paper)]) w).
Proof.
  revert elapsed w. induction budget as [|budget IH]; intros elapsed w Hnew Hlate;
    cbn [Windows.wait_for_file].
  all: assert (Hd : Windows.delivered target appears elapsed w = w).
  1, 3: unfold Windows.delivered; destruct appears as [[delay body]|];
        [destruct (Nat.leb_spec delay elapsed); [lia|]|]; reflexivity.
  all: rewrite Hd, Hnew.
  - reflexivity.
  - unfold bind, sleep, emit.
    rewrite IH; [now rewrite add_events_app| now rewrite exists_in_add_events|].
    destruct appears as [[delay body]|]; [lia | exact I].
Qed.

Lemma find_some {A} (f : A -> bool) (l : list A) :
  Exists (fun x => f x = true) l -> exists x, List.find f l = Some x.
Proof.
  induction 1 as [x l Hx|x l Hl IH]; cbn [List.find].
  - rewrite Hx. eauto.
  - destruct (f x); eauto.
Qed.

Lemma exists_in_grown (w : World) (made : list path) (evs : list event) (n : nat)
    (p : path) :
  exists_in w p = true ->
  exists_in {| files := files w; dirs := dirs w ∪ list_to_set made; trace := evs;
               http_count := n |} p = true.
Proof.
  unfold exists_in. cbn [files dirs]. rewrite !orb_true_iff, !bool_decide_eq_true.
  intros [H|H]; [now left | right]. apply elem_of_union. now left.
Qed.

(** The Windows download up to the polling loop, when IDM is installed and
    starts. *)
Lemma windows_download_idm_started (env : Env) (self : Crawler) (paper : Paper)
    (retry : nat) (w : World) (appears : option (nat * string)) :
  exists_in w (pdf_path self paper) = false ->
  Exists (fun exe => exists_in w exe = true) Windows.idm_paths ->
  (forall cmd, idm env cmd = IdmStarted appears) ->
  exists cmd w0,
    exists_in w0 (pdf_path self paper) = false
    /\ files w0 = files w /\ http_count w0 = http_count w
    /\ trace w0 = trace w ++ [Mkdir (pdf_dir self /: strftime_Ymd (published paper));
                              Log INFO ("正在下载: " +:+ title paper);
                              Subprocess cmd]
    /\ forall w2,
         Windows.wait_for_file paper (pdf_path self paper) appears
           (S Windows.timeout) 0 w0 = (Ret tt, w2) ->
         Windows.download_single_paper env self paper retry w
         = if exists_in w2 (pdf_path self paper)
           then (Ret (true, paper),
                 add_events [Log DEBUG ("IDM 下载成功: " +:+ title paper)] w2)
           else http_fallback env (pdf_path self paper) paper retry (seq 0 retry) w2.
Proof.
  intros Hnew Hexe Hidm.
  set (w1 := {| files := files w;
                dirs := dirs w ∪ list_to_set
                          (prefixes (pdf_dir self /: strftime_Ymd (published paper)));
                trace := (trace w ++ [Mkdir (pdf_dir self /: strftime_Ymd (published paper))])
                         ++ [Log INFO ("正在下载: " +:+ title paper)];
                http_count := http_count w |}).
  destruct (find_some (exists_in w1) Windows.idm_paths) as [exe Hfind].
  { eapply List.Exists_impl; [|exact Hexe]. intros exe H. now apply exists_in_grown. }
  assert (Hnew1 : forall evs, exists_in
                    {| files := files w;
                       dirs := dirs w ∪ list_to_set
                                 (prefixes (pdf_dir self /: strftime_Ymd (published paper)));
                       trace := evs; http_count := http_count w |}
                    (pdf_path self paper) = false).
  { intros evs. rewrite <- Hnew, <- (exists_in_eta w).
    apply exists_in_more_dirs, (pdf_path_not_date_dir self paper paper). }
  eexists _, (add_events [Subprocess _] w1).
  split; [apply Hnew1|]. split; [reflexivity|]. split; [reflexivity|].
  split; [unfold w1; cbn [add_events trace]; now rewrite <- !app_assoc|].
  intros w2 Hw.
  unfold Windows.download_single_paper, bind at 1, mkdir_p. cbv zeta.
  unfold bind at 1, path_exists.
  pose proof (Hnew1 (trace w ++ [Mkdir (pdf_dir self /: strftime_Ymd (published paper))]))
    as Hn. unfold pdf_path, get_date_dir, format_date in Hn. rewrite Hn.
  unfold bind at 1, logging at 1, emit. fold w1.
  change (add_events [Log INFO ("正在下载: " +:+ title paper)] _) with w1.
  unfold bind at 1, try_with, bind at 1, Windows.find_idm. rewrite Hfind.
  unfold bind at 1, Windows.subprocess_run. rewrite Hidm.
  unfold bind at 1.
  change (pdf_dir self /: strftime_Ymd (published paper)
            /: (get_short_id paper +:+ ".pdf")) with (pdf_path self paper).
  unfold add_events in Hw. cbn [trace files dirs http_count] in Hw. unfold w1.
  cbn [trace files dirs http_count]. rewrite Hw.
  unfold bind at 1, path_exists.
  destruct (exists_in w2 (pdf_path self paper)); reflexivity.
Qed.

(** X6.  With IDM installed and started, the presence of the file decides: if
    the PDF shows up [delay] seconds after the start, with [delay] at most
    301, the Windows download sleeps [delay] times one second, sends no
    request and reports success; the file is the one IDM wrote. *)
Theorem idm_delivery_within_timeout_is_success (env : Env) (self : Crawler)
    (paper : Paper) (retry : nat) (w : World) (delay : nat) (body : string) :
  exists_in w (pdf_path self paper) = false ->
  Exists (fun exe => exists_in w exe = true) Windows.idm_paths ->
  (forall cmd, idm env cmd = IdmStarted (Some (delay, body))) ->
  delay <= 301 ->
  exists evs w',
    Windows.download_single_paper env self paper retry w = (Ret (true, paper), w')
    /\ files w' = <[pdf_path self paper := Bytes body]> (files w)
    /\ http_count w' = http_count w
    /\ trace w' = trace w ++ evs
    /\ List.filter is_Sleep evs = repeat (Sleep 1) delay
    /\ List.filter is_HttpGet evs = [].
Proof.
  intros Hnew Hexe Hidm Hdelay.
  destruct (windows_download_idm_started env self paper retry w _ Hnew Hexe Hidm)
    as (cmd & w0 & Hnew0 & Hf0 & Hn0 & Ht0 & Hrun).
  rewrite (Hrun _ (wait_for_file_arrives paper _ delay body _ 0 w0 Hnew0
                     (Nat.le_0_l _) Hdelay)).
  rewrite exists_in_external_write. rewrite Nat.sub_0_r.
  destruct (repeat_sleep_filter delay) as [Hs Hg].
  exists ([Mkdir (pdf_dir self /: strftime_Ymd (published paper));
           Log INFO ("正在下载: " +:+ title paper); Subprocess cmd]
          ++ repeat (Sleep 1) delay
          ++ [Log DEBUG ("IDM 下载成功: " +:+ title paper)]).
  eexists. split; [reflexivity|].
  cbn [add_events external_write files http_count trace].
  rewrite Hf0, Hn0, Ht0, <- !app_assoc.
  split; [reflexivity|]. split; [reflexivity|]. split; [reflexivity|].
  rewrite !List.filter_app, Hs, Hg. cbn [List.filter is_Sleep is_HttpGet app].
  rewrite app_nil_r. now split.
Qed.

(** The theorem with IDM installed and a file that shows up after 2
    seconds. *)
Lemma idm_delivery_within_timeout_is_success_witness :
  let env := {| search_results := []; aria2c := fun _ => AriaNotFound;
                idm := fun _ => IdmStarted (Some (2, "%PDF"));
                http_get := fun _ _ => HttpError "unreachable";
                write_faults := fun _ => None; query := "";
                today := "2024-01-06"; now := ""; lower := Sample.ascii_lower |} in
  let w := {| files := {[ ["C:\Program Files\Internet Download Manager\IDMan.exe"]
                          := Bytes "MZ" ]};
              dirs := ∅; trace := []; http_count := 0 |} in
  exists evs w',
    Windows.download_single_paper env Sample.self Sample.p1 3 w
    = (Ret (true, Sample.p1), w')
    /\ trace w' = trace w ++ evs
    /\ List.filter is_Sleep evs = [Sleep 1; Sleep 1].
Proof.
  intros env w.
  assert (Hexe : Exists (fun exe => exists_in w exe = true) Windows.idm_paths)
    by (right; left; reflexivity).
  destruct (idm_delivery_within_timeout_is_success env Sample.self Sample.p1 3 w
              2 "%PDF" eq_refl Hexe (fun _ => eq_refl) ltac:(lia))
    as (evs & w' & Heq & _ & _ & Ht & Hs & _).
  exists evs, w'. split; [exact Heq|]. split; [exact Ht | exact Hs].
Defined.

(** X7.  With IDM installed and started, if the PDF does not show up within
    301 seconds (later, or never), the Windows download sleeps 301 times one
    second, logs the timeout and then goes on with the HTTP fallback, from a
    world whose files are unchanged. *)
Theorem idm_timeout_then_fallback (env : Env) (self : Crawler) (paper : Paper)
    (retry : nat) (w : World) (appears : option (nat * string)) :
  exists_in w (pdf_path self paper) = false ->
  Exists (fun exe => exists_in w exe = true) Windows.idm_paths ->
  (forall cmd, idm env cmd = IdmStarted appears) ->
  match appears with
  | Some (delay, _) => 301 < delay
  | None => True
  end ->
  exists evs w1,
    Windows.download_single_paper env self paper retry w
    = http_fallback env (pdf_path self paper) paper retry (seq 0 retry) w1
    /\ files w1 = files w
    /\ http_count w1 = http_count w
    /\ trace w1 = trace w ++ evs
    /\ List.filter is_Sleep evs = repeat (Sleep 1) 301
    /\ List.filter is_HttpGet evs = []
    /\ List.last evs (Sleep 0) = Log ERROR ("IDM 下载超时: " +:+ title paper).
Proof.
  intros Hnew Hexe Hidm Hlate.
  destruct (windows_download_idm_started env self paper retry w _ Hnew Hexe Hidm)
    as (cmd & w0 & Hnew0 & Hf0 & Hn0 & Ht0 & Hrun).
  rewrite (Hrun _ (wait_for_file_times_out paper _ appears _ 0 w0 Hnew0 Hlate)).
  rewrite exists_in_add_events, Hnew0.
  destruct (repeat_sleep_filter (S Windows.timeout)) as [Hs Hg].
  exists ([Mkdir (pdf_dir self /: strftime_Ymd (published paper));
           Log INFO ("正在下载: " +:+ title paper); Subprocess cmd]
          ++ repeat (Sleep 1) (S Windows.timeout)
          ++ [Log ERROR ("IDM 下载超时: " +:+ title paper)]).
  eexists. split; [reflexivity|].
  cbn [add_events files http_count trace].
  rewrite Hf0, Hn0, Ht0, <- !app_assoc.
  split; [reflexivity|]. split; [reflexivity|]. split; [reflexivity|].
  rewrite !List.filter_app, Hs, Hg. cbn [List.filter is_Sleep is_HttpGet app].
  rewrite app_nil_r. split; [reflexivity|]. split; [reflexivity|].
  change (?a :: ?b :: ?c :: ?l) with ([a; b; c] ++ l).
  rewrite app_assoc. apply last_last.
Qed.

(** The theorem with IDM installed and a file that never shows up. *)
Lemma idm_timeout_then_fallback_witness :
  let env := {| search_results := []; aria2c := fun _ => AriaNotFound;
                idm := fun _ => IdmStarted None;
                http_get := fun _ _ => HttpResponse 200 "%PDF";
                write_faults := fun _ => None; query := "";
                today := "2024-01-06"; now := ""; lower := Sample.ascii_lower |} in
  let w := {| files := {[ ["C:\Program Files\Internet Download Manager\IDMan.exe"]
                          := Bytes "MZ" ]};
              dirs := ∅; trace := []; http_count := 0 |} in
  exists evs w1,
    Windows.download_single_paper env Sample.self Sample.p1 3 w
    = http_fallback env (pdf_path Sample.self Sample.p1) Sample.p1 3 (seq 0 3) w1
    /\ trace w1 = trace w ++ evs
    /\ length (List.filter is_Sleep evs) = 301.
Proof.
  intros env w.
  assert (Hexe : Exists (fun exe => exists_in w exe = true) Windows.idm_paths)
    by (right; left; reflexivity).
  destruct (idm_timeout_then_fallback env Sample.self Sample.p1 3 w None
              eq_refl Hexe (fun _ => eq_refl) I)
    as (evs & w1 & Heq & _ & _ & Ht & Hs & _).
  exists evs, w1. split; [exact Heq|]. split; [exact Ht|].
  rewrite Hs. apply repeat_length.
Defined.

(** ** A write that breaks off *)

Lemma http_fallback_step_write_fails (env : Env) (target : path) (paper : Paper)
    (retry attempt : nat) (rest : list nat) (w : World) (body msg : string)
    (partial : content) :
  http_get env (http_count w) (pdf_url paper) = HttpResponse 200 body ->
  write_faults env target = Some (WriteFails msg partial) ->
  http_fallback env target paper retry (attempt :: rest) w
  = http_fallback env target paper retry rest
      {| files := <[target := partial]> (files w); dirs := dirs w;
         trace := trace w ++
           [HttpGet (pdf_url paper) 30; WriteFile target;
            Log WARNING ("下载失败 (尝试 " +:+ decimal (attempt + 1) +:+ "/"
                         +:+ decimal retry +:+ "): " +:+ msg);
            Sleep 3];
         http_count := S (http_count w) |}.
Proof.
  intros Hget Hw. cbn -[String.append].
  unfold bind at 1, try_with, bind at 1, requests_get. rewrite Hget.
  cbn -[String.append].
  unfold bind at 1, write_file. rewrite Hw. cbn -[String.append].
  unfold bind, logging, sleep, emit, ret, add_events, set_file. cbn -[String.append].
  now rewrite <- !app_assoc.
Qed.

Lemma http_fallback_partial (env : Env) (target : path) (paper : Paper)
    (retry : nat) (attempts : list nat) (w : World) (msg : string) (partial : content) :
  always_200 env (pdf_url paper) ->
  write_faults env target = Some (WriteFails msg partial) ->
  exists evs w',
    http_fallback env target paper retry attempts w = (Ret (false, paper), w')
    /\ trace w' = trace w ++ evs
    /\ List.filter is_Sleep evs = repeat (Sleep 3) (length attempts)
    /\ (forall q, q <> target -> files w' !! q = files w !! q)
    /\ (attempts <> [] -> files w' !! target = Some partial).
Proof.
  intros Hsrv Hw. revert w. induction attempts as [|attempt rest IH]; intros w.
  - exists [Log ERROR ("所有下载方式均失败: " +:+ title paper)]. eexists.
    split; [reflexivity|]. split; [reflexivity|]. split; [reflexivity|].
    split; [reflexivity | congruence].
  - destruct (Hsrv (http_count w)) as (body & Hget).
    rewrite (http_fallback_step_write_fails _ _ _ _ _ _ _ _ _ _ Hget Hw).
    match goal with
    | |- context [http_fallback _ _ _ _ _ ?w1] =>
        destruct (IH w1) as (evs & w' & Heq & Ht & Hs & Hframe & Hfile)
    end.
    cbn [files trace] in Ht, Hframe, Hfile.
    exists ([HttpGet (pdf_url paper) 30; WriteFile target;
             Log WARNING ("下载失败 (尝试 " +:+ decimal (attempt + 1) +:+ "/"
                          +:+ decimal retry +:+ "): " +:+ msg);
             Sleep 3] ++ evs), w'.
    split; [exact Heq|]. split; [now rewrite Ht, <- app_assoc|].
    split; [rewrite List.filter_app, Hs; reflexivity|].
    split.
    + intros q Hq. rewrite Hframe by exact Hq. now apply lookup_insert_ne.
    + intros _. destruct rest as [|attempt' rest'].
      * cbn -[String.append] in Heq. unfold bind, logging, emit, ret in Heq.
        injection Heq as <-. apply lookup_insert_eq.
      * apply Hfile. discriminate.
Qed.

(** X8.  A partial file passes for a download.  When the server answers 200
    but every write of the PDF breaks off, leaving [partial] on disk, the
    fallback reports failure after [retry] attempts (sleeping 3 seconds after
    each), and the partial file stays: [check_paper_exists] is true for the
    paper afterwards. *)
Theorem interrupted_write_leaves_partial_file (env : Env) (self : Crawler)
    (paper : Paper) (retry : nat) (w : World) (msg : string) (partial : content) :
  always_200 env (pdf_url paper) ->
  write_faults env (pdf_path self paper) = Some (WriteFails msg partial) ->
  0 < retry ->
  exists evs w',
    http_fallback env (pdf_path self paper) paper retry (seq 0 retry) w
    = (Ret (false, paper), w')
    /\ trace w' = trace w ++ evs
    /\ List.filter is_Sleep evs = repeat (Sleep 3) retry
    /\ files w' !! pdf_path self paper = Some partial
    /\ (forall q, q <> pdf_path self paper -> files w' !! q = files w !! q)
    /\ check_paper_exists self paper w' = (Ret true, w').
Proof.
  intros Hsrv Hw Hretry.
  destruct (http_fallback_partial env (pdf_path self paper) paper retry (seq 0 retry)
              w msg partial Hsrv Hw) as (evs & w' & Heq & Ht & Hs & Hframe & Hfile).
  rewrite length_seq in Hs.
  assert (Hp : files w' !! pdf_path self paper = Some partial).
  { apply Hfile. destruct retry; [lia | discriminate]. }
  exists evs, w'. repeat (split; [assumption|]).
  unfold check_paper_exists, path_exists. cbv zeta. f_equal. f_equal.
  apply exists_in_file. change (is_Some (files w' !! pdf_path self paper)).
  rewrite Hp. eauto.
Qed.

(** The theorem with a disk that fills up while the PDF is written. *)
Lemma interrupted_write_leaves_partial_file_witness :
  let env := {| search_results := []; aria2c := fun _ => AriaExit 1 None;
                idm := fun _ => IdmStarted None;
                http_get := fun _ _ => HttpResponse 200 "%PDF-1.7 ...";
                write_faults := fun _ =>
                  Some (WriteFails "[Errno 28] No space left on device" (Bytes "%PDF"));
                query := ""; today := "2024-01-06"; now := "";
                lower := Sample.ascii_lower |} in
  exists w',
    http_fallback env (pdf_path Sample.self Sample.p1) Sample.p1 3 (seq 0 3)
      Sample.empty_world = (Ret (false, Sample.p1), w')
    /\ check_paper_exists Sample.self Sample.p1 w' = (Ret true, w').
Proof.
  intros env.
  destruct (interrupted_write_leaves_partial_file env Sample.self Sample.p1 3
              Sample.empty_world "[Errno 28] No space left on device" (Bytes "%PDF")
              (fun _ => ex_intro _ "%PDF-1.7 ..." eq_refl) eq_refl ltac:(lia))
    as (evs & w' & Heq & _ & _ & _ & _ & Hcheck).
  exists w'. split; [exact Heq | exact Hcheck].
Defined.

(** ** A run that finds nothing new *)

(** X9.  When no relevant search result is new (all are on disk, or there is
    none), [run] -- of the base class and of both subclasses -- ends after the
    line that says so: it calls no download function, saves nothing and
    writes no digest; the world only gains the log lines of the search. *)
Theorem run_without_new_papers
    (download_paper : Paper -> M pyvalue)
    (download_single_paper : Env -> Crawler -> Paper -> nat -> M (bool * Paper))
    (schedule : list Paper -> list Paper) (env : Env) (self : Crawler) (w : World) :
  new_papers_of env self w = [] ->
  let w' := add_events (discover_log env self w ++ [Log INFO "没有新的论文需要下载"]) w in
  base_run download_paper env self w = (Ret tt, w')
  /\ pool_run download_single_paper schedule env self w = (Ret tt, w')
  /\ files w' = files w /\ dirs w' = dirs w /\ http_count w' = http_count w.
Proof.
  intros Hnone w'. unfold base_run, pool_run, bind. rewrite discover_spec, Hnone.
  unfold logging, emit. rewrite add_events_app. now repeat split.
Qed.

(** The theorem on Linux, in a world where both relevant sample papers are on
    disk. *)
Lemma run_without_new_papers_witness :
  let w := {| files := {[ pdf_path Sample.self Sample.p1 := Bytes "%PDF";
                          pdf_path Sample.self Sample.p2 := Bytes "%PDF" ]};
              dirs := ∅; trace := []; http_count := 0 |} in
  new_papers_of Sample.env_ok Sample.self w = []
  /\ fst (Linux.run (fun l => l) Sample.env_ok Sample.self w) = Ret tt
  /\ files (snd (Linux.run (fun l => l) Sample.env_ok Sample.self w)) = files w.
Proof.
  intros w.
  assert (Hnone : new_papers_of Sample.env_ok Sample.self w = [])
    by (vm_compute; reflexivity).
  split; [exact Hnone|].
  destruct (run_without_new_papers (fun _ => ret py_None) Linux.download_single_paper
              (fun l => l) Sample.env_ok Sample.self w Hnone) as (_ & Hrun & _).
  unfold Linux.run. rewrite Hrun. now split.
Defined.

(** ** The digest of a non-empty mapping *)

Lemma ltb_false_leb (a b : string) : String.ltb a b = false -> String.leb b a = true.
Proof.
  unfold String.ltb, String.leb. rewrite (String.compare_antisym a b).
  now destruct (String.compare b a).
Qed.

Lemma ltb_true_leb (a b : string) : String.ltb a b = true -> String.leb a b = true.
Proof. intros H. now apply ltb_leb_ne in H. Qed.

Lemma fold_min_spec (rest : list string) (k : string) :
  let lo := fold_left (fun m x => if String.ltb x m then x else m) rest k in
  In lo (k :: rest) /\ forall x, In x (k :: rest) -> String.leb lo x = true.
Proof.
  revert k. induction rest as [|y rest IH]; intros k; cbn [fold_left].
  - split; [now left|]. intros x [Hx|[]]. subst x. apply leb_refl.
  - destruct (IH (if String.ltb y k then y else k)) as [Hin Hle]. split.
    + destruct Hin as [Hin|Hin]; [|now right; right].
      rewrite <- Hin. destruct (String.ltb y k); [right; now left | now left].
    + intros x [Hx|[Hx|Hx]]; [subst x|subst x|].
      * eapply leb_trans; [apply Hle; now left|].
        destruct (String.ltb y k) eqn:E; [now apply ltb_true_leb | apply leb_refl].
      * eapply leb_trans; [apply Hle; now left|].
        destruct (String.ltb y k) eqn:E; [apply leb_refl | now apply ltb_false_leb].
      * apply Hle. now right.
Qed.

Lemma fold_max_spec (rest : list string) (k : string) :
  let hi := fold_left (fun m x => if String.ltb m x then x else m) rest k in
  In hi (k :: rest) /\ forall x, In x (k :: rest) -> String.leb x hi = true.
Proof.
  revert k. induction rest as [|y rest IH]; intros k; cbn [fold_left].
  - split; [now left|]. intros x [Hx|[]]. subst x. apply leb_refl.
  - destruct (IH (if String.ltb k y then y else k)) as [Hin Hle]. split.
    + destruct Hin as [Hin|Hin]; [|now right; right].
      rewrite <- Hin. destruct (String.ltb k y); [right; now left | now left].
    + intros x [Hx|[Hx|Hx]]; [subst x|subst x|].
      * eapply leb_trans; [|apply Hle; now left].
        destruct (String.ltb k y) eqn:E; [now apply ltb_true_leb | apply leb_refl].
      * eapply leb_trans; [|apply Hle; now left].
        destruct (String.ltb k y) eqn:E; [apply leb_refl | now apply ltb_false_leb].
      * apply Hle. now right.
Qed.

(** In a sorted list every element is the last one or related to it. *)
Lemma sorted_last {A} (R : A -> A -> Prop) (l : list A) (d x : A) :
  StronglySorted R l -> In x l -> x = List.last l d \/ R x (List.last l d).
Proof.
  induction 1 as [|a l Hs IH Ha]; [intros []|].
  destruct l as [|b l]; [intros [<-|[]]; now left|].
  intros [Hx|Hx]; [subst x|].
  - right. rewrite List.Forall_forall in Ha. apply Ha.
    change (List.last (a :: b :: l) d) with (List.last (b :: l) d).
    destruct (exists_last (l:=b :: l)) as (init & z & ->); [discriminate|].
    rewrite last_last. apply in_or_app. right. now left.
  - change (List.last (a :: b :: l) d) with (List.last (b :: l) d). now apply IH.
Qed.

Lemma last_in {A} (l : list A) (d : A) : l <> [] -> In (List.last l d) l.
Proof.
  intros H. destruct (exists_last H) as (init & z & ->).
  rewrite last_last. apply in_or_app. right. now left.
Qed.

(** X10.  For every non-empty mapping whose digest file can be written,
    [generate_markdown] completes: it writes the title, the sections and the
    statistics with the date range and the timestamp, and logs the path.  The
    range printed is the least and the greatest key, which are the dates of
    the last and of the first section. *)
Theorem generate_markdown_nonempty_completes (env : Env) (self : Crawler)
    (papers_by_date : list (string * list Paper)) (date : string) (w : World) :
  papers_by_date <> [] ->
  write_faults env (markdown_path self date) = None ->
  exists lo hi rest,
    generate_markdown env self (Some papers_by_date) date w
    = (Ret tt,
       {| files := <[markdown_path self date :=
                       Text (digest_prefix env papers_by_date date
                             +:+ digest_suffix env lo hi)]> (files w);
          dirs := dirs w ∪ list_to_set (prefixes (markdown_dir self));
          trace := trace w ++ [Mkdir (markdown_dir self);
                               WriteFile (markdown_path self date);
                               Log INFO ("Markdown 文档已生成: "
                                         +:+ str_path (markdown_path self date))];
          http_count := http_count w |})
    /\ (forall k, In k (map fst papers_by_date) ->
                  String.leb lo k = true /\ String.leb k hi = true)
    /\ map fst (digest_sections env papers_by_date) = hi :: rest
    /\ List.last (map fst (digest_sections env papers_by_date)) hi = lo.
Proof.
  intros Hne Hw.
  destruct papers_by_date as [|[k l] others] eqn:Ed; [congruence|]. rewrite <- Ed.
  set (keys := map fst papers_by_date).
  assert (Hkeys : keys = k :: map fst others) by (unfold keys; now rewrite Ed).
  destruct (fold_min_spec (map fst others) k) as [Hlo_in Hlo].
  destruct (fold_max_spec (map fst others) k) as [Hhi_in Hhi].
  set (lo := fold_left (fun m x => if String.ltb x m then x else m) (map fst others) k) in *.
  set (hi := fold_left (fun m x => if String.ltb m x then x else m) (map fst others) k) in *.
  rewrite <- Hkeys in Hlo_in, Hlo, Hhi_in, Hhi.
  assert (Hsorted : StronglySorted (fun a b => String.leb b a = true)
                      (map fst (digest_sections env papers_by_date))).
  { rewrite digest_sections_keys.
    apply (sort_by_sorted (fun a b => String.leb b a)).
    - intros x y. apply String.leb_total.
    - intros x y z H1 H2. eapply leb_trans; eauto. }
  assert (Hperm : Permutation (map fst (digest_sections env papers_by_date)) keys).
  { rewrite digest_sections_keys. apply sort_by_perm. }
  assert (Hin : forall x, In x (map fst (digest_sections env papers_by_date)) <-> In x keys).
  { intros x. split; apply Permutation_in; [exact Hperm | now symmetry]. }
  destruct (map fst (digest_sections env papers_by_date)) as [|h rest] eqn:Esecs.
  { apply Permutation_nil in Hperm. rewrite Hkeys in Hperm. discriminate. }
  exists lo, hi, rest. split; [|split; [|split]].
  - unfold generate_markdown, bind at 1, mkdir_p.
    fold keys. rewrite Hkeys. cbn [py_min py_max]. fold lo. fold hi.
    unfold bind, write_file. unfold markdown_path in Hw. rewrite Hw.
    unfold logging, emit, add_events, set_file, markdown_path.
    cbn [files dirs trace http_count]. now rewrite <- !app_assoc.
  - intros x Hx. split; [now apply Hlo | now apply Hhi].
  - f_equal. apply String.leb_antisym.
    + apply Hhi, Hin. now left.
    + apply StronglySorted_inv in Hsorted as [_ Hall].
      apply Hin in Hhi_in. destruct Hhi_in as [->|Hhi_in]; [apply leb_refl|].
      rewrite List.Forall_forall in Hall. now apply Hall.
  - apply Hin in Hlo_in.
    destruct (sorted_last _ _ hi lo Hsorted Hlo_in) as [->|Hle]; [reflexivity|].
    apply String.leb_antisym; [exact Hle|].
    apply Hlo, Hin, last_in. discriminate.
Qed.

(** The theorem at a mapping of two dates. *)
Lemma generate_markdown_nonempty_completes_witness :
  let d := [("2024-01-05", [Sample.p1; Sample.p2]); ("2024-01-06", [Sample.p3])] in
  exists lo hi rest,
    fst (generate_markdown Sample.env_ok Sample.self (Some d) "2024-01-06"
           Sample.empty_world) = Ret tt
    /\ map fst (digest_sections Sample.env_ok d) = hi :: rest
    /\ List.last (map fst (digest_sections Sample.env_ok d)) hi = lo.
Proof.
  intros d.
  destruct (generate_markdown_nonempty_completes Sample.env_ok Sample.self d
              "2024-01-06" Sample.empty_world ltac:(discriminate) eq_refl)
    as (lo & hi & rest & Heq & _ & Hhd & Hlast).
  exists lo, hi, rest. rewrite Heq. now split.
Defined.

Lemma total_papers_concat (d : list (string * list Paper)) :
  total_papers d = length (concat (map snd d)).
Proof.
  induction d as [|[k l] d IH]; [reflexivity|].
  cbn [total_papers fold_right map concat snd]. rewrite length_app.
  now rewrite <- IH.
Qed.

Lemma concat_perm {A} (l1 l2 : list (list A)) :
  Permutation l1 l2 -> Permutation (concat l1) (concat l2).
Proof.
  induction 1 as [|x l1 l2 H IH|x y l|l1 l2 l3 H1 IH1 H2 IH2]; cbn [concat].
  - reflexivity.
  - now apply Permutation_app_head.
  - rewrite !app_assoc. apply Permutation_app_tail, Permutation_app_comm.
  - now transitivity (concat l2).
Qed.

(** X11.  The digest neither loses nor repeats a record: the records of its
    sections, taken together, are those of the input lists, and their number
    is the total the statistics print. *)
Theorem digest_holds_every_record_once (env : Env)
    (papers_by_date : list (string * list Paper)) :
  Permutation (concat (map snd (digest_sections env papers_by_date)))
              (concat (map snd papers_by_date))
  /\ total_papers papers_by_date
     = length (concat (map snd (digest_sections env papers_by_date))).
Proof.
  assert (H : Permutation (concat (map snd (digest_sections env papers_by_date)))
                          (concat (map snd papers_by_date))).
  { unfold digest_sections. rewrite map_map.
    transitivity (concat (map snd (sort_by date_before papers_by_date))).
    - generalize (sort_by date_before papers_by_date). intros s.
      induction s as [|[k l] s IH]; [reflexivity|]. cbn [map concat snd].
      apply Permutation_app; [apply sort_by_perm | exact IH].
    - apply concat_perm, Permutation_map, sort_by_perm. }
  split; [exact H|]. rewrite total_papers_concat.
  symmetry. now apply Permutation_length.
Qed.

(** ** The crawler only adds to the disk *)

Lemma world_le_refl (w : World) : world_le w w.
Proof.
  repeat split; auto. exists []. now rewrite app_nil_r.
Qed.

Lemma world_le_trans (w1 w2 w3 : World) :
  world_le w1 w2 -> world_le w2 w3 -> world_le w1 w3.
Proof.
  intros (Hf1 & Hd1 & (e1 & Ht1) & Hn1) (Hf2 & Hd2 & (e2 & Ht2) & Hn2).
  repeat split; auto.
  - etransitivity; eauto.
  - exists (e1 ++ e2). now rewrite Ht2, Ht1, app_assoc.
  - lia.
Qed.

Lemma world_le_step (w : World) (fs : gmap path content) (d : gset path)
    (evs : list event) (n : nat) :
  (forall p, is_Some (files w !! p) -> is_Some (fs !! p)) ->
  dirs w ⊆ d -> http_count w <= n ->
  world_le w {| files := fs; dirs := d; trace := trace w ++ evs; http_count := n |}.
Proof. intros Hf Hd Hn. repeat split; eauto. Qed.

Lemma is_Some_insert (fs : gmap path content) (q p : path) (c : content) :
  is_Some (fs !! p) -> is_Some (<[q := c]> fs !! p).
Proof.
  intros H. destruct (decide (q = p)) as [->|Hne].
  - rewrite lookup_insert_eq. eauto.
  - now rewrite lookup_insert_ne.
Qed.

Lemma world_le_exists_in (w w' : World) (p : path) :
  world_le w w' -> exists_in w p = true -> exists_in w' p = true.
Proof.
  intros (Hf & Hd & _) H. unfold exists_in in *.
  rewrite orb_true_iff, !bool_decide_eq_true in *.
  destruct H as [H|H]; [left; auto | right; set_solver].
Qed.

Lemma world_le_external_write (p : path) (c : option string) (w : World) :
  world_le w (external_write p c w).
Proof.
  destruct c as [b|]; [|apply world_le_refl]. unfold external_write.
  rewrite <- (app_nil_r (trace w)).
  apply world_le_step; auto. intros q. apply is_Some_insert.
Qed.

Section Extends.

Context {A B : Type}.

Lemma extends_ret (a : A) : extends (ret a).
Proof. intros w. apply world_le_refl. Qed.

Lemma extends_raise (e : exn) : extends (@raise A e).
Proof. intros w. apply world_le_refl. Qed.

Lemma extends_bind (m : M A) (k : A -> M B) :
  extends m -> (forall a, extends (k a)) -> extends (bind m k).
Proof.
  intros Hm Hk w. unfold bind. specialize (Hm w).
  destruct (m w) as [[a|e] w1]; [|exact Hm].
  eapply world_le_trans; [exact Hm | apply Hk].
Qed.

Lemma extends_try_with (m : M A) (h : exn -> option (M A)) :
  extends m -> (forall e k, h e = Some k -> extends k) -> extends (try_with m h).
Proof.
  intros Hm Hh w. unfold try_with. specialize (Hm w).
  destruct (m w) as [[a|e] w1]; [exact Hm|].
  destruct (h e) as [k|] eqn:E; [|exact Hm].
  eapply world_le_trans; [exact Hm | apply (Hh e k E)].
Qed.

End Extends.

Lemma extends_emit (ev : event) : extends (emit ev).
Proof. intros w. apply world_le_step; auto. Qed.

Lemma extends_logging (lvl : level) (msg : string) : extends (logging lvl msg).
Proof. apply extends_emit. Qed.

Lemma extends_sleep (secs : nat) : extends (sleep secs).
Proof. apply extends_emit. Qed.

Lemma extends_mkdir_p (p : path) : extends (mkdir_p p).
Proof. intros w. apply world_le_step; auto. set_solver. Qed.

Lemma extends_path_exists (p : path) : extends (path_exists p).
Proof. intros w. apply world_le_refl. Qed.

Lemma extends_write_file (env : Env) (p : path) (c : content) :
  extends (write_file env p c).
Proof.
  intros w. unfold write_file.
  destruct (write_faults env p) as [[msg|msg partial]|]; cbn [snd];
    [apply world_le_refl| |];
    apply world_le_step; auto; intros q; apply is_Some_insert.
Qed.

Lemma extends_interrupted_write (env : Env) (p : path) (c : content) (e : exn) :
  extends (interrupted_write env p c e).
Proof.
  intros w. unfold interrupted_write.
  destruct (write_faults env p) as [[msg|msg partial]|]; cbn [snd];
    [apply world_le_refl| |];
    apply world_le_step; auto; intros q; apply is_Some_insert.
Qed.

Lemma extends_requests_get (env : Env) (url : string) (t : nat) :
  extends (requests_get env url t).
Proof.
  intros w. unfold requests_get.
  destruct (http_get env (http_count w) url); cbn [snd]; apply world_le_step; auto.
Qed.

(** Goes through a computation built from these operations. *)
Ltac extends_tac :=
  repeat first
    [ progress intros
    | apply extends_bind
    | apply extends_ret
    | apply extends_raise
    | apply extends_logging
    | apply extends_sleep
    | apply extends_mkdir_p
    | apply extends_path_exists
    | apply extends_write_file
    | apply extends_interrupted_write
    | apply extends_requests_get
    | match goal with
      | |- extends (if ?b then _ else _) => destruct b
      | |- extends (match ?x with _ => _ end) => destruct x
      end ].

Lemma extends_http_fallback (env : Env) (target : path) (paper : Paper)
    (retry : nat) (attempts : list nat) :
  extends (http_fallback env target paper retry attempts).
Proof.
  induction attempts as [|attempt rest IH]; cbn [http_fallback]; [extends_tac|].
  apply extends_bind.
  - apply extends_try_with; [extends_tac|].
    intros e k. destruct (is_Exception e); [|discriminate].
    intros [= <-]. extends_tac.
  - intros [|]; [extends_tac | exact IH].
Qed.

Lemma extends_linux_subprocess_run (env : Env) (cmd : list string) (target : path) :
  extends (Linux.subprocess_run env cmd target).
Proof.
  intros w. unfold Linux.subprocess_run.
  destruct (aria2c env cmd) as [|msg|code written]; cbn [snd];
    try (apply world_le_step; now auto).
  eapply world_le_trans; [|apply world_le_external_write].
  apply world_le_step; auto.
Qed.

Lemma extends_linux_download (env : Env) (self : Crawler) (paper : Paper) (retry : nat) :
  extends (Linux.download_single_paper env self paper retry).
Proof.
  unfold Linux.download_single_paper. cbv zeta.
  apply extends_bind; [extends_tac|]. intros _.
  apply extends_bind; [extends_tac|]. intros [|]; [extends_tac|].
  apply extends_bind; [extends_tac|]. intros _.
  apply extends_bind.
  - apply extends_try_with.
    + apply extends_bind; [apply extends_linux_subprocess_run | extends_tac].
    + intros e k. destruct e; intros [= <-]; extends_tac.
  - intros [|]; [extends_tac | apply extends_http_fallback].
Qed.

Lemma extends_wait_for_file (paper : Paper) (target : path)
    (appears : option (nat * string)) (budget elapsed : nat) :
  extends (Windows.wait_for_file paper target appears budget elapsed).
Proof.
  revert elapsed. induction budget as [|budget IH]; intros elapsed w;
    cbn [Windows.wait_for_file].
  all: assert (Hd : world_le w (Windows.delivered target appears elapsed w))
         by (unfold Windows.delivered; destruct appears as [[delay body]|];
             [destruct (Nat.leb delay elapsed)|];
             first [apply world_le_external_write | apply world_le_refl]).
  all: destruct (exists_in (Windows.delivered target appears elapsed w) target);
       [exact Hd|]; eapply world_le_trans; [exact Hd|].
  - apply extends_logging.
  - apply (extends_bind (sleep 1)); [apply extends_sleep | intros _; apply IH].
Qed.

Lemma extends_windows_download (env : Env) (self : Crawler) (paper : Paper)
    (retry : nat) :
  extends (Windows.download_single_paper env self paper retry).
Proof.
  unfold Windows.download_single_paper. cbv zeta.
  apply extends_bind; [extends_tac|]. intros _.
  apply extends_bind; [extends_tac|]. intros [|]; [extends_tac|].
  apply extends_bind; [extends_tac|]. intros _.
  apply extends_bind.
  - apply extends_try_with.
    + apply extends_bind; [intros w; apply world_le_refl|].
      intros [exe|]; [|extends_tac].
      apply extends_bind.
      { intros w. unfold Windows.subprocess_run.
        destruct (idm env _); cbn [snd]; apply world_le_step; auto. }
      intros appears.
      apply extends_bind; [apply extends_wait_for_file | extends_tac].
    + intros e k. destruct (is_Exception e); [|discriminate].
      intros [= <-]. extends_tac.
  - intros [|]; [extends_tac | apply extends_http_fallback].
Qed.

Lemma extends_submit_all {A} (task : Paper -> M A) (papers : list Paper) :
  (forall paper, extends (task paper)) -> extends (submit_all task papers).
Proof.
  intros Htask. induction papers as [|paper rest IH]; intros w; cbn [submit_all].
  - apply world_le_refl.
  - specialize (Htask paper w). destruct (task paper w) as [future w1].
    eapply world_le_trans; [exact Htask|].
    apply (extends_bind (submit_all task rest)); [exact IH | extends_tac].
Qed.

Lemma extends_save_paper_info (env : Env) (self : Crawler) (paper : Paper) :
  extends (save_paper_info env self paper).
Proof. unfold save_paper_info. cbv zeta. extends_tac. Qed.

Lemma extends_collect (env : Env) (self : Crawler)
    (futures : list (result (bool * Paper))) (acc : list Paper) :
  extends (collect env self futures acc).
Proof.
  revert acc. induction futures as [|future rest IH]; intros acc; cbn [collect].
  - extends_tac.
  - destruct future as [[[|] paper]|e]; [| apply IH | extends_tac].
    apply extends_bind; [apply extends_save_paper_info | intros _; apply IH].
Qed.

Lemma extends_generate_markdown (env : Env) (self : Crawler)
    (papers_by_date : option (list (string * list Paper))) (date : string) :
  extends (generate_markdown env self papers_by_date date).
Proof.
  unfold generate_markdown. cbv zeta.
  apply extends_bind; [extends_tac|]. intros _.
  destruct (py_min _); [destruct (py_max _)|]; extends_tac.
Qed.

Lemma extends_finish_run (env : Env) (self : Crawler) (papers : list Paper) :
  extends (finish_run env self papers).
Proof.
  unfold finish_run. destruct papers; [extends_tac|].
  apply extends_bind; [extends_tac|]. intros _.
  apply extends_bind; [apply extends_generate_markdown | extends_tac].
Qed.

Lemma extends_discover (env : Env) (self : Crawler) : extends (discover env self).
Proof.
  intros w. rewrite discover_spec. cbn [snd]. apply world_le_step; auto.
Qed.

Lemma extends_pool_run
    (download_single_paper : Env -> Crawler -> Paper -> nat -> M (bool * Paper))
    (schedule : list Paper -> list Paper) (env : Env) (self : Crawler) :
  (forall paper retry, extends (download_single_paper env self paper retry)) ->
  extends (pool_run download_single_paper schedule env self).
Proof.
  intros Hd. unfold pool_run.
  apply extends_bind; [apply extends_discover|]. intros [|paper rest]; [extends_tac|].
  apply extends_bind; [extends_tac|]. intros _.
  apply extends_bind; [apply extends_submit_all; intros p; apply Hd|]. intros futures.
  apply extends_bind; [apply extends_collect | apply extends_finish_run].
Qed.

Lemma extends_base_run (download_paper : Paper -> M pyvalue) (env : Env)
    (self : Crawler) :
  (forall paper, extends (download_paper paper)) ->
  extends (base_run download_paper env self).
Proof.
  intros Hd. unfold base_run.
  apply extends_bind; [apply extends_discover|]. intros [|paper rest]; [extends_tac|].
  apply extends_bind; [extends_tac|]. intros _.
  apply extends_bind; [|apply extends_finish_run].
  generalize (@nil Paper). generalize (paper :: rest). intros l.
  induction l as [|p l IH]; intros acc; cbn [download_loop]; [extends_tac|].
  apply extends_bind; [apply Hd|]. intros ok.
  destruct (truthy ok); [|apply IH].
  apply extends_bind; [apply extends_save_paper_info | intros _; apply IH].
Qed.

(** X12.  Neither [run] of a subclass nor [run] of the base class ever removes
    anything: every file and every directory that exists before the run
    exists after it, however the run ends, and the log of the run continues
    the log before it. *)
Theorem run_never_removes_a_file (schedule : list Paper -> list Paper) (env : Env)
    (self : Crawler) (w : World) (run : M unit) :
  run = Linux.run schedule env self
  \/ run = Windows.run schedule env self
  \/ run = base_run (fun paper => Linux.download_paper env self paper 3) env self
  \/ run = base_run (fun paper => Windows.download_paper env self paper 3) env self ->
  (forall p, is_Some (files w !! p) -> is_Some (files (snd (run w)) !! p))
  /\ dirs w ⊆ dirs (snd (run w))
  /\ (forall p, exists_in w p = true -> exists_in (snd (run w)) p = true)
  /\ exists evs, trace (snd (run w)) = trace w ++ evs.
Proof.
  intros Hrun.
  assert (H : extends run).
  { destruct Hrun as [-> | [-> | [-> | ->]]].
    - apply extends_pool_run. intros. apply extends_linux_download.
    - apply extends_pool_run. intros. apply extends_windows_download.
    - apply extends_base_run. intros p. unfold Linux.download_paper, download_paper_with.
      apply extends_bind; [apply extends_linux_download | extends_tac].
    - apply extends_base_run. intros p. unfold Windows.download_paper, download_paper_with.
      apply extends_bind; [apply extends_windows_download | extends_tac]. }
  specialize (H w).
  assert (Hex : forall p, exists_in w p = true -> exists_in (snd (run w)) p = true)
    by (intros p; now apply world_le_exists_in).
  destruct H as (Hf & Hd & Ht & _). repeat split; auto.
Qed.

(** The theorem on the Linux run in a world that holds one PDF. *)
Lemma run_never_removes_a_file_witness :
  is_Some (files (snd (Linux.run (fun l => l) Sample.env_500 Sample.self
                         Sample.world_with_p1))
           !! pdf_path Sample.self Sample.p1).
Proof.
  apply (run_never_removes_a_file (fun l => l) Sample.env_500 Sample.self
           Sample.world_with_p1 _ (or_introl eq_refl)).
  eexists. vm_compute. reflexivity.
Defined.

(** ** What a run leaves for the next one *)

Lemma submit_all_successes_on_disk (self : Crawler) (task : Paper -> M (bool * Paper))
    (papers : list Paper) (w : World) (futures : list (result (bool * Paper)))
    (w2 : World) :
  (forall paper, extends (task paper)) ->
  (forall paper w0,
     wp (task paper)
        (fun r w' => snd r = paper
                     /\ (fst r = true -> exists_in w' (pdf_path self paper) = true))
        (fun _ _ => True) w0) ->
  submit_all task papers w = (Ret futures, w2) ->
  forall paper, In paper (successes futures) ->
                exists_in w2 (pdf_path self paper) = true.
Proof.
  intros Hext Hok. revert w futures.
  induction papers as [|p rest IH]; intros w futures Hsub paper Hin.
  - cbn [submit_all] in Hsub. unfold ret in Hsub. injection Hsub as <- <-.
    destruct Hin.
  - cbn [submit_all] in Hsub. pose proof (Hok p w) as Hp. unfold wp in Hp.
    destruct (task p w) as [future w1].
    pose proof (extends_submit_all task rest Hext w1) as Hle.
    unfold bind, ret in Hsub.
    destruct (submit_all task rest w1) as [[fs|e] w'] eqn:Erest; [|discriminate].
    injection Hsub as <- <-. cbn [snd] in Hle.
    cbn [successes flat_map] in Hin. apply in_app_or in Hin as [Hin|Hin].
    + destruct future as [[[|] q]|e]; cbn [In] in Hin; try contradiction.
      destruct Hin as [<-|[]]. cbn [fst snd] in Hp. destruct Hp as [-> Hp].
      eapply world_le_exists_in; [exact Hle | now apply Hp].
    + eapply IH; eauto.
Qed.

Lemma pool_run_successes_on_disk
    (download_single_paper : Env -> Crawler -> Paper -> nat -> M (bool * Paper))
    (schedule : list Paper -> list Paper) (env : Env) (self : Crawler) (w : World)
    (futures : list (result (bool * Paper))) (w2 : World) :
  (forall paper retry, extends (download_single_paper env self paper retry)) ->
  (forall paper w0,
     wp (download_single_paper env self paper 3)
        (fun r w' => snd r = paper
                     /\ (fst r = true -> exists_in w' (pdf_path self paper) = true))
        (fun _ _ => True) w0) ->
  new_papers_of env self w <> [] ->
  submit_all (fun paper => download_single_paper env self paper 3)
    (schedule (new_papers_of env self w)) (pool_start env self w) = (Ret futures, w2) ->
  forall paper, In paper (successes futures) ->
    let w' := snd (pool_run download_single_paper schedule env self w) in
    check_paper_exists self paper w' = (Ret true, w')
    /\ forall env', ~ In paper (new_papers_of env' self w').
Proof.
  intros Hext Hok Hne Hsub paper Hin w'.
  assert (Hex : exists_in w' (pdf_path self paper) = true).
  { unfold w'. rewrite (pool_run_unfold _ _ _ _ _ _ _ Hne Hsub).
    eapply world_le_exists_in.
    - apply (extends_bind (collect env self futures [])).
      + apply extends_collect.
      + apply extends_finish_run.
    - exact (submit_all_successes_on_disk self _ _ _ futures w2
               (fun p => Hext p 3) Hok Hsub paper Hin). }
  split.
  - unfold check_paper_exists, path_exists, get_date_dir, format_date. cbv zeta.
    unfold pdf_path, get_date_dir, format_date in Hex. now rewrite Hex.
  - intros env' Hnew. unfold new_papers_of in Hnew.
    apply filter_In in Hnew as [_ Hnew]. rewrite Hex in Hnew. discriminate.
Qed.

(** X13.  What a run reports as downloaded, the next run skips.  After
    [run] on Windows, every paper whose download returned success has its PDF
    on disk -- whether or not the saves and the digest went through -- and so
    is not among the new papers of any later search.  The same holds on Linux
    unless aria2c exits with 0 without writing the file. *)
Theorem downloaded_papers_are_not_new_again (schedule : list Paper -> list Paper)
    (env : Env) (self : Crawler) (w : World) :
  new_papers_of env self w <> [] ->
  (forall futures w2,
     submit_all (fun paper => Windows.download_single_paper env self paper 3)
       (schedule (new_papers_of env self w)) (pool_start env self w)
     = (Ret futures, w2) ->
     forall paper, In paper (successes futures) ->
       let w' := snd (Windows.run schedule env self w) in
       check_paper_exists self paper w' = (Ret true, w')
       /\ forall env', ~ In paper (new_papers_of env' self w'))
  /\ ((forall cmd, aria2c env cmd <> AriaExit 0 None) ->
      forall futures w2,
        submit_all (fun paper => Linux.download_single_paper env self paper 3)
          (schedule (new_papers_of env self w)) (pool_start env self w)
        = (Ret futures, w2) ->
        forall paper, In paper (successes futures) ->
          let w' := snd (Linux.run schedule env self w) in
          check_paper_exists self paper w' = (Ret true, w')
          /\ forall env', ~ In paper (new_papers_of env' self w')).
Proof.
  intros Hne. split.
  - intros futures w2 Hsub.
    apply (pool_run_successes_on_disk Windows.download_single_paper schedule env self
             w futures w2); auto.
    + intros. apply extends_windows_download.
    + intros paper w0. eapply wp_mono; [| |apply windows_download_outcome]; easy.
  - intros Haria futures w2 Hsub.
    apply (pool_run_successes_on_disk Linux.download_single_paper schedule env self
             w futures w2); auto.
    + intros. apply extends_linux_download.
    + intros paper w0. eapply wp_mono; [| |apply linux_download_outcome]; [|easy].
      intros r w' [H1 H2]. split; [exact H1|]. intros Hs.
      destruct (H2 Hs) as [H|H]; [exact H|]. now apply Haria in H.
Qed.

(** The theorem on Windows with the server that refuses one of the two new
    papers. *)
Lemma downloaded_papers_are_not_new_again_witness :
  let env := Sample.env_mixed in
  let w := Sample.empty_world in
  let w' := snd (Windows.run (fun l => l) env Sample.self w) in
  new_papers_of env Sample.self w <> []
  /\ check_paper_exists Sample.self Sample.p1 w' = (Ret true, w')
  /\ ~ In Sample.p1 (new_papers_of env Sample.self w').
Proof.
  intros env w w'.
  assert (Hne : new_papers_of env Sample.self w <> [])
    by (vm_compute; discriminate).
  split; [exact Hne|].
  set (out := submit_all (fun paper => Windows.download_single_paper env Sample.self paper 3)
                (new_papers_of env Sample.self w) (pool_start env Sample.self w)).
  assert (Hout : fst out = Ret [Ret (true, Sample.p1); Ret (false, Sample.p2)])
    by (vm_compute; reflexivity).
  assert (Hsub : out = (Ret [Ret (true, Sample.p1); Ret (false, Sample.p2)], snd out))
    by (rewrite <- Hout; now destruct out).
  destruct (proj1 (downloaded_papers_are_not_new_again (fun l => l) env Sample.self
                     w Hne) _ _ Hsub Sample.p1 (or_introl eq_refl)) as [H1 H2].
  split; [exact H1 | exact (H2 env)].
Defined.

(** ** The layout on disk *)

Lemma string_append_length (a b : string) :
  String.length (a +:+ b) = String.length a + String.length b.
Proof.
  induction a as [|c a IH]; [reflexivity|].
  rewrite append_cons. cbn [String.length]. now rewrite IH.
Qed.

Lemma string_append_inv_r (a b s : string) : a +:+ s = b +:+ s -> a = b.
Proof.
  revert b. induction a as [|c a IH]; intros [|d b] H.
  - reflexivity.
  - apply (f_equal String.length) in H.
    rewrite append_nil, append_cons in H. cbn [String.length] in H.
    rewrite string_append_length in H. lia.
  - apply (f_equal String.length) in H.
    rewrite append_nil, append_cons in H. cbn [String.length] in H.
    rewrite string_append_length in H. lia.
  - rewrite !append_cons in H. injection H as -> H. f_equal. now apply IH.
Qed.

(** X14.  The three trees never meet: a PDF path is never a metadata path or
    a digest path, and a metadata path is never a digest path.  Within a tree
    two papers share a path exactly when they agree on the identifier and on
    the formatted date of the tree (published for PDFs, updated for
    metadata). *)
Theorem storage_paths_do_not_collide (self : Crawler) :
  (forall p q, pdf_path self p <> info_path self q)
  /\ (forall p date, pdf_path self p <> markdown_path self date)
  /\ (forall p date, info_path self p <> markdown_path self date)
  /\ (forall p q,
        pdf_path self p = pdf_path self q <->
        strftime_Ymd (published p) = strftime_Ymd (published q)
        /\ get_short_id p = get_short_id q)
  /\ (forall p q,
        info_path self p = info_path self q <->
        strftime_Ymd (updated p) = strftime_Ymd (updated q)
        /\ get_short_id p = get_short_id q).
Proof.
  split; [|split; [|split; [|split]]].
  - intros p q H. apply (info_path_not_pdf self q). now exists p.
  - intros p date H. apply (markdown_path_not_pdf self date). now exists p.
  - intros p date. apply info_path_not_markdown.
  - intros p q. unfold pdf_path, get_date_dir, format_date, pdf_dir, pjoin. split.
    + intros H. rewrite <- !app_assoc in H. apply app_inv_head in H.
      cbn [app] in H. injection H as H1 H2. split; [exact H1|].
      now apply string_append_inv_r in H2.
    + intros [-> ->]. reflexivity.
  - intros p q. unfold info_path, get_date_dir, info_dir, pjoin. split.
    + intros H. rewrite <- !app_assoc in H. apply app_inv_head in H.
      cbn [app] in H. injection H as H1 H2. split; [exact H1|].
      now apply string_append_inv_r in H2.
    + intros [-> ->]. reflexivity.
Qed.

(** ** The query *)

Lemma string_append_assoc (a b c : string) : (a +:+ b) +:+ c = a +:+ b +:+ c.
Proof.
  induction a as [|x a IH]; [reflexivity|]. rewrite !append_cons. now rewrite IH.
Qed.

Lemma concat_quoted_empty (sep : string) (keywords : list string) :
  String.concat sep (map quoted keywords) = "" <-> keywords = [].
Proof.
  split; [|now intros ->].
  destruct keywords as [|kw rest]; [reflexivity|].
  cbn [map String.concat]. unfold quoted, double_quote.
  destruct (map _ rest); rewrite !append_cons; discriminate.
Qed.

(** X15.  [build_query] brings in the secondary clause exactly when there is
    a secondary keyword (be it the empty string): with none, the query is the
    primary clause, the window of [days_back] days and the categories; with
    some, their OR-ed list is AND-ed in between. *)
Theorem build_query_secondary_clause (minus_days : datetime -> nat -> datetime)
    (self : Crawler) (today : datetime) :
  let primary := String.concat " OR " (map quoted (primary_keywords self)) in
  let secondary := String.concat " OR " (map quoted (secondary_keywords self)) in
  let window := " AND lastUpdatedDate:["
                +:+ strftime_Ymd_compact (minus_days today (days_back self))
                +:+ "0000 TO " +:+ strftime_Ymd_compact today +:+ "2359]" in
  let cats := " AND (cat:cs.CV OR cat:cs.LG OR cat:cs.AI)" in
  (secondary_keywords self = [] ->
   build_query minus_days self today = "(" +:+ primary +:+ ")" +:+ window +:+ cats)
  /\ (secondary_keywords self <> [] ->
      build_query minus_days self today
      = "(" +:+ primary +:+ ") AND (" +:+ secondary +:+ ")" +:+ window +:+ cats).
Proof.
  intros primary secondary window cats. unfold build_query. cbv zeta.
  fold primary. fold secondary. split; intros H.
  - rewrite (proj2 (concat_quoted_empty " OR " _) H : secondary = "").
    unfold window, cats. now rewrite !string_append_assoc.
  - destruct secondary as [|c s] eqn:E.
    + apply concat_quoted_empty in E. contradiction.
    + unfold window, cats. now rewrite !string_append_assoc.
Qed.

(** The theorem at a crawler without secondary keywords. *)
Lemma build_query_secondary_clause_witness :
  let self := {| save_dir := ["papers"]; days_back := 14; max_workers := 5;
                 silent := false; primary_keywords := ["diffusion model"];
                 secondary_keywords := [] |} in
  secondary_keywords self = []
  /\ build_query (fun d _ => d) self {| year := 2024; month := 1; day := 6 |}
     = "(" +:+ quoted "diffusion model" +:+ ")"
       +:+ " AND lastUpdatedDate:[202401060000 TO 202401062359]"
       +:+ " AND (cat:cs.CV OR cat:cs.LG OR cat:cs.AI)".
Proof.
  intros self. split; [reflexivity|].
  exact (proj1 (build_query_secondary_clause (fun d _ => d) self
                  {| year := 2024; month := 1; day := 6 |}) eq_refl).
Defined.

(** ** No failure without its log line *)

Lemma http_fallback_failure_logged (env : Env) (target : path) (paper : Paper)
    (retry : nat) (attempts : list nat) (w : World) :
  wp (http_fallback env target paper retry attempts)
     (fun r w' => fst r = false -> exists before, trace w' = before ++ [failure_log paper])
     (fun _ _ => False) w.
Proof.
  revert w. induction attempts as [|attempt rest IH]; intros w; cbn [http_fallback].
  - apply wp_bind, wp_logging, wp_ret. intros _. now exists (trace w).
  - apply wp_bind.
    apply (wp_mono _ (fun _ _ => True) _ (fun _ _ => False)); [|auto|].
    + intros [|] w' _; [apply wp_ret; discriminate | apply IH].
    + apply wp_try_with, wp_bind, wp_requests_get. intros w' _ _.
      destruct (http_get env (http_count w) (pdf_url paper)) as [code body|msg].
      * cbn [fst snd]. destruct (Nat.eqb code 200).
        -- apply wp_bind, wp_write_file.
           destruct (write_faults env target) as [[m|m partial]|]; cbn [is_Exception];
             repeat first [apply wp_bind | apply wp_logging | apply wp_sleep
                          | apply wp_ret]; exact I.
        -- apply wp_bind, wp_logging, wp_ret. exact I.
      * cbn [is_Exception]. apply wp_bind, wp_logging, wp_bind, wp_sleep, wp_ret.
        exact I.
Qed.

Lemma windows_failure_logged (env : Env) (self : Crawler) (paper : Paper)
    (retry : nat) (w : World) :
  wp (Windows.download_single_paper env self paper retry)
     (fun r w' => fst r = false -> exists before, trace w' = before ++ [failure_log paper])
     (fun _ _ => True) w.
Proof.
  unfold Windows.download_single_paper. cbv zeta.
  apply wp_bind, wp_mkdir_p, wp_bind, wp_path_exists.
  match goal with |- context [if ?b then _ else _] => destruct b end.
  - apply wp_bind, wp_logging, wp_ret. discriminate.
  - apply wp_bind, wp_logging.
    pose proof (windows_download_outcome env self paper retry w) as Hout.
    apply wp_bind.
    match goal with
    | |- wp ?m _ _ ?w0 =>
        unfold wp at 1; destruct (m w0) as [[[|]|e] w1]; [| |exact I]
    end.
    + apply wp_ret. discriminate.
    + eapply wp_mono; [| |apply http_fallback_failure_logged]; [auto|easy].
Qed.

Lemma linux_failure_logged (env : Env) (self : Crawler) (paper : Paper)
    (retry : nat) (w : World) :
  wp (Linux.download_single_paper env self paper retry)
     (fun r w' => fst r = false -> exists before, trace w' = before ++ [failure_log paper])
     (fun _ _ => True) w.
Proof.
  unfold Linux.download_single_paper. cbv zeta.
  apply wp_bind, wp_mkdir_p, wp_bind, wp_path_exists.
  match goal with |- context [if ?b then _ else _] => destruct b end.
  - apply wp_bind, wp_logging, wp_ret. discriminate.
  - apply wp_bind, wp_logging, wp_bind.
    match goal with
    | |- wp ?m _ _ ?w0 =>
        unfold wp at 1; destruct (m w0) as [[[|]|e] w1]; [| |exact I]
    end.
    + apply wp_ret. discriminate.
    + eapply wp_mono; [| |apply http_fallback_failure_logged]; [auto|easy].
Qed.

(** X16.  No failure goes unreported: whenever [download_single_paper], on
    either platform, returns [(False, paper)], the last thing it did was to
    log the error line that names the paper. *)
Theorem failed_download_ends_with_error_log (env : Env) (self : Crawler)
    (paper : Paper) (retry : nat) (w w' : World) (paper' : Paper) :
  Linux.download_single_paper env self paper retry w = (Ret (false, paper'), w')
  \/ Windows.download_single_paper env self paper retry w = (Ret (false, paper'), w') ->
  List.last (trace w') (Sleep 0) = Log ERROR ("所有下载方式均失败: " +:+ title paper).
Proof.
  intros [H|H].
  - pose proof (linux_failure_logged env self paper retry w) as Hwp.
    unfold wp in Hwp. rewrite H in Hwp. destruct (Hwp eq_refl) as [before ->].
    apply last_last.
  - pose proof (windows_failure_logged env self paper retry w) as Hwp.
    unfold wp in Hwp. rewrite H in Hwp. destruct (Hwp eq_refl) as [before ->].
    apply last_last.
Qed.

(** The theorem on Linux with the server that always answers 500. *)
Lemma failed_download_ends_with_error_log_witness :
  let out := Linux.download_single_paper Sample.env_500 Sample.self Sample.p1 3
               Sample.empty_world in
  fst out = Ret (false, Sample.p1)
  /\ List.last (trace (snd out)) (Sleep 0)
     = Log ERROR ("所有下载方式均失败: " +:+ title Sample.p1).
Proof.
  intros out.
  assert (Hout : fst out = Ret (false, Sample.p1)) by (vm_compute; reflexivity).
  split; [exact Hout|].
  apply (failed_download_ends_with_error_log Sample.env_500 Sample.self Sample.p1 3
           Sample.empty_world (snd out) Sample.p1).
  left. rewrite <- Hout. apply surjective_pairing.
Defined.
